(* ===== verification/_CoqProject ===== *)
-Q . S2P
Prelude.v
Http.v
Uri.v
Startup.v
Url.v
Proxy.v
Router.v
Conditional.v
Static.v
Server.v
