(* ===== verification/Prelude.v ===== *)
(** * tfassign frontend servers: a verification development

    ** The program

    The repository holds two variants of one Node.js frontend server:

    - [src/2EC2/frontend/server.js] reads [BACKEND_URL] from the
      environment and exits with status 1 when it is unset or empty
      (lines 6-11); it builds an Express app (line 13) that mounts
      [createProxyMiddleware] from http-proxy-middleware at ['/api'] with
      [changeOrigin] and the path rewrite ['^/api' -> ''] (lines 17-23),
      then [express.static] on [public/] (line 26), then a GET route for
      ['/'] that sends [public/index.html] (lines 29-31), and listens on
      0.0.0.0:3000, logging two lines once bound (lines 33-36);
    - [src/ECS/frontend/server.js] is the same app with the environment
      check and the proxy commented out (lines 15-42).

    All the behaviour beyond these few lines lives in the libraries the
    files call (Express 4's router, serve-static and send,
    http-proxy-middleware, http-proxy, Node's [url.parse]).  The
    development translates the parts of those libraries the two files
    exercise, from their sources, so that the theorems speak about what a
    client of the running server observes.

    ** Files

    - [Prelude] (this file): string functions with the JavaScript
      meaning the models need ([startsWith], [split], [join], [indexOf],
      [replace], case folding), the [tf] hint databases, tactics and the
      generic lemmas on strings and lists.
    - [Http]: requests (method, mutable [req.url], [req.originalUrl],
      headers as a [gmap], body, HTTP version), responses, the
      [outcome] of an Express middleware ([Respond], [next()],
      [next(err)]), and the major version of http-proxy-middleware
      ([hpm_version]).
    - [Uri]: [decodeURIComponent] on strings of bytes, used by [send]
      and by [url.parse].
    - [Startup]: the top-level script of each file in a small monad
      [script] of observable effects with early exit ([process.exit]):
      [main_2EC2] and [main_ECS], with [hpm_created] for the lines
      http-proxy-middleware 2 logs when the proxy is created and [listen]
      for [app.listen].
    - [Url]: Node's legacy [url.parse] ([NodeUrl]: trimming, protocol,
      the [URIError] of the user information, the hostname checks of
      [getHostname], [hostnameMaxLen], [forbiddenHostChars] and IPv6
      brackets; [None] where it throws) and http-proxy's [urlJoin]
      ([HttpProxyCommon]).
    - [Proxy]: the /api middleware: [prepare_request] (restore of the
      original URL in version 2 and [pathRewrite]), [delete_length],
      [setup_outgoing], the protocol check of [http.request]
      ([outgoing_request]), [relay] and the default [error_response], composed
      in [proxy_middleware]; the upstream is the interface class
      [Upstream]; [ProxySpec] is the contract of spec section 4.1.
    - [Router]: Express's layer stack ([Use] for [app.use], [Route] for
      [app.get]), mount and route matching, [trim_prefix]/[restore] of
      the mount path, finalhandler's 404 and error pages (an error's
      status, its [err.headers] and the headers already on [res] but its
      content headers, [final_error]), the automatic OPTIONS answer, [expressInit]'s [X-Powered-By] ([powered]) and [handle].
    - [Conditional]: the pure helpers [send] 0.19 decides a found
      file's answer with: [parseTokenList], the [fresh] package,
      [isConditionalGET], [isPreconditionFailure], [isRangeFresh], the
      [range-parser] package with [combineRanges] (a stable sort by start,
      the merging loop, the original order restored), [parseInt] and
      [contentRange]; the runtime's [Date.parse] is a section variable.
    - [Static]: serve-static and send: percent-decoding ([Uri]), the NUL and [..] checks, POSIX normalisation, the legacy
      dotfile rule, index files, directory redirects, [fallthrough], and
      for a found file [send_found]: its headers, 412 and 304 for
      conditional requests, 416 and 206 for ranges, the whole file with
      its length otherwise, no body for HEAD; errors carry the headers set
      on [res] and [err.headers] to finalhandler ([send_result]); the
      [res.sendFile] of the ['/'] route.  The directory [public/] and
      [Date.parse] are the interface class [StaticRoot].
    - [Server]: the stacks [app_2EC2] and [app_ECS] as the files register
      them, [upstream_request] (the request the upstream receives), and
      the process as a step relation: [Booting] runs the script once and
      either exits or serves; serving answers each request with
      [app_handle] of the fixed stack.

    ** Theorems

    - Startup (C4-C7): a missing or empty [BACKEND_URL] prints the
      diagnostic and exits 1 before any bind; a halt always has status 1
      and no bind; with a URL and a free port the server prints the two
      [[HPM]] lines of http-proxy-middleware 2 (none with version 3),
      binds 0.0.0.0:3000, logs its two lines and serves with that target;
      the ECS script ignores the environment.
    - Proxy (C1-C3, C9, C10, C24-C28): for a target [url.parse] reads as
      an http(s) URL with path [/] and a plain ASCII hostname, the
      middleware refines the spec's contract (method, target path,
      [host], body and the other headers; the reply relayed), and for a
      [BACKEND_URL] of the form [scheme://host[:port]] (which [url.parse]
      reads as that origin, [parse_origin]) the request goes to that host
      and port; the 2EC2 app hands every ['/api'] path to the proxy; the
      relayed reply header by header; a target [url.parse] throws on, or
      reads with a protocol other than [http:] or [https:] (as
      [backend:8080]), gives finalhandler's 500 on every proxied request;
      versions 2 and 3 of http-proxy-middleware agree on ordinary paths,
      and for every path of the three other forms they disagree: the
      prefix in another letter case ([/API/...]) is kept by version 2,
      [/api/api/...] loses both prefixes in version 3, and the query of
      [/api?q] goes through [url.parse]'s autoEscape in version 2; the
      reply gains [X-Powered-By].
    - Static files and routing (C8, C11-C13, C15, C18, C19, C22, C23,
      C29): paths outside ['/api'] are answered as by the ECS app;
      [GET /] serves [index.html] whatever the proxy target; an existing
      asset is served with 200 and a missing one gets 404 without the
      proxy; every refusal of [send] below 500 (the 403 of a [..] path,
      the 400 of a bad escape) reaches the client as finalhandler's 404;
      [send] never reads outside [public/]; every answer of the ECS app to
      a GET, conditional and ranged ones included, announces its body's
      length; OPTIONS and the other methods; the ['/'] route is dead code.
    - Conditional GET and ranges (C20, C21): a 206 answer carries one
      range [s-e] with [s <= e < size], length [e - s + 1] and exactly
      those bytes, whatever the [Range] header ([range-parser]'s clamping
      and [combineRanges] keep every range inside the file); revalidating
      with the file's ETag gives 304 without body or content headers.
    - Process (C14, C16, C17): nothing is served before the bind; every
      reachable state is booting, exited with 1, or serving the variant's
      app with a non-empty target; without [BACKEND_URL] the 2EC2 process
      never serves.

    Claims with hypotheses have witnesses that apply them to concrete
    inputs, with the sample upstream of [Proxy] ([echo_upstream]) and
    the sample [public/] trees of [Static]
    ([demo_root], [demo_root_leaky]).

    ** Bounds and fuel

    [percent_decode] ([Uri]) recurses with fuel [length s + 1], enough
    because every step consumes at least one character
    ([percent_decode_go_fuel]: any two fuels above the length agree, so
    [None] is always the [URIError]); every other function is
    structural.  Status codes and ports are
    [nat]: no arithmetic on them can overflow in the code.  Byte ranges
    are [Z], as [parseInt] can give negative values and [size - end] can
    go below zero; JavaScript computes them in doubles, exact below 2^53,
    and above it a start is past any file and an end is clamped, so the
    exact integers give the same answers.

    ** Not modelled

    The network and the backend (the [Upstream] class: an answer or a
    Node error code per outgoing request), the file system (the
    [StaticRoot] class: the entries of [public/], and [Date.parse], whose
    grammar is the runtime's), the ETag value and MIME type of a file
    (fields of a [file], as [etag(stat)] and [mime.lookup] give them),
    streaming of bodies (a body is a string), the ETag [res.send] adds to the OPTIONS answer (a
    SHA-1 digest), timeouts, WebSocket upgrades, the punycoding of
    non-ASCII hostnames by [toASCII] in [url.parse] and its checks of
    [xn--] labels ([toASCII] is the identity on the ASCII names the
    theorems assume), HTTP/2, and the concurrent interleaving of
    requests, which cannot interact because no state is shared (the
    serving state of [step] never changes).  finalhandler is modelled as
    it runs with [NODE_ENV=production]: the error page shows the status
    message; in development it shows [err.stack] and Express logs the
    error to the console, neither of which is modelled.  Node's
    [http] module sends no body in an answer to HEAD; [send] and
    finalhandler leave it out themselves and are modelled so, while the
    directory redirect and relayed replies keep the body they write.  The
    trailing lines of the two [server.js] files that only [require]
    modules or hold comments have no behaviour to model.  No version
    of a library is pinned by the repository; Express 4 and both major
    versions of http-proxy-middleware ([hpm_version]) are modelled. *)
From stdpp Require Import base list gmap strings.
From Stdlib Require Import Ascii String DecimalString.

Declare Scope tf_scope.
Delimit Scope tf_scope with tf.
Open Scope string_scope.

(** stdpp marks [String.append] [simpl never]; the models compute with it. *)
#[global] Arguments String.append : simpl nomatch.
(** Character comparisons unfold only on two known characters. *)
#[global] Arguments Ascii.eqb : simpl nomatch.

(** ** Characters *)

(** [lo <= n && n <= hi] *)
Definition in_range (lo hi n : nat) : bool := ((lo <=? n) && (n <=? hi))%nat.

(** The string holding one double-quote character. *)
Definition dquote : string := String (ascii_of_nat 34) EmptyString.

(** ASCII case folding, as the [i] flag of a JavaScript regular
    expression and [String.prototype.toLowerCase] do on ASCII letters. *)
Definition is_upper (c : ascii) : bool :=
  let n := N_of_ascii c in ((65 <=? n)%N && (n <=? 90)%N)%bool.

Definition lower_ascii (c : ascii) : ascii :=
  if is_upper c then ascii_of_N (N_of_ascii c + 32) else c.

Definition ascii_ci_eqb (a b : ascii) : bool :=
  Ascii.eqb (lower_ascii a) (lower_ascii b).

Fixpoint lower (s : string) : string :=
  match s with
  | EmptyString => EmptyString
  | String a t => String (lower_ascii a) (lower t)
  end.

(** A number in a JavaScript template literal: its decimal digits. *)
Definition show_nat (n : nat) : string := NilEmpty.string_of_uint (Nat.to_uint n).

(** ** Prefixes *)

(** [strip_prefix p s] is [Some r] exactly when [s = p ++ r]: the
    remainder after a leading occurrence of [p]. *)
Fixpoint strip_prefix (p s : string) : option string :=
  match p, s with
  | EmptyString, _ => Some s
  | String a p', String b s' => if Ascii.eqb a b then strip_prefix p' s' else None
  | String _ _, EmptyString => None
  end.

(** JavaScript [s.startsWith(p)], and a regular expression [^p] without
    flags. *)
Definition starts_with (p s : string) : bool :=
  match strip_prefix p s with Some _ => true | None => false end.

(** The same test with ASCII case folding (a regular expression [^p] with
    the [i] flag). *)
Fixpoint strip_prefix_ci (p s : string) : option string :=
  match p, s with
  | EmptyString, _ => Some s
  | String a p', String b s' => if ascii_ci_eqb a b then strip_prefix_ci p' s' else None
  | String _ _, EmptyString => None
  end.

(** [s.indexOf(pat) !== -1] *)
Fixpoint contains (pat s : string) : bool :=
  starts_with pat s ||
  match s with
  | EmptyString => false
  | String _ t => contains pat t
  end.

(** Every character satisfies [p]. *)
Fixpoint str_forall (p : ascii -> bool) (s : string) : bool :=
  match s with
  | EmptyString => true
  | String a t => p a && str_forall p t
  end.

Fixpoint has_char (c : ascii) (s : string) : bool :=
  match s with
  | EmptyString => false
  | String a t => Ascii.eqb a c || has_char c t
  end.

Fixpoint last_char (s : string) : option ascii :=
  match s with
  | EmptyString => None
  | String c EmptyString => Some c
  | String _ t => last_char t
  end.

(** ** Splitting and joining *)

(** Split at the first occurrence of [c]: the part before it, and the
    part after it if [c] occurs. *)
Fixpoint split_first (c : ascii) (s : string) : string * option string :=
  match s with
  | EmptyString => (EmptyString, None)
  | String a t =>
      if Ascii.eqb a c then (EmptyString, Some t)
      else let (x, r) := split_first c t in (String a x, r)
  end.

Definition unsplit (c : ascii) (p : string * option string) : string :=
  fst p ++ match snd p with None => EmptyString | Some r => String c r end.

(** JavaScript [s.split(c)] for a one-character separator. *)
Fixpoint split_on (c : ascii) (s : string) : list string :=
  match s with
  | EmptyString => [EmptyString]
  | String a t =>
      if Ascii.eqb a c then EmptyString :: split_on c t
      else match split_on c t with
           | [] => [String a EmptyString]
           | x :: xs => String a x :: xs
           end
  end.

(** JavaScript [l.join(sep)]. *)
Fixpoint join_on (sep : string) (l : list string) : string :=
  match l with
  | [] => EmptyString
  | [x] => x
  | x :: xs => x ++ sep ++ join_on sep xs
  end.

(** [s.replace(/\/+/g, '/')]: every run of slashes becomes one slash. *)
Fixpoint collapse_go (prev_slash : bool) (s : string) : string :=
  match s with
  | EmptyString => EmptyString
  | String a t =>
      if Ascii.eqb a "/" then
        (if prev_slash then collapse_go true t else String a (collapse_go true t))
      else String a (collapse_go false t)
  end.

Definition collapse_slashes (s : string) : string := collapse_go false s.

(** [s.replace(pat, rep)] with a string pattern: only the first occurrence
    is replaced. *)
Fixpoint replace_first (pat rep s : string) : string :=
  match strip_prefix pat s with
  | Some r => rep ++ r
  | None =>
      match s with
      | EmptyString => EmptyString
      | String a t => String a (replace_first pat rep t)
      end
  end.

(** ** Tactics *)

Create HintDb tf discriminated.
Create Rewrite HintDb tf_rw.

Ltac tf_case :=
  repeat match goal with
  | |- context [if ?b then _ else _] => let E := fresh "E" in destruct b eqn:E
  | |- context [match ?x with _ => _ end] =>
      lazymatch x with
      | context [match _ with _ => _ end] => fail
      | _ => let E := fresh "E" in destruct x eqn:E
      end
  end.

Ltac ascii_eqb_rw :=
  repeat match goal with
  | H : Ascii.eqb _ _ = true |- _ => apply Ascii.eqb_eq in H; subst
  | H : Ascii.eqb ?a ?a = false |- _ => rewrite Ascii.eqb_refl in H; discriminate H
  | |- context [Ascii.eqb ?a ?a] => rewrite Ascii.eqb_refl
  end.

(** Split boolean conjunctions in the hypotheses. *)
Ltac split_bool :=
  repeat match goal with
  | H : _ && _ = true |- _ => apply andb_prop in H as [? ?]
  | H : negb _ = true |- _ => apply negb_true_iff in H
  end.

(** ** Generic lemmas *)

Lemma string_app_nil_r (s : string) : s ++ EmptyString = s.
Proof. induction s; simpl; congruence. Qed.

Lemma string_app_assoc (a b c : string) : a ++ (b ++ c) = (a ++ b) ++ c.
Proof. induction a; simpl; congruence. Qed.

Lemma string_length_app (a b : string) : String.length (a ++ b) = (String.length a + String.length b)%nat.
Proof. induction a; simpl; congruence. Qed.

Lemma strip_prefix_app (p r : string) : strip_prefix p (p ++ r) = Some r.
Proof. induction p; simpl; [done|]. by rewrite Ascii.eqb_refl. Qed.

Lemma strip_prefix_Some (p s r : string) : strip_prefix p s = Some r <-> s = p ++ r.
Proof.
  split.
  - revert s. induction p as [|a p IH]; intros [|b s]; simpl; try congruence.
    destruct (Ascii.eqb_spec a b); [subst; intros ->%IH; done | done].
  - intros ->. apply strip_prefix_app.
Qed.

Lemma strip_prefix_None (p s : string) :
  strip_prefix p s = None -> forall r, s <> p ++ r.
Proof. intros H r ->. by rewrite strip_prefix_app in H. Qed.

Lemma starts_with_app (p r : string) : starts_with p (p ++ r) = true.
Proof. unfold starts_with. by rewrite strip_prefix_app. Qed.

Lemma starts_with_spec (p s : string) : starts_with p s = true <-> exists r, s = p ++ r.
Proof.
  unfold starts_with. destruct (strip_prefix p s) eqn:E; split; intros H; try done.
  - exists s0. by apply strip_prefix_Some.
  - destruct H as [r ->]. by rewrite strip_prefix_app in E.
Qed.

Lemma lower_ascii_idem (c : ascii) : lower_ascii (lower_ascii c) = lower_ascii c.
Proof. destruct c as [[] [] [] [] [] [] [] []]; reflexivity. Qed.

Lemma lower_app (a b : string) : lower (a ++ b) = lower a ++ lower b.
Proof. induction a; simpl; congruence. Qed.

Lemma strip_prefix_ci_Some (p s r : string) :
  strip_prefix_ci p s = Some r -> exists q, s = q ++ r /\ lower q = lower p.
Proof.
  revert s. induction p as [|a p IH]; intros [|b s]; simpl; try congruence.
  - intros [= <-]. by exists EmptyString.
  - intros [= <-]. by exists EmptyString.
  - destruct (ascii_ci_eqb a b) eqn:E; [|done].
    intros (q & -> & Hq)%IH. exists (String b q). simpl.
    apply Ascii.eqb_eq in E. rewrite E, Hq. done.
Qed.

Lemma strip_prefix_ci_of_exact (p s r : string) :
  strip_prefix p s = Some r -> strip_prefix_ci p s = Some r.
Proof.
  intros ->%strip_prefix_Some. induction p; simpl; [done|].
  unfold ascii_ci_eqb. by rewrite Ascii.eqb_refl.
Qed.

Lemma split_first_unsplit (c : ascii) (s : string) : unsplit c (split_first c s) = s.
Proof.
  unfold unsplit. induction s as [|a t IH]; simpl; [done|].
  destruct (Ascii.eqb_spec a c) as [->|]; [done|].
  destruct (split_first c t) as [x r]. simpl in *. by rewrite IH.
Qed.

Lemma split_first_fst (c : ascii) (s : string) : has_char c (fst (split_first c s)) = false.
Proof.
  induction s as [|a t IH]; simpl; [done|].
  destruct (Ascii.eqb_spec a c) as [->|Hne]; [done|].
  destruct (split_first c t) as [x r]. simpl in *. rewrite IH.
  destruct (Ascii.eqb_spec a c); [done|reflexivity].
Qed.

Lemma split_first_no_char (c : ascii) (s : string) :
  has_char c s = false -> split_first c s = (s, None).
Proof.
  induction s as [|a t IH]; simpl; [done|].
  intros [Ha Ht]%orb_false_iff. rewrite Ha, IH; done.
Qed.

Lemma split_first_app (c : ascii) (x y : string) :
  has_char c x = false -> split_first c (x ++ String c y) = (x, Some y).
Proof.
  induction x as [|a x IH]; simpl.
  - by rewrite Ascii.eqb_refl.
  - intros [Ha Hx]%orb_false_iff. by rewrite Ha, IH.
Qed.

Lemma split_first_cons_ne (c a : ascii) (t : string) :
  a <> c -> split_first c (String a t) = (String a (fst (split_first c t)), snd (split_first c t)).
Proof.
  intros Hne. simpl. destruct (Ascii.eqb_spec a c); [done|].
  by destruct (split_first c t).
Qed.

Lemma split_first_prefix (c : ascii) (x y : string) :
  has_char c x = false -> split_first c (x ++ y) = (x ++ fst (split_first c y), snd (split_first c y)).
Proof.
  induction x as [|a x IH]; simpl; [by destruct (split_first c y)|].
  intros [Ha Hx]%orb_false_iff. by rewrite Ha, IH.
Qed.

Lemma has_char_lower (c : ascii) (s : string) :
  lower_ascii c = c -> has_char c s = true -> has_char c (lower s) = true.
Proof.
  intros Hc. induction s as [|a t IH]; simpl; [done|].
  intros [Ha%Ascii.eqb_eq|Ht]%orb_prop; [subst; by rewrite Hc, Ascii.eqb_refl|by rewrite IH, orb_true_r].
Qed.

Lemma strip_prefix_app_ne (p q r : string) :
  String.length q = String.length p -> q <> p -> strip_prefix p (q ++ r) = None.
Proof.
  revert p. induction q as [|a q IH]; intros [|b p]; simpl; try done.
  intros [= Hl] Hne. destruct (Ascii.eqb_spec b a) as [->|]; [|done].
  apply IH; [done|congruence].
Qed.

Lemma split_on_nonempty (c : ascii) (s : string) : split_on c s <> [].
Proof.
  destruct s as [|a t]; simpl; [done|].
  destruct (Ascii.eqb a c); [done|]. destruct (split_on c t); done.
Qed.

(** JavaScript's [s.split(c).join(c)] is the identity. *)
Lemma join_split (c : ascii) (s : string) :
  join_on (String c EmptyString) (split_on c s) = s.
Proof.
  induction s as [|a t IH]; simpl; [done|].
  pose proof (split_on_nonempty c t) as Hn.
  destruct (Ascii.eqb_spec a c) as [->|Hne];
    destruct (split_on c t) as [|x [|y ys]]; simpl in *; by rewrite ?IH.
Qed.

Lemma has_char_app (c : ascii) (a b : string) :
  has_char c (a ++ b) = has_char c a || has_char c b.
Proof. induction a; simpl; [done|]. rewrite IHa. by rewrite orb_assoc. Qed.

Lemma replace_first_not_contains (pat rep s : string) :
  contains pat s = false -> replace_first pat rep s = s.
Proof.
  induction s as [|a t IH]; simpl; unfold starts_with.
  - destruct (strip_prefix pat EmptyString); done.
  - destruct (strip_prefix pat (String a t)); [done|]. simpl. intros H. by rewrite IH.
Qed.

Lemma collapse_go_id (b : bool) (s : string) :
  contains "//" s = false -> (b = true -> starts_with "/" s = false) ->
  collapse_go b s = s.
Proof.
  revert b. induction s as [|a t IH]; intros b Hc Hb; simpl; [done|].
  simpl in Hc. apply orb_false_iff in Hc as [Hs Hc].
  destruct (Ascii.eqb_spec a "/") as [->|Hne].
  - destruct b; [by specialize (Hb eq_refl)|].
    f_equal. apply IH; [done|]. intros _. exact Hs.
  - f_equal. apply IH; [done|]. intros [=].
Qed.

Lemma str_forall_app (p : ascii -> bool) (a b : string) :
  str_forall p (a ++ b) = str_forall p a && str_forall p b.
Proof. induction a; simpl; [done|]. rewrite IHa. by rewrite andb_assoc. Qed.

Lemma str_forall_has_char (p : ascii -> bool) (c : ascii) (s : string) :
  p c = false -> str_forall p s = true -> has_char c s = false.
Proof.
  intros Hc. induction s as [|a t IH]; simpl; [done|].
  intros [Ha Ht]%andb_prop. rewrite IH by done.
  destruct (Ascii.eqb_spec a c); [congruence|done].
Qed.

Lemma str_forall_impl (p q : ascii -> bool) (s : string) :
  (forall c, p c = true -> q c = true) -> str_forall p s = true -> str_forall q s = true.
Proof.
  intros Hpq. induction s as [|a t IH]; simpl; [done|].
  intros [Ha Ht]%andb_prop. by rewrite Hpq, IH.
Qed.

Lemma split_first_fst_prefix (c : ascii) (s : string) :
  exists rest, s = fst (split_first c s) ++ rest.
Proof.
  exists (match snd (split_first c s) with None => EmptyString | Some r => String c r end).
  symmetry. apply (split_first_unsplit c s).
Qed.

Lemma str_forall_split_first (p : ascii -> bool) (c : ascii) (s : string) :
  str_forall p s = true -> str_forall p (fst (split_first c s)) = true.
Proof.
  destruct (split_first_fst_prefix c s) as [rest Hs].
  rewrite Hs at 1. rewrite str_forall_app. by intros [? _]%andb_prop.
Qed.

(** [s.split(c)] starts with the part before the first [c]; the rest is the
    split of what follows it. *)
Lemma split_on_split_first (c : ascii) (s : string) :
  split_on c s = fst (split_first c s) ::
    match snd (split_first c s) with None => [] | Some r => split_on c r end.
Proof.
  induction s as [|a t IH]; simpl; [done|].
  destruct (Ascii.eqb_spec a c); [done|].
  rewrite IH. by destruct (split_first c t) as [x r].
Qed.

#[export] Hint Rewrite strip_prefix_app starts_with_app split_first_unsplit join_split
  string_app_nil_r lower_app : tf_rw.
#[export] Hint Resolve strip_prefix_app starts_with_app split_first_fst split_on_nonempty : tf.

(** A predicate closed under the separator holds of a string exactly when
    it holds of every piece of its split. *)
Lemma str_forall_split_on (p : ascii -> bool) (c : ascii) (s : string) :
  p c = true -> str_forall p s = forallb (str_forall p) (split_on c s).
Proof.
  intros Hc. induction s as [|a t IH]; simpl; [done|].
  pose proof (split_on_nonempty c t) as Hn.
  destruct (Ascii.eqb_spec a c) as [->|Hne]; simpl; [by rewrite Hc, IH|].
  destruct (split_on c t) as [|x xs]; [done|]. simpl in *. by rewrite IH, andb_assoc.
Qed.

(** A string ending in the separator splits into pieces the last of
    which is empty. *)
Lemma split_on_last_char (c : ascii) (s : string) :
  last_char s = Some c -> last (split_on c s) = Some EmptyString.
Proof.
  induction s as [|a t IH]; simpl; [done|].
  pose proof (join_split c t) as Hj. pose proof (split_on_nonempty c t) as Hn.
  destruct t as [|b t'].
  - intros [= ->]. by rewrite Ascii.eqb_refl.
  - intros Hl. specialize (IH Hl).
    destruct (Ascii.eqb a c); destruct (split_on c (String b t')) as [|x [|y ys]];
      simpl in *; try done.
    injection IH as ->. done.
Qed.

Lemma last_char_app (a b : string) : b <> EmptyString -> last_char (a ++ b) = last_char b.
Proof.
  intros Hb. induction a as [|x a IH]; simpl; [done|].
  rewrite IH. destruct a; simpl; [by destruct b|done].
Qed.

Lemma forallb_existsb_false {A} (p q : A -> bool) (l : list A) :
  (forall x, p x = true -> q x = false) -> forallb p l = true -> existsb q l = false.
Proof.
  intros Hpq. induction l as [|x l IH]; simpl; [done|].
  intros [Hx Hl]%andb_prop. by rewrite Hpq, IH.
Qed.

Lemma forallb_impl {A} (p q : A -> bool) (l : list A) :
  (forall x, p x = true -> q x = true) -> forallb p l = true -> forallb q l = true.
Proof.
  intros Hpq. induction l as [|x l IH]; simpl; [done|].
  intros [Hx Hl]%andb_prop. by rewrite Hpq, IH.
Qed.

(** [str.substring(m, m + n)] has [n] characters when it stays inside [str]. *)
Lemma substring_length (m n : nat) (s : string) :
  (m + n <= String.length s)%nat -> String.length (substring m n s) = n.
Proof.
  revert m n. induction s as [|a t IH]; intros [|m] [|n] Hl; simpl in *; try lia;
    try (f_equal; apply IH; lia); apply IH; lia.
Qed.
