(* ===== verification/Http.v ===== *)
(** * Http: requests, responses and request targets

    The data both servers exchange with Node's [http] module, as Express
    hands it to middleware: a request with its method, its mutable
    [req.url], the [req.originalUrl] Express records on entry, lower-cased
    header names (Node lower-cases incoming header names) and a body; a
    response with status, headers and body.  [pathname] and [query_part]
    are the [parseurl] package's split of an origin-form request target. *)
From stdpp Require Import base list gmap strings.
From Stdlib Require Import Ascii String.
From S2P Require Import Prelude.
Open Scope string_scope.

Inductive method :=
  | GET | HEAD | POST | PUT | DELETE | PATCH | OPTIONS
  | OTHER (name : string).

#[export] Instance method_eq_dec : EqDecision method.
Proof. solve_decision. Defined.

(** [req.method] as Node spells it. *)
Definition method_name (m : method) : string :=
  match m with
  | GET => "GET" | HEAD => "HEAD" | POST => "POST" | PUT => "PUT"
  | DELETE => "DELETE" | PATCH => "PATCH" | OPTIONS => "OPTIONS"
  | OTHER n => n
  end.

(** [req.httpVersion] *)
Inductive http_version := HTTP_1_0 | HTTP_1_1 | HTTP_2_0.

#[export] Instance http_version_eq_dec : EqDecision http_version.
Proof. solve_decision. Defined.

Record request := mk_request {
  req_method : method;
  req_url : string;
  req_original_url : string;
  req_headers : gmap string string;
  req_body : string;
  req_version : http_version
}.

Record response := mk_response {
  res_status : nat;
  res_headers : gmap string string;
  res_body : string
}.

(** The major version of http-proxy-middleware installed: the
    repository pins none, and versions 2 and 3 differ in the URL the path
    rewrite sees and in logging. *)
Inductive hpm_version := HPM_v2 | HPM_v3.

(** What an Express middleware does with the request it is given: send a
    response, call [next()] with the request as it leaves it (middleware
    may have changed [req.url] or [req.headers]), or call [next(err)]
    with the status the error carries; [res_hs] are the headers the
    middleware had set on [res] before failing and [err_hs] the
    [err.headers] the error carries, both of which finalhandler uses. *)
Inductive outcome :=
  | Respond (r : response)
  | Next (req : request)
  | NextError (status : nat) (res_hs err_hs : gmap string string).

Definition middleware : Type := request -> outcome.

(** JavaScript's [v || d] on an optional header value. *)
Definition js_or (v : option string) (d : string) : string :=
  match v with
  | Some s => if String.eqb s EmptyString then d else s
  | None => d
  end.

(** A request as Express's [app.handle] sees it on entry:
    [req.originalUrl = req.originalUrl || req.url]. *)
Definition incoming (m : method) (url : string) (hs : gmap string string)
    (body : string) (v : http_version) : request :=
  mk_request m url url hs body v.

(** [req.url = u] *)
Definition set_url (r : request) (u : string) : request :=
  mk_request (req_method r) u (req_original_url r) (req_headers r) (req_body r) (req_version r).

(** [req.headers = hs] *)
Definition set_req_headers (r : request) (hs : gmap string string) : request :=
  mk_request (req_method r) (req_url r) (req_original_url r) hs (req_body r) (req_version r).

(** [parseurl(req).pathname] and [.search] for an origin-form target: the
    part before the first [?], and the rest including the [?]. *)
Definition pathname (url : string) : string := fst (split_first "?" url).

Definition query_part (url : string) : string :=
  match snd (split_first "?" url) with
  | None => EmptyString
  | Some q => String "?" q
  end.

(** An origin-form request target as Node's HTTP parser delivers it:
    it begins with [/] and holds no space, control character or [#]
    (the parser refuses the first two; browsers never send a fragment).
    On such targets [parseurl] takes its fast path, which the two
    functions above translate. *)
Definition target_char (a : ascii) : bool :=
  (33 <=? nat_of_ascii a)%nat && negb (nat_of_ascii a =? 127)%nat && negb (Ascii.eqb a "#").

Definition target_chars_ok (s : string) : bool := str_forall target_char s.

Definition origin_form (url : string) : bool :=
  starts_with "/" url && target_chars_ok url.

(** A response whose [content-length] header, when it has one, is the
    decimal length of its body: what a client reading the body relies on. *)
Definition length_consistent (r : response) : Prop :=
  forall v, res_headers r !! "content-length" = Some v -> v = show_nat (String.length (res_body r)).

Lemma pathname_query (url : string) : pathname url ++ query_part url = url.
Proof.
  rewrite <- (split_first_unsplit "?" url) at 3. unfold pathname, query_part, unsplit.
  by destruct (split_first "?" url) as [x [q|]].
Qed.

Lemma pathname_no_query (p : string) :
  has_char "?" p = false -> pathname p = p /\ query_part p = EmptyString.
Proof. intros H. unfold pathname, query_part. by rewrite split_first_no_char. Qed.

Lemma pathname_app_query (p q : string) :
  has_char "?" p = false -> pathname (p ++ String "?" q) = p /\ query_part (p ++ String "?" q) = String "?" q.
Proof. intros H. unfold pathname, query_part. by rewrite split_first_app. Qed.

Lemma pathname_slash (t : string) :
  pathname (String "/" t) = String "/" (fst (split_first "?" t)).
Proof. unfold pathname. by rewrite split_first_cons_ne. Qed.

(** An origin-form target has a non-empty pathname. *)
Lemma pathname_origin_nonempty (u : string) : origin_form u = true -> pathname u <> EmptyString.
Proof.
  unfold origin_form. intros [Hs _]%andb_prop. apply starts_with_spec in Hs as [t ->].
  simpl. by rewrite pathname_slash.
Qed.

Lemma set_url_url (r : request) (u : string) : req_url (set_url r u) = u.
Proof. done. Qed.

Lemma set_url_original (r : request) (u : string) : req_original_url (set_url r u) = req_original_url r.
Proof. done. Qed.

Lemma set_url_set_url (r : request) (u v : string) : set_url (set_url r u) v = set_url r v.
Proof. by destruct r. Qed.

#[export] Hint Rewrite set_url_url set_url_original set_url_set_url : tf_rw.
