(* ===== verification/Uri.v ===== *)
(** * Uri: [decodeURIComponent]

    The global [decodeURIComponent] of JavaScript, on strings of bytes
    (the characters of a request target or of a URL in the environment):
    [%XX] escapes are gathered into UTF-8 sequences, which must be
    complete, well-formed (no overlong form, no surrogate, at most
    U+10FFFF); anything else is the [URIError], [None] here.  [send] uses
    it on the request path and [url.parse] on the user information of a
    URL.  The lemmas show that the fuel given is always enough and that
    decoding is the identity on strings without [%]. *)
From stdpp Require Import base list strings.
From Stdlib Require Import Ascii String.
From S2P Require Import Prelude.
Open Scope string_scope.


Definition hex_val (c : ascii) : option nat :=
  let n := nat_of_ascii c in
  if in_range 48 57 n then Some (n - 48)
  else if in_range 65 70 n then Some (n - 55)
  else if in_range 97 102 n then Some (n - 87)
  else None.

(** The escapes [%XX] at the start of a string, as bytes, and the rest. *)
Fixpoint take_escapes (k : nat) (s : string) : option (list nat * string) :=
  match k with
  | 0 => Some ([], s)
  | S k' =>
      match s with
      | String "%" (String h1 (String h2 t)) =>
          match hex_val h1, hex_val h2 with
          | Some a, Some b =>
              match take_escapes k' t with
              | Some (bs, rest) => Some ((16 * a + b) :: bs, rest)
              | None => None
              end
          | _, _ => None
          end
      | _ => None
      end
  end.

(** The length of the UTF-8 sequence a lead byte starts, and whether
    continuation bytes and the code point are valid (no overlong form, no
    surrogate, at most U+10FFFF). *)
Definition utf8_len (b : nat) : option nat :=
  if (b <? 128)%nat then Some 1
  else if in_range 194 223 b then Some 2
  else if in_range 224 239 b then Some 3
  else if in_range 240 244 b then Some 4
  else None.

Definition utf8_ok (bs : list nat) : bool :=
  match bs with
  | [b0] => (b0 <? 128)%nat
  | [b0; b1] => in_range 128 191 b1
  | [b0; b1; b2] =>
      in_range 128 191 b1 && in_range 128 191 b2
      && negb ((b0 =? 224)%nat && (b1 <? 160)%nat)
      && negb ((b0 =? 237)%nat && (159 <? b1)%nat)
  | [b0; b1; b2; b3] =>
      in_range 128 191 b1 && in_range 128 191 b2 && in_range 128 191 b3
      && negb ((b0 =? 240)%nat && (b1 <? 144)%nat)
      && negb ((b0 =? 244)%nat && (143 <? b1)%nat)
  | _ => false
  end.

Definition bytes_string (bs : list nat) : string :=
  fold_right (fun b acc => String (ascii_of_nat b) acc) EmptyString bs.

(** [decodeURIComponent] on a byte string: [None] is the [URIError]. *)
Fixpoint percent_decode_go (fuel : nat) (s : string) : option string :=
  match fuel with
  | 0 => None
  | S fuel' =>
      match s with
      | EmptyString => Some EmptyString
      | String "%" _ =>
          match take_escapes 1 s with
          | Some ([b0], _) =>
              match utf8_len b0 with
              | Some n =>
                  match take_escapes n s with
                  | Some (bs, rest) =>
                      if utf8_ok bs
                      then option_map (String.append (bytes_string bs)) (percent_decode_go fuel' rest)
                      else None
                  | None => None
                  end
              | None => None
              end
          | _ => None
          end
      | String c t => option_map (String c) (percent_decode_go fuel' t)
      end
  end.

(** Each step consumes at least one character, so the length is enough fuel. *)
Definition percent_decode (s : string) : option string :=
  percent_decode_go (S (String.length s)) s.

(** ** Lemmas *)

(** Each escape consumes three characters. *)
Lemma take_escapes_length (k : nat) (s : string) (bs : list nat) (rest : string) :
  take_escapes k s = Some (bs, rest) -> (String.length rest + 3 * k = String.length s)%nat.
Proof.
  revert s bs. induction k as [|k IH]; intros s bs; [simpl; intros [= _ <-]; lia|].
  destruct s as [|c [|h1 [|h2 t]]]; try done;
    (destruct (Ascii.eqb_spec c "%"); [subst|by destruct c as [[] [] [] [] [] [] [] []]]).
  - by simpl.
  - by simpl.
  - simpl. destruct (hex_val h1), (hex_val h2); try done.
    destruct (take_escapes k t) as [[bs' r]|] eqn:E; [|done]. intros [= _ <-].
    apply IH in E. simpl. lia.
Qed.

Lemma utf8_len_pos (b n : nat) : utf8_len b = Some n -> (1 <= n)%nat.
Proof. unfold utf8_len. repeat case_match; intros [= <-]; lia. Qed.

Lemma hex_val_lt (c : ascii) (n : nat) : hex_val c = Some n -> (n < 16)%nat.
Proof. unfold hex_val, in_range. repeat case_match; intros [= <-]; split_bool; try lia.
  all: repeat match goal with H : (_ <=? _)%nat = true |- _ => apply Nat.leb_le in H end; lia.
Qed.

(** Every escape decodes to a byte below 256, so turning the bytes into
    characters never wraps: the characters of [bytes_string] are exactly
    the decoded bytes. *)
Lemma take_escapes_bytes (k : nat) (s : string) (bs : list nat) (rest : string) :
  take_escapes k s = Some (bs, rest) ->
  Forall (fun b => b < 256)%nat bs /\ map nat_of_ascii (list_ascii_of_string (bytes_string bs)) = bs.
Proof.
  intros Ht. assert (Hb : Forall (fun b => b < 256)%nat bs).
  { revert s bs rest Ht. induction k as [|k IH]; intros s bs rest; [simpl; intros [= <- _]; constructor|].
    destruct s as [|c [|h1 [|h2 t]]]; try done;
      (destruct (Ascii.eqb_spec c "%"); [subst|by destruct c as [[] [] [] [] [] [] [] []]]);
      try by simpl.
    simpl. destruct (hex_val h1) as [a|] eqn:Ea, (hex_val h2) as [b|] eqn:Eb; try done.
    destruct (take_escapes k t) as [[bs' r]|] eqn:E; [|done]. intros [= <- _].
    apply hex_val_lt in Ea, Eb. constructor; [lia|]. exact (IH t bs' r E). }
  split; [done|]. clear Ht. induction Hb as [|b bs Hb Hbs IH]; [done|].
  simpl. rewrite IH, nat_ascii_embedding by done. done.
Qed.

(** Decoding never runs out of fuel: any two amounts of fuel above the
    length of the string give the same result, so the [None] of
    [percent_decode] is always [decodeURIComponent]'s [URIError]. *)
Lemma percent_decode_go_fuel (f1 f2 : nat) (s : string) :
  (String.length s < f1)%nat -> (String.length s < f2)%nat ->
  percent_decode_go f1 s = percent_decode_go f2 s.
Proof.
  revert f2 s. induction f1 as [|f1 IH]; intros [|f2] s H1 H2; try lia.
  destruct s as [|c t]; [done|].
  destruct (Ascii.eqb_spec c "%") as [->|Hc].
  - cbn [percent_decode_go].
    destruct (take_escapes 1 _) as [[[|b0 [|]] r1]|]; try done.
    destruct (utf8_len b0) as [n|] eqn:En; [|done].
    destruct (take_escapes n _) as [[bs rest]|] eqn:Et; [|done].
    apply take_escapes_length in Et. apply utf8_len_pos in En. simpl in Et, H1, H2.
    destruct (utf8_ok bs); [|done]. rewrite (IH f2) by lia. done.
  - assert (E : forall g, percent_decode_go (S g) (String c t) = option_map (String c) (percent_decode_go g t)).
    { intros g. destruct c as [[] [] [] [] [] [] [] []]; try reflexivity; by contradict Hc. }
    rewrite !E. simpl in H1, H2. by rewrite (IH f2) by lia.
Qed.

(** [decodeURIComponent] is the identity on a string without [%]. *)
Lemma percent_decode_go_plain (fuel : nat) (s : string) :
  has_char "%" s = false -> (String.length s < fuel)%nat -> percent_decode_go fuel s = Some s.
Proof.
  revert fuel. induction s as [|a t IH]; intros [|fuel] Hs Hf; simpl in *; try lia; [done|].
  apply orb_false_iff in Hs as [Ha Ht].
  destruct (Ascii.eqb_spec a "%") as [->|Hne]; [done|].
  rewrite IH by (done || lia).
  destruct a as [[] [] [] [] [] [] [] []]; try reflexivity; by contradict Hne.
Qed.

Lemma percent_decode_plain (s : string) : has_char "%" s = false -> percent_decode s = Some s.
Proof. intros Hs. apply percent_decode_go_plain; [done|lia]. Qed.

