(* ===== verification/Startup.v ===== *)
(** * Startup: the top-level script of both server.js files

    The module body of [src/2EC2/frontend/server.js] reads
    [process.env.BACKEND_URL], exits with status 1 when it is falsy, builds
    the Express app, creating the proxy (version 2 of
    http-proxy-middleware logs two [[HPM]] lines with [console.info]
    there, [hpm_created]; version 3 logs nothing), and calls
    [app.listen(3000, '0.0.0.0', cb)], whose callback logs two lines.  [src/ECS/frontend/server.js] has the check
    commented out and only listens.  The script is modelled in a small
    monad [script] of observable effects with early termination
    ([process.exit] stops the script), and the app construction, which
    has no effect, is left to [Server]. *)
From stdpp Require Import base list gmap strings.
From Stdlib Require Import Ascii String.
From S2P Require Import Prelude Http.
Open Scope string_scope.

(** Observable effects of the script, in program order. *)
Inductive effect :=
  | ConsoleError (msg : string)
  | ConsoleLog (msg : string)
  | ConsoleInfo (msg : string)
  | Listening (host : string) (port : nat)   (** the socket is bound *)
  | UncaughtError (err : string)             (** an ['error'] event nobody handles *)
  | ProcessExit (code : nat).

#[export] Instance effect_eq_dec : EqDecision effect.
Proof. solve_decision. Defined.

Inductive flow (A : Type) := Cont (a : A) | Halted (code : nat).
Arguments Cont {A} a.
Arguments Halted {A} code.

(** A script: the effects it performed, and whether it went on with a
    value or the process terminated with an exit code. *)
Definition script (A : Type) : Type := list effect * flow A.

Module Script.
Definition ret {A} (a : A) : script A := ([], Cont a).

Definition bind {A B} (m : script A) (k : A -> script B) : script B :=
  match m with
  | (es, Halted c) => (es, Halted c)
  | (es, Cont a) => let (es', r) := k a in ((es ++ es')%list, r)
  end.

Definition emit (e : effect) : script unit := ([e], Cont tt).

(** [process.exit(code)]: nothing after it runs. *)
Definition exit {A} (code : nat) : script A := ([ProcessExit code], Halted code).
End Script.

Notation "'let!' x := m 'in' k" := (Script.bind m (fun x => k))
  (at level 10, x name, m at level 200, k at level 200) : tf_scope.
Notation "m ;; k" := (Script.bind m (fun _ => k))
  (at level 100, k at level 200, right associativity) : tf_scope.
Open Scope tf_scope.

(** [const PORT = 3000] and the host passed to [app.listen]. *)
Definition PORT : nat := 3000.
Definition LISTEN_HOST : string := "0.0.0.0".

(** [!BACKEND_URL] for a [process.env] entry, which is a string or
    [undefined]: falsy exactly when unset or empty. *)
Definition js_falsy_env (v : option string) : bool :=
  match v with None => true | Some s => String.eqb s "" end.

(** [app.listen(PORT, '0.0.0.0', cb)]: when the bind succeeds the socket
    listens and [cb] runs; when it fails ([bind_err = Some e]) the server
    emits ['error'] with no listener, Node reports the uncaught error and
    the process exits with code 1, and [cb] never runs. *)
Definition listen (bind_err : option string) (cb : script unit) : script unit :=
  match bind_err with
  | None => Script.emit (Listening LISTEN_HOST PORT) ;; cb
  | Some e => Script.emit (UncaughtError e) ;; Script.exit 1
  end.

Definition running_msg : string :=
  "Frontend server is running on http://localhost:" ++ show_nat PORT.

(** What [createProxyMiddleware({ target, changeOrigin, pathRewrite })]
    prints while the app is built: version 2 logs through [console.info]
    the creation of the proxy for the context ['/'] (its options are the
    only argument) and of the rewrite rule; version 3 logs nothing unless
    given a [logger]. *)
Definition hpm_created (ver : hpm_version) (target : string) : script unit :=
  match ver with
  | HPM_v2 =>
      Script.emit (ConsoleInfo ("[HPM] Proxy created: /  -> " ++ target)) ;;
      Script.emit (ConsoleInfo ("[HPM] Proxy rewrite rule created: " ++ dquote ++ "^/api" ++ dquote
                                ++ " ~> " ++ dquote ++ dquote))
  | HPM_v3 => Script.ret tt
  end.

(** [src/2EC2/frontend/server.js]: returns the proxy target it serves with. *)
Definition main_2EC2 (ver : hpm_version) (env : gmap string string) (bind_err : option string) : script string :=
  let BACKEND_URL := env !! "BACKEND_URL" in
  (if js_falsy_env BACKEND_URL
   then Script.emit (ConsoleError "Error: BACKEND_URL is missing!") ;; Script.exit 1
   else Script.ret tt) ;;
  let url := default "" BACKEND_URL in
  hpm_created ver url ;;
  listen bind_err
    (Script.emit (ConsoleLog running_msg) ;;
     Script.emit (ConsoleLog ("Proxying /api requests to " ++ url))) ;;
  Script.ret url.

(** [src/ECS/frontend/server.js]: the environment check is commented out. *)
Definition main_ECS (env : gmap string string) (bind_err : option string) : script unit :=
  listen bind_err
    (Script.emit (ConsoleLog running_msg) ;;
     Script.emit (ConsoleLog "Frontend serving static files and relying on ALB for /api routing.")).

(** ** The script monad *)

(** A script terminates well when [ProcessExit] occurs only as its last
    effect, and exactly when it halted with that code. *)
Definition well_terminated {A} (s : script A) : Prop :=
  match snd s with
  | Halted c => exists es, fst s = (es ++ [ProcessExit c])%list /\ forall c', ProcessExit c' ∉ es
  | Cont _ => forall c', ProcessExit c' ∉ fst s
  end.

Lemma bind_exit {A B} (c : nat) (k : A -> script B) : Script.bind (Script.exit c) k = Script.exit c.
Proof. done. Qed.

Lemma bind_ret {A B} (a : A) (k : A -> script B) : Script.bind (Script.ret a) k = k a.
Proof. simpl. by destruct (k a). Qed.

Lemma bind_emit {B} (e : effect) (k : unit -> script B) :
  Script.bind (Script.emit e) k = (e :: fst (k tt), snd (k tt)).
Proof. simpl. by destruct (k tt). Qed.

Lemma ret_wt {A} (a : A) : well_terminated (Script.ret a).
Proof. intros c. simpl. set_solver. Qed.

Lemma exit_wt {A} (c : nat) : well_terminated (A:=A) (Script.exit c).
Proof. exists []. split; [done|]. set_solver. Qed.

Lemma emit_wt (e : effect) : (forall c, e <> ProcessExit c) -> well_terminated (Script.emit e).
Proof. intros He c Hin. apply list_elem_of_singleton in Hin. by eapply He. Qed.

Lemma bind_wt {A B} (m : script A) (k : A -> script B) :
  well_terminated m -> (forall a, well_terminated (k a)) -> well_terminated (Script.bind m k).
Proof.
  destruct m as [es [a|c]]; simpl; [|done].
  intros Hm Hk. specialize (Hk a). destruct (k a) as [es' [b|c]]; simpl in *.
  - intros c Hin. apply elem_of_app in Hin as [?|?]; [by eapply Hm|by eapply Hk].
  - destruct Hk as (es'' & Heq & Hes). simpl in Heq. subst es'. exists (es ++ es'')%list.
    split; [by rewrite app_assoc|]. intros c' Hin.
    apply elem_of_app in Hin as [?|?]; [by eapply Hm|by eapply Hes].
Qed.

#[export] Hint Resolve ret_wt exit_wt bind_wt : tf.

Lemma listen_wt (bind_err : option string) (cb : script unit) :
  well_terminated cb -> well_terminated (listen bind_err cb).
Proof. intros Hcb. destruct bind_err; apply bind_wt; auto using emit_wt with tf. Qed.

#[export] Hint Resolve listen_wt : tf.

Ltac wt_emit := intros; apply emit_wt; discriminate.
#[export] Hint Extern 1 (well_terminated (Script.emit _)) => wt_emit : tf.

(** ** Startup of the proxying variant *)

(** C4: with [BACKEND_URL] unset or empty, [src/2EC2/frontend/server.js]
    prints its diagnostic and exits with status 1 before anything else. *)
Theorem main_2EC2_missing_backend (ver : hpm_version) (env : gmap string string) (bind_err : option string) :
  js_falsy_env (env !! "BACKEND_URL") = true ->
  main_2EC2 ver env bind_err = ([ConsoleError "Error: BACKEND_URL is missing!"; ProcessExit 1], Halted 1).
Proof. intros H. unfold main_2EC2. by rewrite H. Qed.

(** C5: whenever the proxying server's startup terminates the process,
    the exit status is 1 and no socket was ever bound; it terminates
    exactly when [BACKEND_URL] is unset or empty or the bind fails. *)
Theorem main_2EC2_halts_unbound (ver : hpm_version) (env : gmap string string) (bind_err : option string) (c : nat) :
  snd (main_2EC2 ver env bind_err) = Halted c ->
  c = 1 /\ (forall h p, Listening h p ∉ fst (main_2EC2 ver env bind_err)) /\
  (js_falsy_env (env !! "BACKEND_URL") = true \/ is_Some bind_err).
Proof.
  unfold main_2EC2. destruct (js_falsy_env _) eqn:E; simpl.
  - intros [= <-]. split; [done|]. split; [|by left]. intros h p. set_solver.
  - destruct bind_err as [e|], ver; simpl; try done;
      intros [= <-]; (split; [done|]); (split; [|by right; eexists]); intros h p; set_solver.
Qed.

(** C6: with a non-empty [BACKEND_URL] and a successful bind, the
    proxying server prints http-proxy-middleware's two creation lines
    (version 2 only) while building the app, binds 0.0.0.0:3000, logs its
    own two lines, and goes on serving with that URL as the proxy
    target. *)
Theorem main_2EC2_serves (ver : hpm_version) (env : gmap string string) (url : string) :
  env !! "BACKEND_URL" = Some url -> url <> "" ->
  main_2EC2 ver env None =
    ((match ver with
      | HPM_v2 => [ConsoleInfo ("[HPM] Proxy created: /  -> " ++ url);
                   ConsoleInfo ("[HPM] Proxy rewrite rule created: " ++ dquote ++ "^/api" ++ dquote
                                ++ " ~> " ++ dquote ++ dquote)]
      | HPM_v3 => []
      end ++
     [Listening "0.0.0.0" 3000; ConsoleLog "Frontend server is running on http://localhost:3000";
      ConsoleLog ("Proxying /api requests to " ++ url)])%list, Cont url).
Proof.
  intros Henv Hne. unfold main_2EC2. rewrite Henv. simpl.
  destruct (String.eqb_spec url ""); [done|]. by destruct ver.
Qed.

(** The proxying server's script terminates well: it performs no effect
    after [process.exit], and it exits exactly when it halts. *)
Lemma main_2EC2_wt (ver : hpm_version) (env : gmap string string) (bind_err : option string) :
  well_terminated (main_2EC2 ver env bind_err).
Proof. unfold main_2EC2, hpm_created. destruct (js_falsy_env _), ver; eauto 10 with tf. Qed.

(** C7: the static-only variant never consults [BACKEND_URL]: whatever the
    environment, a successful bind leads to serving, and a failed one to
    exit status 1. *)
Theorem main_ECS_outcome (env : gmap string string) (bind_err : option string) :
  main_ECS env bind_err =
    match bind_err with
    | None => ([Listening "0.0.0.0" 3000; ConsoleLog "Frontend server is running on http://localhost:3000";
                ConsoleLog "Frontend serving static files and relying on ALB for /api routing."], Cont tt)
    | Some e => ([UncaughtError e; ProcessExit 1], Halted 1)
    end.
Proof. by destruct bind_err. Qed.

(** The same holds of the static-only server's script. *)
Lemma main_ECS_wt (env : gmap string string) (bind_err : option string) :
  well_terminated (main_ECS env bind_err).
Proof. unfold main_ECS. eauto 10 with tf. Qed.

(** ** Witnesses *)

Lemma main_2EC2_missing_backend_witness :
  main_2EC2 HPM_v2 ∅ None = ([ConsoleError "Error: BACKEND_URL is missing!"; ProcessExit 1], Halted 1).
Proof. apply main_2EC2_missing_backend. reflexivity. Defined.

Lemma main_2EC2_halts_unbound_witness :
  let env : gmap string string := {["BACKEND_URL" := ""]} in
  1 = 1 /\ (forall h p, Listening h p ∉ fst (main_2EC2 HPM_v2 env None)) /\
  (js_falsy_env (env !! "BACKEND_URL") = true \/ is_Some (@None string)).
Proof. apply (main_2EC2_halts_unbound HPM_v2 _ None 1). reflexivity. Defined.

Lemma main_2EC2_serves_witness :
  main_2EC2 HPM_v2 {["BACKEND_URL" := "http://upstream:9000"]} None =
    ([ConsoleInfo ("[HPM] Proxy created: /  -> " ++ "http://upstream:9000");
      ConsoleInfo ("[HPM] Proxy rewrite rule created: " ++ dquote ++ "^/api" ++ dquote ++ " ~> " ++ dquote ++ dquote);
      Listening "0.0.0.0" 3000; ConsoleLog "Frontend server is running on http://localhost:3000";
      ConsoleLog ("Proxying /api requests to " ++ "http://upstream:9000")], Cont "http://upstream:9000").
Proof. apply (main_2EC2_serves HPM_v2 _ "http://upstream:9000"); [reflexivity|discriminate]. Defined.
