(* ===== verification/Url.v ===== *)
(** * Url: Node's legacy [url.parse] and http-proxy's [urlJoin]

    http-proxy parses the proxy target ([BACKEND_URL]) with [url.parse],
    takes [url.parse(req.url).path] as the outgoing path of every proxied
    request and joins the two with [common.urlJoin].  These are library
    functions the server calls, translated from their sources (Node's
    [lib/url.js], http-proxy's [lib/http-proxy/common.js]) on strings of
    8-bit characters: the trimming of code points below 33 and U+00A0,
    the protocol (lower-cased, but tested raw against
    [slashedProtocol]), the [URIError] of [decodeURIComponent] on the user
    information, the hostname checks after [parseHost] (the cut of
    [getHostname] at a [:], [/], backslash, [#] or [?] with the rest moved
    into the path, the empty hostname beyond [hostnameMaxLen] (255),
    lower-casing, IPv6 literals in brackets) and the [ERR_INVALID_URL]
    thrown when the hostname holds one of [forbiddenHostChars] (or of
    its IPv6 variant).  [parse] returns [None] where [url.parse] throws.
    The IDNA conversion [toASCII] is taken as the identity, which it is on
    a hostname of ASCII letters, digits, [.] and [-] with no label
    starting with [xn--] (the hostnames the theorems assume); the
    punycoding of other hostnames and the [xn--] label checks are not
    modelled. *)
From stdpp Require Import base list gmap strings.
From Stdlib Require Import Ascii String.
From S2P Require Import Prelude Uri.
Open Scope string_scope.

Module NodeUrl.

(** Whitespace as the trimming loop of [url.parse] sees it: a code
    below 33 or the no-break space U+00A0 (U+FEFF is not a byte). *)
Definition is_trim_ws (c : ascii) : bool := (nat_of_ascii c <? 33)%nat || (nat_of_ascii c =? 160)%nat.

(** JavaScript's [\s] on ASCII. *)
Definition is_js_space (c : ascii) : bool :=
let n := nat_of_ascii c in ((9 <=? n) && (n <=? 13))%nat || (n =? 32)%nat.

Fixpoint drop_ws (s : string) : string :=
match s with
| EmptyString => EmptyString
| String c t => if is_trim_ws c then drop_ws t else s
end.

Fixpoint rev_str (s : string) (acc : string) : string :=
match s with
| EmptyString => acc
| String c t => rev_str t (String c acc)
end.

Definition trim (s : string) : string :=
rev_str (drop_ws (rev_str (drop_ws s) EmptyString)) EmptyString.

(** The first loop of [Url.prototype.parse]: backslashes before the first
  [?] or [#] become slashes; [hasHash] records a [#] anywhere, [hasAt] an
  [@] before the first [?] or [#]. *)
Fixpoint pre_scan (split : bool) (s : string) : string * bool * bool :=
match s with
| EmptyString => (EmptyString, false, false)
| String c t =>
    if split then
      let '(r, hh, ha) := pre_scan true t in (String c r, hh || Ascii.eqb c "#", ha)
    else if Ascii.eqb c "@" then
      let '(r, hh, ha) := pre_scan false t in (String c r, hh, true)
    else if Ascii.eqb c "#" then
      let '(r, hh, ha) := pre_scan true t in (String c r, true, ha)
    else if Ascii.eqb c "?" then
      let '(r, hh, ha) := pre_scan true t in (String c r, hh, ha)
    else if Ascii.eqb c "\" then
      let '(r, hh, ha) := pre_scan false t in (String "/" r, hh, ha)
    else
      let '(r, hh, ha) := pre_scan false t in (String c r, hh, ha)
end.

Definition no_space (s : string) : bool := str_forall (fun c => negb (is_js_space c)) s.

(** [simplePathPattern]: one or two leading slashes not followed by a
  third, then no whitespace up to the optional search, and none in it. *)
Definition simple_path (s : string) : bool :=
starts_with "/" s && negb (starts_with "///" s) && no_space s.

(** [protocolPattern = /^[a-z0-9.+-]+:/i]: the protocol with its colon,
  and what follows. *)
Definition proto_char (c : ascii) : bool :=
let n := nat_of_ascii (lower_ascii c) in
((97 <=? n) && (n <=? 122))%nat || ((48 <=? n) && (n <=? 57))%nat
|| Ascii.eqb c "." || Ascii.eqb c "+" || Ascii.eqb c "-".

Fixpoint proto_go (s : string) : option (string * string) :=
match s with
| EmptyString => None
| String c t =>
    if Ascii.eqb c ":" then Some (String ":" EmptyString, t)
    else if proto_char c then
      match proto_go t with
      | Some (p, r) => Some (String c p, r)
      | None => None
      end
    else None
end.

Definition split_protocol (s : string) : option (string * string) :=
match s with
| String ":" _ => None
| _ => proto_go s
end.

(** [hostPattern = /^\/\/[^@/]+@[^@/]+/] *)
Definition host_pattern_after_at (s : string) : bool :=
match s with
| String c _ => negb (Ascii.eqb c "@" || Ascii.eqb c "/")
| EmptyString => false
end.

Fixpoint host_pattern_go (seen : bool) (s : string) : bool :=
match s with
| EmptyString => false
| String c t =>
    if Ascii.eqb c "@" then seen && host_pattern_after_at t
    else if Ascii.eqb c "/" then false
    else host_pattern_go true t
end.

Definition host_pattern (s : string) : bool :=
match s with
| String "/" (String "/" t) => host_pattern_go false t
| _ => false
end.

Definition slashed_protocol (p : string) : bool :=
String.eqb p "http:" || String.eqb p "https:" || String.eqb p "ftp:"
|| String.eqb p "gopher:" || String.eqb p "file:" || String.eqb p "ws:" || String.eqb p "wss:".

Definition hostless_protocol (p : string) : bool :=
String.eqb p "javascript:" || String.eqb p "javascript".

(** Characters that end the host part ([/], [?], [#]), and characters that
  never belong to a hostname. *)
Definition host_ending (c : ascii) : bool :=
Ascii.eqb c "#" || Ascii.eqb c "/" || Ascii.eqb c "?".

Definition non_host_char (c : ascii) : bool :=
existsb (Ascii.eqb c)
  ([ascii_of_nat 9; ascii_of_nat 10; ascii_of_nat 13; " "; ascii_of_nat 34; "%"; "'"; ";";
    "<"; ">"; "\"; "^"; "`"; "{"; "|"; "}"])%char.

(** The host loop: the position of the last [@] and of the first
  non-host character after it, stopping at a host-ending character. *)
Fixpoint host_scan (s : string) (i : nat) (at_sign non_host : option nat) : option nat * option nat :=
match s with
| EmptyString => (at_sign, non_host)
| String c t =>
    if host_ending c then (at_sign, Some (default i non_host))
    else if Ascii.eqb c "@" then host_scan t (S i) (Some i) None
    else if non_host_char c then host_scan t (S i) at_sign (Some (default i non_host))
    else host_scan t (S i) at_sign non_host
end.

Definition slice (s : string) (a b : nat) : string := substring a (b - a) s.
Definition slice_from (s : string) (a : nat) : string := substring a (String.length s - a) s.

(** [parseHost]: [portPattern = /:[0-9]*$/] *)
Fixpoint all_digits (s : string) : bool :=
match s with
| EmptyString => true
| String c t => ((48 <=? nat_of_ascii c) && (nat_of_ascii c <=? 57))%nat && all_digits t
end.

Fixpoint port_split (s : string) : option (string * string) :=
match s with
| EmptyString => None
| String c t =>
    match port_split t with
    | Some (h, p) => Some (String c h, p)
    | None => if Ascii.eqb c ":" && all_digits t then Some (EmptyString, t) else None
    end
end.

(** The autoEscape table of [url.parse]. *)
Definition auto_escape_char (c : ascii) : string :=
let n := nat_of_ascii c in
if (n =? 9)%nat then "%09" else if (n =? 10)%nat then "%0A"
else if (n =? 13)%nat then "%0D" else if Ascii.eqb c " " then "%20"
else if (n =? 34)%nat then "%22" else if Ascii.eqb c "'" then "%27"
else if Ascii.eqb c "<" then "%3C" else if Ascii.eqb c ">" then "%3E"
else if Ascii.eqb c "\" then "%5C" else if Ascii.eqb c "^" then "%5E"
else if Ascii.eqb c "`" then "%60" else if Ascii.eqb c "{" then "%7B"
else if Ascii.eqb c "|" then "%7C" else if Ascii.eqb c "}" then "%7D"
else String c EmptyString.

Fixpoint auto_escape (s : string) : string :=
match s with
| EmptyString => EmptyString
| String c t => auto_escape_char c ++ auto_escape t
end.

(** The fields of a parsed URL that http-proxy reads. *)
Record parsed := mk_parsed {
u_protocol : option string;
u_hostname : option string;
u_host : option string;
u_port : option string;
u_pathname : option string;
u_search : option string
}.

(** [this.path = pathname + search] when either is set. *)
Definition u_path (u : parsed) : option string :=
match u_pathname u, u_search u with
| None, None => None
| p, s => Some (default EmptyString p ++ default EmptyString s)
end.

Definition opt_nonempty (s : string) : option string :=
if String.eqb s EmptyString then None else Some s.

(** The tail of [parse] after the host: escape, cut the hash, split the
  search, and default the pathname of a slashed protocol with a host. *)
Definition parse_rest (proto : option string) (hostname host : option string) (port : option string)
  (rest : string) : parsed :=
let rest := if hostless_protocol (default EmptyString proto) then rest else auto_escape rest in
let '(before_hash, _) := split_first "#" rest in
let '(pn, search) := split_first "?" before_hash in
let pathname := opt_nonempty pn in
let pathname :=
  if slashed_protocol (default EmptyString proto) && negb (String.eqb (default EmptyString hostname) EmptyString)
     && negb (bool_decide (is_Some pathname))
  then Some "/" else pathname in
mk_parsed proto hostname host port pathname (option_map (String "?") search).

(** [isIpv6Hostname]: the hostname starts with [[] and ends with []]. *)
Definition is_ipv6_hostname (h : string) : bool :=
match h with
| String c _ => Ascii.eqb c "[" && match last_char h with Some d => Ascii.eqb d "]" | None => false end
| EmptyString => false
end.

(** The characters [getHostname] does not accept in a hostname. *)
Definition host_stop (c : ascii) : bool :=
Ascii.eqb c "/" || Ascii.eqb c "\" || Ascii.eqb c "#" || Ascii.eqb c "?" || Ascii.eqb c ":".

(** The hostname up to its first refused character, and the rest from it. *)
Fixpoint host_valid_prefix (h : string) : string * option string :=
match h with
| EmptyString => (EmptyString, None)
| String c t =>
    if host_stop c then (EmptyString, Some h)
    else let '(p, r) := host_valid_prefix t in (String c p, r)
end.

(** [getHostname(self, rest, hostname)]: a hostname with a refused
  character is cut there, and the cut part goes, after a [/], in front
  of the rest of the URL. *)
Definition get_hostname (hostname rest : string) : string * string :=
match host_valid_prefix hostname with
| (p, Some bad) => (p, "/" ++ bad ++ rest)
| (_, None) => (hostname, rest)
end.

(** [hostnameMaxLen] *)
Definition hostname_max_len : nat := 255.

(** [forbiddenHostChars = /[\0\t\n\r #%/:<>?@[\\\]^|]/] *)
Definition forbidden_host_char (c : ascii) : bool :=
existsb (fun n => (nat_of_ascii c =? n)%nat) [0; 9; 10; 13; 32; 35; 37; 47; 58; 60; 62; 63; 64; 91; 92; 93; 94; 124].

(** [forbiddenHostCharsIpv6 = /[\0\t\n\r #%/<>?@\\^|]/] *)
Definition forbidden_host_char_ipv6 (c : ascii) : bool :=
existsb (fun n => (nat_of_ascii c =? n)%nat) [0; 9; 10; 13; 32; 35; 37; 47; 60; 62; 63; 64; 92; 94; 124].

(** The hostname part of [url.parse] after [parseHost]: validate with
  [getHostname] unless it is an IPv6 literal, empty it when longer than
  [hostnameMaxLen], lower-case it, throw [ERR_INVALID_URL] ([None]) when
  a non-empty hostname holds a forbidden character ([toASCII], which
  comes first, is the identity on the ASCII names modelled), set [host]
  to it and the port, and strip the brackets of an IPv6 literal (the
  path then starts with a [/]).  The result is [(hostname, host, rest)]. *)
Definition finish_host (hostname : string) (port : option string) (rest : string) : option (string * string * string) :=
let ipv6 := is_ipv6_hostname hostname in
let '(hostname, rest) := if ipv6 then (hostname, rest) else get_hostname hostname rest in
let hostname := if (hostname_max_len <? String.length hostname)%nat then EmptyString else lower hostname in
if negb (String.eqb hostname EmptyString)
   && negb (str_forall (fun c => negb (if ipv6 then forbidden_host_char_ipv6 c else forbidden_host_char c)) hostname)
then None else
let host := hostname ++ match port with Some p => ":" ++ p | None => EmptyString end in
if ipv6 then Some (slice hostname 1 (String.length hostname - 1), host, if starts_with "/" rest then rest else "/" ++ rest)
else Some (hostname, host, rest).

(** [this.auth = decodeURIComponent(rest.slice(0, atSign))]: [None] is
  the [URIError] a malformed escape in the user information raises. *)
Definition decode_auth (rest : string) (at_sign : option nat) : option string :=
match at_sign with
| Some i => percent_decode (slice rest 0 i)
| None => Some EmptyString
end.

(** [url.parse(s)] with [slashesDenoteHost = false]; [None] when it
  throws ([URIError] from the user information, [ERR_INVALID_URL] from
  the hostname checks).  The protocol is stored lower-cased, but the
  [slashedProtocol] test that decides whether a host follows a protocol
  without [//] is made on the protocol as written. *)
Definition parse (s : string) : option parsed :=
let '(rest, has_hash, has_at) := pre_scan false (trim s) in
if negb has_hash && negb has_at && simple_path rest then
  let '(pn, search) := split_first "?" rest in
  Some (mk_parsed None None None None (Some pn) (option_map (String "?") search))
else
  let '(proto, raw_proto, rest) :=
    match split_protocol rest with
    | Some (p, r) => (Some (lower p), Some p, r)
    | None => (None, None, rest)
    end in
  let slashes :=
    if bool_decide (is_Some proto) || host_pattern rest then starts_with "//" rest else false in
  let rest := if slashes && negb (hostless_protocol (default EmptyString proto))
              then slice_from rest 2 else rest in
  if negb (hostless_protocol (default EmptyString proto))
     && (slashes || (bool_decide (is_Some proto) && negb (slashed_protocol (default EmptyString raw_proto))))
  then
    let '(at_sign, non_host) := host_scan rest 0 None None in
    match decode_auth rest at_sign with
    | None => None
    | Some _ =>
      let start := match at_sign with Some i => S i | None => 0 end in
      let host := match non_host with Some j => slice rest start j | None => slice_from rest start end in
      let rest := match non_host with Some j => slice_from rest j | None => EmptyString end in
      let '(hostname, port) :=
        match port_split host with
        | Some (h, p) => (h, opt_nonempty p)
        | None => (host, None)
        end in
      match finish_host hostname port rest with
      | Some (hostname, host, rest) => Some (parse_rest proto (Some hostname) (Some host) port rest)
      | None => None
      end
    end
  else Some (parse_rest proto None None None rest).

(** Characters the trimming loop keeps; characters that keep the first
  loop from converting or flagging; strings the autoEscape table leaves
  unchanged. *)
Definition not_ws (c : ascii) : bool := negb (is_trim_ws c).

Definition no_at_bs (c : ascii) : bool := negb (Ascii.eqb c "@") && negb (Ascii.eqb c "\").

Definition escape_free (s : string) : bool :=
str_forall (fun c => String.eqb (auto_escape_char c) (String c EmptyString)) s.

(** An origin as the spec describes [BACKEND_URL] (section 3): scheme,
  host and optional port.  Host names are written in lower case with
  letters, digits, [.] and [-], and a DNS name has at most 253
  characters. *)
Definition origin_host_char (c : ascii) : bool :=
let n := nat_of_ascii c in
((97 <=? n) && (n <=? 122))%nat || ((48 <=? n) && (n <=? 57))%nat || Ascii.eqb c "." || Ascii.eqb c "-".

Definition origin_host (h : string) : bool :=
negb (String.eqb h EmptyString) && str_forall origin_host_char h && (String.length h <=? 253)%nat.

Definition origin_port (p : option string) : bool :=
match p with Some d => negb (String.eqb d EmptyString) && all_digits d | None => true end.

Definition origin (scheme host : string) (port : option string) : string :=
scheme ++ "://" ++ host ++ match port with Some d => ":" ++ d | None => EmptyString end.

End NodeUrl.

Module HttpProxyCommon.

(** [common.urlJoin(a, last)] of http-proxy:
  {v
  var lastSegs = last.split('?');
  args[lastIndex] = lastSegs.shift();
  retSegs = [ args.filter(Boolean).join('/')
                .replace(/\/+/g, '/')
                .replace('http:/', 'http://')
                .replace('https:/', 'https://') ];
  retSegs.push.apply(retSegs, lastSegs);
  return retSegs.join('?')
  v} *)
Definition url_join (a last : string) : string :=
match split_on "?" last with
| [] => EmptyString
| first :: segs =>
    let joined := join_on "/" (filter (fun s => negb (String.eqb s EmptyString)) [a; first]) in
    let fixed := replace_first "https:/" "https://"
                   (replace_first "http:/" "http://" (collapse_slashes joined)) in
    join_on "?" (fixed :: segs)
end.

(** The path part of the join, as a function of the target path and the
  part of the request path before its first [?]. *)
Definition join_path (a first : string) : string :=
replace_first "https:/" "https://"
  (replace_first "http:/" "http://"
     (collapse_slashes (join_on "/" (filter (fun s => negb (String.eqb s EmptyString)) [a; first])))).

End HttpProxyCommon.

(** ** Lemmas *)

Import NodeUrl.

Lemma rev_str_acc (s acc : string) : rev_str s acc = rev_str s EmptyString ++ acc.
Proof.
  revert acc. induction s as [|a t IH]; intros acc; simpl; [done|].
  rewrite IH, (IH (String a EmptyString)). by rewrite <- string_app_assoc.
Qed.

Lemma rev_str_app (x y acc : string) : rev_str (x ++ y) acc = rev_str y (rev_str x acc).
Proof. revert acc. induction x; intros acc; simpl; auto. Qed.

Lemma rev_str_involutive (s : string) : rev_str (rev_str s EmptyString) EmptyString = s.
Proof.
  induction s as [|a t IH]; simpl; [done|].
  rewrite (rev_str_acc t (String a EmptyString)), rev_str_app. simpl. by rewrite IH.
Qed.

Lemma str_forall_rev_str (p : ascii -> bool) (s acc : string) :
  str_forall p (rev_str s acc) = str_forall p s && str_forall p acc.
Proof.
  revert acc. induction s as [|a t IH]; intros acc; simpl; [done|].
  rewrite IH. simpl. destruct (p a), (str_forall p t), (str_forall p acc); done.
Qed.

Lemma drop_ws_id (s : string) : str_forall not_ws s = true -> drop_ws s = s.
Proof. destruct s as [|a t]; simpl; [done|]. unfold not_ws. by destruct (is_trim_ws a). Qed.

(** [trim] leaves a string without surrounding whitespace unchanged. *)
Lemma trim_id (s : string) : str_forall not_ws s = true -> trim s = s.
Proof.
  intros H. unfold trim. rewrite (drop_ws_id s H).
  rewrite drop_ws_id; [apply rev_str_involutive|].
  by rewrite str_forall_rev_str, H.
Qed.

Lemma pre_scan_split (s : string) : pre_scan true s = (s, has_char "#" s, false).
Proof.
  induction s as [|a t IH]; simpl; [done|]. rewrite IH. f_equal. f_equal. apply orb_comm.
Qed.

(** Without [#], and without [@] or backslash before the first [?], the
    first loop copies the string and raises no flag. *)
Lemma pre_scan_plain (s : string) :
  has_char "#" s = false -> str_forall no_at_bs (fst (split_first "?" s)) = true ->
  pre_scan false s = (s, false, false).
Proof.
  induction s as [|a t IH]; simpl; [done|].
  intros [Ha Ht]%orb_false_iff. rewrite Ha.
  destruct (Ascii.eqb_spec a "?") as [->|Hq].
  - simpl. by rewrite pre_scan_split, Ht.
  - destruct (split_first "?" t) as [x r] eqn:E. simpl.
    unfold no_at_bs at 1. intros [[Hat Hbs]%andb_prop Hx]%andb_prop.
    apply negb_true_iff in Hat, Hbs. rewrite Hat, Hbs.
    rewrite IH; [done|done|exact Hx].
Qed.

Lemma contains_cons (pat : string) (a : ascii) (t : string) :
  contains pat (String a t) = starts_with pat (String a t) || contains pat t.
Proof. done. Qed.

(** A path of one leading slash or two, without whitespace, takes the fast
    path. *)
Lemma simple_path_slash (t : string) :
  contains "//" (fst (split_first "?" (String "/" t))) = false ->
  no_space (String "/" t) = true -> simple_path (String "/" t) = true.
Proof.
  intros Hc Hs. unfold simple_path. rewrite Hs, andb_true_r.
  replace (starts_with "/" (String "/" t)) with true by done. simpl.
  apply negb_true_iff. destruct (starts_with "///" (String "/" t)) eqn:E; [|done].
  apply starts_with_spec in E as [r Hr]. rewrite Hr in Hc. simpl in Hc.
  by destruct (split_first "?" r).
Qed.

(** The fast path of [url.parse]: the path is the string itself. *)
Lemma parse_fast_path (s : string) :
  str_forall not_ws s = true -> has_char "#" s = false ->
  str_forall no_at_bs (fst (split_first "?" s)) = true -> simple_path s = true ->
  exists u, parse s = Some u /\ u_path u = Some s.
Proof.
  intros Hws Hh Hab Hsp. unfold parse. rewrite trim_id, pre_scan_plain by done.
  simpl. rewrite Hsp. pose proof (split_first_unsplit "?" s) as Hu. unfold unsplit in Hu.
  destruct (split_first "?" s) as [pn [q|]]; simpl in *; eexists; (split; [reflexivity|]);
    unfold u_path; simpl; by rewrite <- Hu.
Qed.

Lemma auto_escape_id (s : string) : escape_free s = true -> auto_escape s = s.
Proof.
  induction s as [|a t IH]; simpl; [done|].
  intros [Ha%String.eqb_eq Ht]%andb_prop. rewrite Ha, IH by done. done.
Qed.

(** The autoEscape table introduces no [#]. *)
Lemma auto_escape_no_hash (s : string) : has_char "#" s = false -> has_char "#" (auto_escape s) = false.
Proof.
  induction s as [|c t IH]; simpl; [done|]. intros [Hc Ht]%orb_false_iff.
  rewrite has_char_app, IH by done. rewrite orb_false_r.
  unfold auto_escape_char. repeat (case_match; [reflexivity|]). simpl. by rewrite Hc.
Qed.

(** A bare query ([?q]) takes the slow path: no protocol, no host, and
    the path is the query after the autoEscape table. *)
Lemma parse_query (q : string) :
  str_forall not_ws (String "?" q) = true -> has_char "#" q = false ->
  exists u, parse (String "?" q) = Some u /\ u_path u = Some (String "?" (auto_escape q)).
Proof.
  intros Hws Hh. unfold parse. rewrite trim_id by done.
  simpl. rewrite pre_scan_split, Hh. simpl. eexists. split; [reflexivity|].
  unfold parse_rest. simpl.
  rewrite split_first_no_char by (simpl; by apply auto_escape_no_hash). simpl. done.
Qed.

(** Without anything to escape, the query is the path verbatim. *)
Lemma parse_query_only (q : string) :
  str_forall not_ws (String "?" q) = true -> has_char "#" q = false ->
  escape_free (String "?" q) = true ->
  exists u, parse (String "?" q) = Some u /\ u_path u = Some (String "?" q).
Proof.
  intros Hws Hh He. destruct (parse_query q Hws Hh) as (u & Hu & Hp). exists u. split; [done|].
  rewrite Hp. change (String "?" (auto_escape q)) with (auto_escape (String "?" q)).
  by rewrite auto_escape_id.
Qed.

Lemma url_join_split (a last : string) :
  HttpProxyCommon.url_join a last =
    HttpProxyCommon.join_path a (fst (split_first "?" last)) ++
    match snd (split_first "?" last) with None => EmptyString | Some q => String "?" q end.
Proof.
  unfold HttpProxyCommon.url_join, HttpProxyCommon.join_path. rewrite split_on_split_first.
  destruct (snd (split_first "?" last)) as [q|].
  - pose proof (split_on_nonempty "?" q) as Hn. pose proof (join_split "?" q) as Hj.
    destruct (split_on "?" q) as [|x xs]; [done|]. simpl. by rewrite <- Hj.
  - simpl. by rewrite string_app_nil_r.
Qed.

(** Joining the root target path with a path of single slashes that does
    not contain ["http:/"] or ["https:/"] gives the path back. *)
Lemma join_path_root_slash (t : string) :
  contains "//" (String "/" t) = false -> contains "http:/" (String "/" t) = false ->
  contains "https:/" (String "/" t) = false ->
  HttpProxyCommon.join_path "/" (String "/" t) = String "/" t.
Proof.
  intros Hd Hh Hs. unfold HttpProxyCommon.join_path.
  assert (Hc : collapse_slashes (join_on "/" (filter (fun s => negb (String.eqb s EmptyString))
                 ["/"; String "/" t])) = String "/" t).
  { unfold collapse_slashes. simpl. rewrite (collapse_go_id true t); [done| |].
    - rewrite contains_cons in Hd. by apply orb_false_iff in Hd as [_ Hd].
    - intros _. rewrite contains_cons in Hd. apply orb_false_iff in Hd as [Hd _].
      destruct (starts_with "/" t) eqn:E; [|done].
      apply starts_with_spec in E as [r ->]. simpl in Hd. done. }
  rewrite Hc, (replace_first_not_contains "http:/") by done. by rewrite replace_first_not_contains.
Qed.

(** ** Parsing an origin *)

Lemma slice_from_app (a b : string) : slice_from (a ++ b) (String.length a) = b.
Proof.
  unfold slice_from. rewrite string_length_app.
  replace (String.length a + String.length b - String.length a)%nat with (String.length b) by lia.
  induction a as [|c a IH]; simpl; [|exact IH].
  induction b as [|d b IHb]; simpl; [done|]. by rewrite IHb.
Qed.

Lemma slice_from_0 (s : string) : slice_from s 0 = s.
Proof. exact (slice_from_app EmptyString s). Qed.

(** Characters that neither end the host nor mark credentials leave the
    host loop's state unchanged. *)
Lemma host_scan_plain (s : string) (i : nat) (a n : option nat) :
  str_forall (fun c => negb (host_ending c) && negb (Ascii.eqb c "@") && negb (non_host_char c)) s = true ->
  host_scan s i a n = (a, n).
Proof.
  revert i. induction s as [|c t IH]; intros i; simpl; [done|].
  intros [[[Hc1 Hc2]%andb_prop Hc3]%andb_prop Ht]%andb_prop.
  apply negb_true_iff in Hc1, Hc2, Hc3. rewrite Hc1, Hc2, Hc3. by apply IH.
Qed.

Lemma all_digits_no_colon (d : string) : all_digits d = true -> has_char ":" d = false.
Proof.
  induction d as [|c t IH]; simpl; [done|]. intros [Hc Ht]%andb_prop.
  rewrite IH by done. destruct (Ascii.eqb_spec c ":") as [->|]; [done|reflexivity].
Qed.

Lemma port_split_no_colon (h : string) : has_char ":" h = false -> port_split h = None.
Proof.
  induction h as [|c t IH]; simpl; [done|]. intros [Hc Ht]%orb_false_iff.
  by rewrite IH, Hc.
Qed.

(** [portPattern] takes the digits after the last colon. *)
Lemma port_split_host_port (h d : string) :
  has_char ":" h = false -> all_digits d = true -> port_split (h ++ String ":" d) = Some (h, d).
Proof.
  intros Hh Hd. induction h as [|c t IH]; simpl.
  - rewrite port_split_no_colon by (by apply all_digits_no_colon). by rewrite Hd.
  - simpl in Hh. apply orb_false_iff in Hh as [_ Ht]. by rewrite IH.
Qed.

Lemma lower_id (s : string) : str_forall (fun c => negb (is_upper c)) s = true -> lower s = s.
Proof.
  induction s as [|c t IH]; simpl; [done|]. intros [Hc Ht]%andb_prop.
  unfold lower_ascii. apply negb_true_iff in Hc. by rewrite Hc, IH.
Qed.

(** Every character of an origin passes the character tests [parse]
    applies to it. *)
Lemma origin_chars (scheme host : string) (port : option string) (p : ascii -> bool) :
  (forall c, origin_host_char c || Ascii.eqb c ":" || Ascii.eqb c "/" = true -> p c = true) ->
  str_forall (fun c => origin_host_char c || Ascii.eqb c ":" || Ascii.eqb c "/") scheme = true ->
  origin_host host = true -> origin_port port = true ->
  str_forall p (origin scheme host port) = true.
Proof.
  intros Hp Hs Hh Hport. unfold origin, origin_host in *.
  apply andb_prop in Hh as [[_ Hh]%andb_prop _].
  assert (Hd : forall d, all_digits d = true ->
            str_forall (fun c => origin_host_char c || Ascii.eqb c ":" || Ascii.eqb c "/") d = true).
  { induction d as [|c t IH]; cbn [all_digits str_forall]; [done|]. intros [Hc Ht]%andb_prop.
    rewrite IH by done. unfold origin_host_char. cbv zeta. rewrite Hc, orb_true_r. done. }
  assert (Hh' : str_forall (fun c => origin_host_char c || Ascii.eqb c ":" || Ascii.eqb c "/") host = true).
  { apply (str_forall_impl origin_host_char); [intros c ->; done|exact Hh]. }
  apply (str_forall_impl _ _ _ Hp). rewrite !str_forall_app, Hs, Hh'.
  destruct port as [d|]; [|done]. simpl in Hport. apply andb_prop in Hport as [_ Hport].
  simpl. by apply Hd.
Qed.

(** Decide a property of all 256 characters by cases. *)
Ltac by_char_cases :=
  let c := fresh "c" in let H := fresh "H" in
  intros c H; destruct c as [[] [] [] [] [] [] [] []]; vm_compute in H;
  try discriminate H; vm_compute; repeat split.

Definition origin_char (c : ascii) : bool := origin_host_char c || Ascii.eqb c ":" || Ascii.eqb c "/".

Lemma origin_char_tests (c : ascii) :
  origin_char c = true ->
  not_ws c = true /\ no_at_bs c = true /\ Ascii.eqb c "#" = false /\ Ascii.eqb c "?" = false /\
  negb (is_js_space c) = true /\ negb (is_upper c) = true.
Proof. revert c. by_char_cases. Qed.

Lemma authority_char_tests (c : ascii) :
  origin_host_char c || Ascii.eqb c ":" = true ->
  negb (host_ending c) && negb (Ascii.eqb c "@") && negb (non_host_char c) = true.
Proof. revert c. by_char_cases. Qed.

Lemma scheme_chars (scheme : string) :
  scheme = "http" \/ scheme = "https" -> str_forall origin_char scheme = true.
Proof. by intros [-> | ->]. Qed.

Lemma origin_host_char_tests (c : ascii) :
  origin_host_char c = true ->
  Ascii.eqb c "[" = false /\ negb (host_stop c) = true /\ negb (forbidden_host_char c) = true.
Proof. revert c. by_char_cases. Qed.

Lemma host_valid_prefix_plain (h : string) :
  str_forall (fun c => negb (host_stop c)) h = true -> host_valid_prefix h = (h, None).
Proof.
  induction h as [|c t IH]; simpl; [done|]. intros [Hc Ht]%andb_prop.
  apply negb_true_iff in Hc. by rewrite Hc, IH.
Qed.

(** An origin's hostname of at most 255 characters passes [getHostname]
    and [hostnameMaxLen] unchanged. *)
Lemma finish_host_origin (h : string) (port : option string) (rest : string) :
  str_forall origin_host_char h = true -> (String.length h <= hostname_max_len)%nat -> lower h = h ->
  finish_host h port rest = Some (h, h ++ match port with Some p => ":" ++ p | None => EmptyString end, rest).
Proof.
  intros Hh Hlen Hlow. unfold finish_host.
  assert (Hv : is_ipv6_hostname h = false).
  { destruct h as [|c t]; [done|]. simpl in Hh. apply andb_prop in Hh as [Hc _].
    simpl. by rewrite (proj1 (origin_host_char_tests c Hc)). }
  rewrite Hv. unfold get_hostname. rewrite host_valid_prefix_plain.
  - apply Nat.ltb_ge in Hlen. rewrite Hlen, Hlow.
    assert (Hf : str_forall (fun c => negb (forbidden_host_char c)) h = true).
    { apply (str_forall_impl origin_host_char); [|done]. intros c Hc. apply (origin_host_char_tests c Hc). }
    by rewrite Hf, andb_false_r.
  - apply (str_forall_impl origin_host_char); [|done]. intros c Hc. apply (origin_host_char_tests c Hc).
Qed.

Theorem parse_origin (scheme host : string) (port : option string) :
  scheme = "http" \/ scheme = "https" -> origin_host host = true -> origin_port port = true ->
  exists u, parse (origin scheme host port) = Some u /\
  u_protocol u = Some (scheme ++ ":") /\ u_hostname u = Some host /\
  u_host u = Some (host ++ match port with Some d => ":" ++ d | None => EmptyString end) /\
  u_port u = port /\ u_path u = Some "/".
Proof.
  intros Hs Hh Hp.
  pose proof (fun p H => origin_chars scheme host port p H (scheme_chars scheme Hs) Hh Hp) as Hc.
  assert (Hq : has_char "?" (origin scheme host port) = false).
  { apply (str_forall_has_char (fun c => negb (Ascii.eqb c "?"))); [done|]. apply Hc.
    intros c Hc'%origin_char_tests. apply negb_true_iff. naive_solver. }
  assert (Hhash : has_char "#" (origin scheme host port) = false).
  { apply (str_forall_has_char (fun c => negb (Ascii.eqb c "#"))); [done|]. apply Hc.
    intros c Hc'%origin_char_tests. apply negb_true_iff. naive_solver. }
  unfold parse. rewrite trim_id by (apply Hc; intros c Hc'%origin_char_tests; naive_solver).
  rewrite pre_scan_plain; [|done|rewrite split_first_no_char by exact Hq;
    apply Hc; intros c Hc'%origin_char_tests; naive_solver].
  unfold origin_host in Hh. apply andb_prop in Hh as [[Hne Hh]%andb_prop Hlen].
  apply Nat.leb_le in Hlen. assert (Hlen' : (String.length host <= hostname_max_len)%nat)
    by (unfold hostname_max_len; lia).
  assert (Hlow : lower host = host).
  { apply lower_id, (str_forall_impl origin_host_char); [|done].
    intros c Hc'. apply (origin_char_tests c). unfold origin_char. by rewrite Hc'. }
  set (auth := host ++ match port with Some d => ":" ++ d | None => EmptyString end).
  assert (Hscan : host_scan auth 0 None None = (None, None)).
  { apply host_scan_plain, (str_forall_impl (fun c => origin_host_char c || Ascii.eqb c ":"));
      [intros c; apply authority_char_tests|].
    subst auth. rewrite str_forall_app, (str_forall_impl origin_host_char _ host); [|intros c ->; done|done].
    destruct port as [d|]; [|done]. simpl in Hp |- *. apply andb_prop in Hp as [_ Hp].
    clear -Hp. induction d as [|c t IH]; cbn [all_digits str_forall] in *; [done|].
    apply andb_prop in Hp as [Hc Ht]. rewrite IH by done. unfold origin_host_char. cbv zeta.
    by rewrite Hc, orb_true_r. }
  assert (Hsp : simple_path (origin scheme host port) = false) by (by destruct Hs as [-> | ->]).
  assert (Hsplit : split_protocol (origin scheme host port) = Some (scheme ++ ":", "//" ++ auth))
    by (by destruct Hs as [-> | ->]).
  rewrite Hsp, Hsplit. cbv iota beta zeta. rewrite starts_with_app.
  assert (Hls : lower (scheme ++ ":") = scheme ++ ":") by (by destruct Hs as [-> | ->]).
  assert (Hsl : slice_from ("//" ++ auth) 2 = auth) by exact (slice_from_app "//" auth).
  assert (Hsh : slashed_protocol (scheme ++ ":") = true /\ hostless_protocol (scheme ++ ":") = false)
    by (by destruct Hs as [-> | ->]).
  destruct Hsh as [Hsh1 Hsh2].
  rewrite Hls, (bool_decide_eq_true_2 (is_Some (Some _))) by by eexists. simpl orb. cbv iota.
  simpl default. rewrite Hsh2, Hsl. simpl negb. simpl andb. cbv iota. rewrite Hscan, slice_from_0.
  cbn [decode_auth].
  assert (Hcolon : has_char ":" host = false).
  { apply (str_forall_has_char origin_host_char); [reflexivity|exact Hh]. }
  assert (Hps : port_split auth = match port with Some d => Some (host, d) | None => None end).
  { subst auth. destruct port as [d|].
    - apply port_split_host_port; [done|]. simpl in Hp. by apply andb_prop in Hp as [_ Hp].
    - rewrite string_app_nil_r. by apply port_split_no_colon. }
  rewrite Hps. apply negb_true_iff in Hne.
  destruct port as [d|]; cbv iota beta.
  - simpl in Hp. apply andb_prop in Hp as [Hd _]. apply negb_true_iff in Hd.
    unfold opt_nonempty. rewrite Hd. rewrite finish_host_origin by (done || lia).
    eexists. split; [reflexivity|].
    unfold parse_rest; simpl; rewrite Hsh2; simpl; rewrite Hsh1, Hne. by repeat split.
  - subst auth. rewrite string_app_nil_r, finish_host_origin by (done || lia).
    eexists. split; [reflexivity|].
    unfold parse_rest; simpl; rewrite Hsh2; simpl; rewrite Hsh1, Hne, string_app_nil_r. by repeat split.
Qed.

Lemma parse_rest_hostname (proto hn h port : option string) (rest : string) :
  u_hostname (parse_rest proto hn h port rest) = hn.
Proof. unfold parse_rest. by repeat case_match. Qed.

Lemma parse_rest_host (proto hn h port : option string) (rest : string) :
  u_host (parse_rest proto hn h port rest) = h.
Proof. unfold parse_rest. by repeat case_match. Qed.

Lemma parse_rest_port (proto hn h port : option string) (rest : string) :
  u_port (parse_rest proto hn h port rest) = port.
Proof. unfold parse_rest. by repeat case_match. Qed.

Lemma finish_host_suffix (h : string) (port : option string) (rest hn host rest' : string) :
  finish_host h port rest = Some (hn, host, rest') ->
  exists h', host = h' ++ match port with Some p => ":" ++ p | None => EmptyString end.
Proof.
  unfold finish_host, get_hostname. repeat case_match; intros; simplify_eq;
    first [exists EmptyString; reflexivity | eexists; reflexivity].
Qed.

(** [url.parse] sets [host] exactly when it sets [hostname], to a name
    followed by [:port] when there is a port. *)
Lemma parse_host_port (s : string) (u : parsed) :
  parse s = Some u ->
  match u_hostname u with
  | Some _ => exists h, u_host u = Some (h ++ match u_port u with Some p => ":" ++ p | None => EmptyString end)
  | None => u_host u = None
  end.
Proof.
  unfold parse. repeat case_match; intros; simplify_eq;
    rewrite ?parse_rest_hostname, ?parse_rest_host, ?parse_rest_port in *; simplify_eq; try done;
    match goal with H : finish_host _ _ _ = Some (_, _, _) |- _ =>
      destruct (finish_host_suffix _ _ _ _ _ _ H) as [h' Hh']; subst end;
    repeat match goal with
    | H : _ = Some _ |- _ => progress rewrite H in *
    | H : _ = None |- _ => progress rewrite H in *
    end; by eexists.
Qed.
