(* ===== verification/Proxy.v ===== *)
(** * Proxy: the /api reverse proxy of the 2EC2 variant

    [src/2EC2/frontend/server.js] lines 17-23 mount
    [createProxyMiddleware({ target: BACKEND_URL, changeOrigin: true,
    pathRewrite: { '^/api': '' } })] at ['/api'].  This file translates
    what that middleware does with a request, following the sources of
    http-proxy-middleware ([prepareProxyRequest], [applyPathRewrite], the
    default error handler) and of http-proxy ([web-incoming] passes
    [deleteLength] and [stream], [common.setupOutgoing], the protocol
    check of [http.request] ([outgoing_request]), [web-outgoing]
    passes [removeChunked], [setConnection], [writeHeaders],
    [writeStatusCode]).  The repository pins no library version; the two
    major versions of http-proxy-middleware differ in which URL the path
    rewrite sees, so the version is a parameter ([hpm_version]).

    The upstream server is the interface [Upstream]: given the outgoing
    request it either replies or fails with a Node error code.  The
    abstract contract of the spec (section 4.1) is [ProxySpec], and
    [proxy_refines_spec] relates the two. *)
From stdpp Require Import base list gmap strings.
From Stdlib Require Import Ascii String DecimalString.
From S2P Require Import Prelude Http Url.
Open Scope string_scope.

(** ** The upstream interface *)

Record outgoing := mk_outgoing {
  out_method : method;
  out_protocol : string;
  out_hostname : string;
  out_port : string;
  out_path : string;
  out_headers : gmap string string;
  out_body : string
}.

Inductive upstream_reply :=
  | Reply (status : nat) (headers : gmap string string) (body : string)
  | Failure (code : string).

(** The network and the backend behind [BACKEND_URL]. *)
Class Upstream := upstream_fetch : outgoing -> upstream_reply.

(** ** Configuration *)

(** A [pathRewrite] key is a RegExp source.  The only key of the program,
    ['^/api'], is an anchored literal ([/] is not a metacharacter). *)
Inductive rewrite_regex := AnchoredLiteral (lit : string).

Record proxy_options := mk_options {
  po_target : string;
  po_change_origin : bool;
  po_path_rewrite : list (rewrite_regex * string)
}.

(** [{ target: BACKEND_URL, changeOrigin: true, pathRewrite: { '^/api': '' } }] *)
Definition options_2EC2 (BACKEND_URL : string) : proxy_options :=
  mk_options BACKEND_URL true [(AnchoredLiteral "/api", "")].

(** ** http-proxy-middleware *)

(** [rule.regex.test(path)] and [path.replace(rule.regex, rule.value)] for
    an anchored literal: the value replaces the matched prefix. *)
Definition rx_replace (rx : rewrite_regex) (value path : string) : option string :=
  match rx with
  | AnchoredLiteral lit => option_map (fun rest => value ++ rest) (strip_prefix lit path)
  end.

(** [rewritePath]: the first rule whose regex matches rewrites the path. *)
Fixpoint rewrite_path (rules : list (rewrite_regex * string)) (path : string) : string :=
  match rules with
  | [] => path
  | (rx, value) :: rest =>
      match rx_replace rx value path with
      | Some p => p
      | None => rewrite_path rest path
      end
  end.

(** [prepareProxyRequest]: version 2 first restores [req.url =
    req.originalUrl || req.url], undoing Express's mount-path stripping;
    version 3 keeps the stripped [req.url].  Then [applyPathRewrite] sets
    [req.url] to the rewritten path. *)
Definition prepare_request (ver : hpm_version) (o : proxy_options) (req : request) : request :=
  let req := match ver with
             | HPM_v2 => set_url req (js_or (Some (req_original_url req)) (req_url req))
             | HPM_v3 => req
             end in
  set_url req (rewrite_path (po_path_rewrite o) (req_url req)).

(** ** http-proxy *)

(** [web-incoming.deleteLength]: a DELETE or OPTIONS request without
    content-length gets ['0'] and loses transfer-encoding.  It mutates
    [req.headers] itself. *)
Definition delete_length (req : request) : request :=
  if (bool_decide (req_method req = DELETE) || bool_decide (req_method req = OPTIONS))
     && negb (bool_decide (is_Some (req_headers req !! "content-length")) &&
              negb (String.eqb (default "" (req_headers req !! "content-length")) ""))
  then set_req_headers req (delete "transfer-encoding" (<["content-length" := "0"]> (req_headers req)))
  else req.

Fixpoint trim_js_left (s : string) : string :=
  match s with
  | EmptyString => EmptyString
  | String c t => if NodeUrl.is_js_space c then trim_js_left t else s
  end.

Definition trim_js (s : string) : string :=
  NodeUrl.rev_str (trim_js_left (NodeUrl.rev_str (trim_js_left s) EmptyString)) EmptyString.

(** [upgradeHeader = /(^|,)\s*upgrade\s*($|,)/i]: some comma-separated
    item is [upgrade] up to surrounding whitespace and case. *)
Definition has_upgrade_token (v : string) : bool :=
  existsb (fun item => String.eqb (lower (trim_js item)) "upgrade") (split_on "," v).

(** [+port] for a decimal port string. *)
Definition port_number (p : string) : nat :=
  match NilEmpty.uint_of_string p with
  | Some u => Nat.of_uint u
  | None => 0
  end.

(** The requires-port package: is [port] other than the protocol's default? *)
Definition port_required (port : string) (protocol : string) : bool :=
  let n := port_number port in
  let proto := fst (split_first ":" protocol) in
  if (n =? 0)%nat then false
  else if String.eqb proto "http" || String.eqb proto "ws" then negb (n =? 80)%nat
  else if String.eqb proto "https" || String.eqb proto "wss" then negb (n =? 443)%nat
  else if String.eqb proto "ftp" then negb (n =? 21)%nat
  else if String.eqb proto "gopher" then negb (n =? 70)%nat
  else if String.eqb proto "file" then false
  else true.

(** [isSSL = /^https|wss/] *)
Definition is_ssl (protocol : string) : bool := starts_with "https" protocol || contains "wss" protocol.

(** [common.setupOutgoing].  A target without protocol or host makes
    http-proxy throw ([protocol.split] on [undefined], or an invalid
    [host] header), and so does a target or request URL on which
    [url.parse] throws; the middleware catches the error and passes it to
    [next]. *)
Definition setup_outgoing (o : proxy_options) (req : request) : option outgoing :=
  match NodeUrl.parse (po_target o), NodeUrl.parse (req_url req) with
  | Some t, Some ru =>
  match NodeUrl.u_protocol t, NodeUrl.u_hostname t, NodeUrl.u_host t with
  | Some proto, Some hostname, Some host =>
      let port := match NodeUrl.u_port t with
                  | Some p => p
                  | None => if is_ssl proto then "443" else "80"
                  end in
      let hs := req_headers req in
      let hs := match hs !! "connection" with
                | Some c => if has_upgrade_token c then hs else <["connection" := "close"]> hs
                | None => <["connection" := "close"]> hs
                end in
      let target_path := default "" (NodeUrl.u_path t) in
      let outgoing_path := default "" (NodeUrl.u_path ru) in
      let path := HttpProxyCommon.url_join target_path outgoing_path in
      let hs := if po_change_origin o
                then <["host" := if port_required port proto && negb (has_char ":" host)
                                 then host ++ ":" ++ port else host]> hs
                else hs in
      Some (mk_outgoing (req_method req) proto hostname port path hs (req_body req))
  | _, _, _ => None
  end
  | _, _ => None
  end.

(** [(target.protocol === 'https:' ? https : http).request(outgoing)] in
    the [stream] pass: [new ClientRequest] throws [ERR_INVALID_PROTOCOL]
    unless the protocol is the one of the module's agent, so only [http:]
    and [https:] targets are ever contacted. *)
Definition protocol_accepted (proto : string) : bool :=
  String.eqb proto "http:" || String.eqb proto "https:".

(** The request http-proxy sends, or [None] when building or sending it
    throws. *)
Definition outgoing_request (o : proxy_options) (req : request) : option outgoing :=
  match setup_outgoing o req with
  | Some out => if protocol_accepted (out_protocol out) then Some out else None
  | None => None
  end.

(** [web-outgoing.removeChunked] and [setConnection] on the upstream's
    headers, then [writeHeaders]/[writeStatusCode]: the response the
    client receives (the body is piped through). *)
Definition relay (req : request) (status : nat) (hs : gmap string string) (body : string) : response :=
  let hs := if bool_decide (req_version req = HTTP_1_0) then delete "transfer-encoding" hs else hs in
  let conn := req_headers req !! "connection" in
  let hs :=
    if bool_decide (req_version req = HTTP_1_0) then <["connection" := js_or conn "close"]> hs
    else if negb (bool_decide (req_version req = HTTP_2_0)) && String.eqb (js_or (hs !! "connection") "") ""
    then <["connection" := js_or conn "keep-alive"]> hs
    else hs in
  mk_response status hs body.

(** The status of the default error handler ([getStatusCode] in version 3). *)
Definition error_status (code : string) : nat :=
  if contains "HPE_INVALID" code then 502
  else if String.eqb code "ECONNRESET" || String.eqb code "ENOTFOUND"
          || String.eqb code "ECONNREFUSED" || String.eqb code "ETIMEDOUT" then 504
  else 500.

(** Version 3 passes host and url through [sanitize], which
    percent-encodes [<] and [>]. *)
Fixpoint sanitize (s : string) : string :=
  match s with
  | EmptyString => EmptyString
  | String c t =>
      (if Ascii.eqb c "<" then "%3C" else if Ascii.eqb c ">" then "%3E" else String c EmptyString)
      ++ sanitize t
  end.

(** The default error handler: [res.writeHead(status)] then
    [res.end(`Error occured while trying to proxy: ${host}${req.url}`)]
    (spelled [occurred] from version 3 on),
    with the request's own (unrewritten) host header and its rewritten url. *)
Definition error_response (ver : hpm_version) (code : string) (req : request) : response :=
  let host := req_headers req !! "host" in
  let text := match ver with
              | HPM_v2 => default "undefined" host ++ req_url req
              | HPM_v3 => sanitize (default "" host) ++ sanitize (req_url req)
              end in
  let prefix := match ver with
                | HPM_v2 => "Error occured while trying to proxy: "
                | HPM_v3 => "Error occurred while trying to proxy: "
                end in
  mk_response (error_status code) ∅ (prefix ++ text).

Section ProxyMiddleware.
Context `{Upstream}.

(** The middleware returned by [createProxyMiddleware(o)]: with no
    context filter every request it sees is proxied. *)
Definition proxy_middleware (ver : hpm_version) (o : proxy_options) : middleware :=
  fun req =>
    let req := prepare_request ver o req in
    let req := delete_length req in
    match outgoing_request o req with
    | None => NextError 500 ∅ ∅
    | Some out =>
        match upstream_fetch out with
        | Reply st hs body => Respond (relay req st hs body)
        | Failure code => Respond (error_response ver code req)
        end
    end.
End ProxyMiddleware.

(** ** The contract of the spec *)

Module ProxySpec.
(** Section 4.1: the forwarded path is the request path with the prefix
    removed, query string unchanged; the request goes to the upstream
    origin with method, headers (host rewritten) and body; the
    upstream's answer is relayed unmodified. *)
Definition forwarded_path (prefix url : string) : option string := strip_prefix prefix url.

(** [U + p] as an HTTP request target: an origin-form target starts with
    [/], so an empty or query-only remainder is requested at [/]. *)
Definition request_target (p : string) : string :=
  if starts_with "/" p then p else String "/" p.

Record forwarded := mk_forwarded {
  f_method : method;
  f_path : string;
  f_host : string;
  f_body : string
}.

Definition forward (origin_host prefix : string) (req : request) : option forwarded :=
  option_map (fun p => mk_forwarded (req_method req) p origin_host (req_body req))
             (forwarded_path prefix (req_original_url req)).
End ProxySpec.

(** A remainder after the [/api] prefix that reaches the upstream
    verbatim: a legal target without [@], backslash or a no-break space
    (which [url.parse] trims), [//], ["http:/"] or
    ["https:/"] in its path, and, when it does not start with [/] (so
    [url.parse] takes its slow path), nothing the autoEscape table
    rewrites. *)
Definition plain_rest (r : string) : bool :=
  let pn := pathname r in
  target_chars_ok r && str_forall NodeUrl.not_ws r && str_forall NodeUrl.no_at_bs pn && negb (contains "//" pn)
  && negb (contains "http:/" pn) && negb (contains "https:/" pn)
  && match r with
     | EmptyString => true
     | String c _ => Ascii.eqb c "/" || (Ascii.eqb c "?" && NodeUrl.escape_free r)
     end.

(** ** A sample upstream

    An upstream that answers every request with its path. *)
Definition echo_upstream : Upstream := fun out => Reply 200 ∅ (out_path out).

(** ** The forwarded path *)

Lemma target_char_no_space (c : ascii) : target_char c = true -> negb (NodeUrl.is_js_space c) = true.
Proof.
  unfold target_char, NodeUrl.is_js_space. intros H. split_bool.
  match goal with H : (33 <=? _)%nat = true |- _ => apply Nat.leb_le in H end.
  apply negb_true_iff, orb_false_iff. split.
  - apply andb_false_iff. right. apply Nat.leb_gt. lia.
  - apply Nat.eqb_neq. lia.
Qed.

Lemma target_no_hash (s : string) : target_chars_ok s = true -> has_char "#" s = false.
Proof. apply str_forall_has_char. reflexivity. Qed.

Lemma target_no_space (s : string) : target_chars_ok s = true -> NodeUrl.no_space s = true.
Proof. apply str_forall_impl, target_char_no_space. Qed.

#[export] Hint Resolve target_no_hash target_no_space : tf.

(** [url.parse] reads a plain remainder as a path, which http-proxy
    sends to the root of the upstream as the request target [U + p]
    denotes. *)
Lemma outgoing_path_plain (r : string) :
  plain_rest r = true ->
  exists u, NodeUrl.parse r = Some u /\
    HttpProxyCommon.url_join "/" (default "" (NodeUrl.u_path u)) = ProxySpec.request_target r.
Proof.
  unfold plain_rest, pathname. intros H. split_bool.
  destruct r as [|c t]; [by eexists; split|].
  match goal with H : (Ascii.eqb c "/" || _) = true |- _ => apply orb_prop in H as [Hc|Hc] end.
  - apply Ascii.eqb_eq in Hc as ->.
    destruct (parse_fast_path (String "/" t)) as (u & Hu & Hp);
      [done | auto with tf | done | apply simple_path_slash; auto with tf |].
    exists u. split; [done|]. rewrite Hp. simpl default. rewrite url_join_split.
    rewrite split_first_cons_ne in * by done. simpl fst in *. simpl snd.
    rewrite join_path_root_slash by done.
    pose proof (split_first_unsplit "?" t) as Hs. unfold unsplit in Hs.
    unfold ProxySpec.request_target. simpl.
    by destruct (split_first "?" t) as [x [q|]]; simpl in *; rewrite <- Hs.
  - apply andb_prop in Hc as [Hc He]. apply Ascii.eqb_eq in Hc as ->.
    destruct (parse_query_only t) as (u & Hu & Hp); [done | | done |].
    + match goal with H : target_chars_ok _ = true |- _ => apply target_no_hash in H end.
      simpl in *. done.
    + exists u. split; [done|]. rewrite Hp. simpl default. rewrite url_join_split. reflexivity.
Qed.

(** ** The request http-proxy sends *)

(** Version 2 rewrites the original URL: [/api] followed by [r] becomes [r]. *)
Lemma prepare_v2_2EC2 (url : string) (req : request) (r : string) :
  req_original_url req = "/api" ++ r ->
  prepare_request HPM_v2 (options_2EC2 url) req = set_url req r.
Proof.
  intros Ho. unfold prepare_request. simpl. rewrite Ho. simpl.
  unfold rx_replace. by rewrite set_url_set_url.
Qed.

Lemma delete_length_fields (req : request) :
  req_method (delete_length req) = req_method req /\ req_url (delete_length req) = req_url req /\
  req_original_url (delete_length req) = req_original_url req /\
  req_body (delete_length req) = req_body req /\ req_version (delete_length req) = req_version req.
Proof. unfold delete_length. by destruct (_ && _). Qed.

Lemma delete_length_headers (req : request) (k : string) :
  k <> "content-length" -> k <> "transfer-encoding" ->
  req_headers (delete_length req) !! k = req_headers req !! k.
Proof.
  intros H1 H2. unfold delete_length. destruct (_ && _); [|done]. simpl.
  by rewrite lookup_delete_ne, lookup_insert_ne by congruence.
Qed.

(** What [common.setupOutgoing] builds, when the target has a protocol and
    a host: the request's method and body, the joined path, the request's
    headers except [connection] (['close'] unless the client asked for an
    upgrade) and, with [changeOrigin] on an http or https target, [host]
    set to the target's host. *)
Lemma setup_outgoing_Some (o : proxy_options) (req : request) (t ru : NodeUrl.parsed) (proto hostname : string) :
  NodeUrl.parse (po_target o) = Some t -> NodeUrl.parse (req_url req) = Some ru ->
  NodeUrl.u_protocol t = Some proto -> NodeUrl.u_hostname t = Some hostname ->
  exists out, setup_outgoing o req = Some out /\
    out_protocol out = proto /\ out_hostname out = hostname /\
    out_port out = match NodeUrl.u_port t with Some p => p | None => if is_ssl proto then "443" else "80" end /\
    out_method out = req_method req /\ out_body out = req_body req /\
    out_path out = HttpProxyCommon.url_join (default "" (NodeUrl.u_path t)) (default "" (NodeUrl.u_path ru)) /\
    (forall k, k <> "host" -> k <> "connection" -> out_headers out !! k = req_headers req !! k) /\
    out_headers out !! "connection" =
      match req_headers req !! "connection" with
      | Some c => if has_upgrade_token c then Some c else Some "close"
      | None => Some "close"
      end /\
    (po_change_origin o = true -> proto = "http:" \/ proto = "https:" ->
     out_headers out !! "host" = NodeUrl.u_host t).
Proof.
  intros Ht Hru Hp Hh. pose proof (parse_host_port _ _ Ht) as Hx. rewrite Hh in Hx. destruct Hx as [h Hx].
  unfold setup_outgoing. rewrite Ht, Hru, Hp, Hh, Hx.
  eexists. split; [reflexivity|]. simpl. do 6 (split; [done|]). split; [|split].
  - intros k Hk1 Hk2. destruct (po_change_origin o); [rewrite lookup_insert_ne by congruence|];
      destruct (req_headers req !! "connection") as [c|]; try destruct (has_upgrade_token c);
      by rewrite ?lookup_insert_ne by congruence.
  - destruct (po_change_origin o); [rewrite lookup_insert_ne by done|];
      destruct (req_headers req !! "connection") as [c|] eqn:Hc; try destruct (has_upgrade_token c);
      by rewrite ?lookup_insert_eq.
  - intros -> Hproto. rewrite lookup_insert_eq. f_equal.
    destruct (NodeUrl.u_port t) as [p|].
    + assert (Hc : has_char ":" (h ++ String ":" p) = true)
        by (rewrite has_char_app; simpl; apply orb_true_r).
      rewrite Hc. by rewrite andb_false_r.
    + rewrite string_app_nil_r. by destruct Hproto as [-> | ->].
Qed.

Lemma relay_fields (req : request) (st : nat) (hs : gmap string string) (body : string) :
  res_status (relay req st hs body) = st /\ res_body (relay req st hs body) = body /\
  (forall k, k <> "connection" -> k <> "transfer-encoding" ->
   res_headers (relay req st hs body) !! k = hs !! k).
Proof.
  unfold relay. simpl. do 2 (split; [done|]). intros k H1 H2.
  repeat case_bool_decide; simpl; repeat case_match;
    rewrite ?lookup_insert_ne, ?lookup_delete_ne by congruence; done.
Qed.

Lemma error_status_cases (code : string) :
  error_status code = 502 \/ error_status code = 504 \/ error_status code = 500.
Proof. unfold error_status. repeat case_match; auto. Qed.

Lemma outgoing_request_accepted (o : proxy_options) (req : request) (out : outgoing) :
  setup_outgoing o req = Some out -> protocol_accepted (out_protocol out) = true ->
  outgoing_request o req = Some out.
Proof. intros Hs Ha. unfold outgoing_request. by rewrite Hs, Ha. Qed.

(** Whatever http-proxy sends goes to an http or https target that
    [url.parse] read. *)
Lemma outgoing_request_protocol (o : proxy_options) (req : request) (out : outgoing) :
  outgoing_request o req = Some out ->
  exists t, NodeUrl.parse (po_target o) = Some t /\ NodeUrl.u_protocol t = Some (out_protocol out) /\
    protocol_accepted (out_protocol out) = true.
Proof.
  unfold outgoing_request. destruct (setup_outgoing o req) as [o'|] eqn:Hs; [|done].
  destruct (protocol_accepted (out_protocol o')) eqn:Ha; [|done]. intros [= <-].
  unfold setup_outgoing in Hs. destruct (NodeUrl.parse (po_target o)) as [t|]; [|done].
  destruct (NodeUrl.parse (req_url req)); [|done].
  destruct (NodeUrl.u_protocol t) eqn:Hp, (NodeUrl.u_hostname t), (NodeUrl.u_host t); try done.
  injection Hs as <-. exists t. simpl in *. auto.
Qed.

(** ** Properties of the proxy *)

Section ProxyProperties.
Context `{Upstream}.

(** C1: refinement of the spec's contract (section 4.1) by the /api
    middleware of the 2EC2 variant, with http-proxy-middleware 2: for a
    request [/api] followed by a plain remainder [r] and a target that
    [url.parse] reads as an http(s) URL without a path, whose hostname
    is a plain ASCII domain name (so [toASCII] leaves it unchanged), the
    outgoing request carries the request's method and body, the request
    target [U + r] denotes, the target's host as [host], and every other
    header of the request except [connection], [content-length] and
    [transfer-encoding]; the client gets the upstream's reply through
    [relay], or the error handler's response when the upstream cannot be
    reached. *)
Theorem proxy_refines_spec (url : string) (t : NodeUrl.parsed) (req : request) (r proto h : string) :
  NodeUrl.parse url = Some t -> NodeUrl.u_protocol t = Some proto -> proto = "http:" \/ proto = "https:" ->
  NodeUrl.u_hostname t = Some h -> NodeUrl.origin_host h = true -> NodeUrl.u_path t = Some "/" ->
  req_original_url req = "/api" ++ r -> plain_rest r = true ->
  exists f out,
    ProxySpec.forward (default "" (NodeUrl.u_host t)) "/api" req = Some f /\
    out_method out = ProxySpec.f_method f /\
    out_path out = ProxySpec.request_target (ProxySpec.f_path f) /\
    out_headers out !! "host" = Some (ProxySpec.f_host f) /\
    out_body out = ProxySpec.f_body f /\
    (forall k, k ∉ ["host"; "connection"; "content-length"; "transfer-encoding"] ->
       out_headers out !! k = req_headers req !! k) /\
    proxy_middleware HPM_v2 (options_2EC2 url) req =
      Respond (match upstream_fetch out with
               | Reply st hs body => relay (delete_length (set_url req r)) st hs body
               | Failure code => error_response HPM_v2 code (delete_length (set_url req r))
               end).
Proof.
  intros Ht Hp Hproto Hh _ Hpath Ho Hr.
  destruct (outgoing_path_plain r Hr) as (ru & Hru & Hj).
  pose proof (delete_length_fields (set_url req r)) as (Fm & Fu & _ & Fb & _).
  destruct (setup_outgoing_Some (options_2EC2 url) (delete_length (set_url req r)) t ru proto h Ht)
    as (out & Hout & Op & _ & _ & Hm & Hb & Hpth & Hhs & _ & Hhost); [by rewrite Fu | done | done |].
  eexists _, out. unfold ProxySpec.forward, ProxySpec.forwarded_path. rewrite Ho, strip_prefix_app.
  split; [reflexivity|]. simpl.
  split; [by rewrite Hm, Fm|]. split; [by rewrite Hpth, Hpath|].
  split.
  { rewrite (Hhost eq_refl Hproto).
    pose proof (parse_host_port url t Ht) as Hx. rewrite Hh in Hx. by destruct Hx as [h' ->]. }
  split; [by rewrite Hb, Fb|]. split.
  { intros k Hk. rewrite Hhs by set_solver. rewrite delete_length_headers by set_solver. done. }
  unfold proxy_middleware. rewrite (prepare_v2_2EC2 url req r Ho).
  rewrite (outgoing_request_accepted _ _ _ Hout) by (rewrite Op; by destruct Hproto as [-> | ->]).
  by destruct (upstream_fetch out).
Qed.

(** C2: with [BACKEND_URL] an origin [scheme://host[:port]] as the spec
    describes it, a request for [/api] followed by a plain remainder [r]
    goes to that host and port (80 or 443 when none is given) with the
    same scheme, the request target [r] denotes, the method and body of
    the request, and the origin's authority as [host]. *)
Theorem proxy_forwards_to_origin (scheme host : string) (port : option string) (req : request) (r : string) :
  scheme = "http" \/ scheme = "https" -> NodeUrl.origin_host host = true -> NodeUrl.origin_port port = true ->
  req_original_url req = "/api" ++ r -> plain_rest r = true ->
  exists out,
    setup_outgoing (options_2EC2 (NodeUrl.origin scheme host port))
      (delete_length (prepare_request HPM_v2 (options_2EC2 (NodeUrl.origin scheme host port)) req)) = Some out /\
    out_protocol out = scheme ++ ":" /\ out_hostname out = host /\
    out_port out = default (if String.eqb scheme "https" then "443" else "80") port /\
    out_path out = ProxySpec.request_target r /\
    out_headers out !! "host" = Some (host ++ match port with Some d => ":" ++ d | None => EmptyString end) /\
    out_method out = req_method req /\ out_body out = req_body req.
Proof.
  intros Hs Hh Hp Ho Hr.
  destruct (parse_origin scheme host port Hs Hh Hp) as (t & Ht & Hproto & Hhost & Hhst & Hport & Hpath).
  set (url := NodeUrl.origin scheme host port) in *.
  destruct (outgoing_path_plain r Hr) as (ru & Hru & Hj).
  pose proof (delete_length_fields (set_url req r)) as (Fm & Fu & _ & Fb & _).
  destruct (setup_outgoing_Some (options_2EC2 url) (delete_length (set_url req r)) t ru (scheme ++ ":") host Ht)
    as (out & Hout & Op & Oh & Oport & Hm & Hb & Hpth & _ & _ & Hhd); [by rewrite Fu | done | done |].
  rewrite (prepare_v2_2EC2 url req r Ho). exists out.
  split; [done|]. split; [done|]. split; [done|]. split.
  { rewrite Oport, Hport. destruct port as [d|]; [done|]. by destruct Hs as [-> | ->]. }
  split; [by rewrite Hpth, Hpath|].
  split.
  { rewrite Hhd by (done || by destruct Hs as [-> | ->]; [left|right]). by rewrite Hhst. }
  split; [by rewrite Hm, Fm|by rewrite Hb, Fb].
Qed.
End ProxyProperties.

(** C9: the reply relayed to the client has the upstream's status, body
    and headers, except [transfer-encoding], which http-proxy drops for
    an HTTP/1.0 client, and [connection]: an HTTP/1.0 client gets its own
    value or [close], an HTTP/1.1 client the upstream's value or, when
    the upstream sent none, its own or [keep-alive]; HTTP/2 leaves it. *)
Theorem relay_upstream_reply (req : request) (st : nat) (hs : gmap string string) (body : string) :
  res_status (relay req st hs body) = st /\ res_body (relay req st hs body) = body /\
  (forall k, k <> "connection" -> k <> "transfer-encoding" ->
   res_headers (relay req st hs body) !! k = hs !! k) /\
  res_headers (relay req st hs body) !! "transfer-encoding" =
    (if bool_decide (req_version req = HTTP_1_0) then None else hs !! "transfer-encoding") /\
  res_headers (relay req st hs body) !! "connection" =
    match req_version req with
    | HTTP_1_0 => Some (js_or (req_headers req !! "connection") "close")
    | HTTP_1_1 => if String.eqb (js_or (hs !! "connection") "") ""
                  then Some (js_or (req_headers req !! "connection") "keep-alive")
                  else hs !! "connection"
    | HTTP_2_0 => hs !! "connection"
    end.
Proof.
  destruct (relay_fields req st hs body) as (Hs & Hb & Hk). do 3 (split; [done|]).
  unfold relay. simpl. destruct (req_version req); simpl;
    [rewrite lookup_insert_ne, lookup_delete_eq by done|..]; try done;
    repeat case_match; rewrite ?lookup_insert_eq, ?lookup_insert_ne by done; done.
Qed.

(** ** Witnesses *)

Lemma proxy_refines_spec_witness :
  NodeUrl.parse "http://upstream:9000" =
    Some (NodeUrl.mk_parsed (Some "http:") (Some "upstream") (Some "upstream:9000") (Some "9000") (Some "/") None) /\
  exists f out,
    ProxySpec.forward (default "" (Some "upstream:9000")) "/api"
      (incoming GET "/api/items?x=1" ∅ "" HTTP_1_1) = Some f /\
    out_method out = ProxySpec.f_method f /\
    out_path out = ProxySpec.request_target (ProxySpec.f_path f) /\
    out_headers out !! "host" = Some (ProxySpec.f_host f) /\
    out_body out = ProxySpec.f_body f /\
    (forall k, k ∉ ["host"; "connection"; "content-length"; "transfer-encoding"] ->
       out_headers out !! k = req_headers (incoming GET "/api/items?x=1" ∅ "" HTTP_1_1) !! k) /\
    @proxy_middleware echo_upstream HPM_v2 (options_2EC2 "http://upstream:9000")
      (incoming GET "/api/items?x=1" ∅ "" HTTP_1_1) =
      Respond (match @upstream_fetch echo_upstream out with
               | Reply st hs body => relay (delete_length (set_url (incoming GET "/api/items?x=1" ∅ "" HTTP_1_1) "/items?x=1")) st hs body
               | Failure code => error_response HPM_v2 code (delete_length (set_url (incoming GET "/api/items?x=1" ∅ "" HTTP_1_1) "/items?x=1"))
               end).
Proof.
  split; [vm_compute; reflexivity|].
  apply (@proxy_refines_spec echo_upstream "http://upstream:9000"
           (NodeUrl.mk_parsed (Some "http:") (Some "upstream") (Some "upstream:9000") (Some "9000") (Some "/") None)
           _ "/items?x=1" "http:" "upstream");
    [vm_compute; reflexivity | reflexivity | left; reflexivity | reflexivity | reflexivity | reflexivity
    | reflexivity | vm_compute; reflexivity].
Defined.

Lemma proxy_forwards_to_origin_witness :
  exists out,
    setup_outgoing (options_2EC2 (NodeUrl.origin "http" "upstream" (Some "9000")))
      (delete_length (prepare_request HPM_v2 (options_2EC2 (NodeUrl.origin "http" "upstream" (Some "9000")))
         (incoming GET "/api/items?x=1" ∅ "" HTTP_1_1))) = Some out /\
    out_protocol out = "http:" /\ out_hostname out = "upstream" /\ out_port out = "9000" /\
    out_path out = "/items?x=1" /\ out_headers out !! "host" = Some "upstream:9000" /\
    out_method out = GET /\ out_body out = "".
Proof.
  exact (proxy_forwards_to_origin "http" "upstream" (Some "9000") (incoming GET "/api/items?x=1" ∅ "" HTTP_1_1)
           "/items?x=1" (or_introl eq_refl) eq_refl eq_refl eq_refl eq_refl).
Defined.
