(* ===== verification/Router.v ===== *)
(** * Router: Express's application router

    Both servers are an Express app: a stack of layers registered by
    [app.use(path, fn)] and [app.get(path, fn)], walked in registration
    order by [router.handle] ([express/lib/router/index.js] of Express 4).
    A layer whose path matches the request's pathname gets the request;
    a mounted middleware sees [req.url] with the mount path trimmed
    ([trim_prefix]) and the URL is restored when it calls [next()].  A
    route answers only its method (a GET route also answers HEAD); an
    OPTIONS request that no layer answers gets the automatic [Allow]
    response; an error skips the remaining (non-error) layers; when the
    stack is exhausted the [finalhandler] package answers 404 (with no
    body for HEAD).  The
    app's [expressInit] layer sets [X-Powered-By: Express] before any
    layer runs.

    Path matching is path-to-regexp 0.1 as Express 4 uses it: case
    insensitive, trailing slash optional, a mount path matching whole
    segments.  Mount paths are [/] or literal paths not ending in [/],
    route paths are literal, which covers both server.js files.  Request
    targets are taken in origin form ([/path?query]); an absolute-form
    target ([http://host/path]), whose path Express's [parseurl] would
    extract before matching, is not modelled. *)
From stdpp Require Import base list gmap strings.
From Stdlib Require Import Ascii String.
From S2P Require Import Prelude Http.
Open Scope string_scope.

Inductive layer :=
  | Use (path : string) (fn : middleware)           (** [app.use(path, fn)] *)
  | Route (path : string) (m : method) (fn : middleware).  (** [app.get(path, fn)] for [m = GET] *)

(** ** Matching *)

(** [layer.match(path)] for a mount layer: [None] when it does not match,
    otherwise the matched text [layer.path].  The regular expression of
    ['/api'] is [^\/api\/?(?=\/|$)] with the [i] flag: the [\/?] is
    greedy, so a path continuing with two slashes, or a path that is the
    mount path and one slash, has that slash in the match.  ['/'] is the
    fast path that matches everything with an empty [layer.path]. *)
Definition mount_match (mount path : string) : option string :=
  if String.eqb mount "/" then Some EmptyString else
  match strip_prefix_ci mount path with
  | None => None
  | Some rest =>
      let matched := substring 0 (String.length mount) path in
      match rest with
      | EmptyString => Some matched
      | String c t =>
          if Ascii.eqb c "/" then
            match t with
            | EmptyString => Some (matched ++ "/")
            | String d _ => if Ascii.eqb d "/" then Some (matched ++ "/") else Some matched
            end
          else None
      end
  end.

(** A route path with [end: true]: [^\/?$] for ['/'], [^p\/?$] otherwise,
    case-insensitively. *)
Definition route_match (route path : string) : bool :=
  if String.eqb route "/" then String.eqb path "/" || String.eqb path EmptyString
  else String.eqb (lower path) (lower route) || String.eqb (lower path) (lower route ++ "/").

(** [route._handles_method(method)]: a GET route also handles HEAD. *)
Definition handles_method (m : method) (req_m : method) : bool :=
  bool_decide (m = req_m) || (bool_decide (req_m = HEAD) && bool_decide (m = GET)).

(** [route._options()]: the route's methods, with HEAD after GET. *)
Definition route_options (m : method) : list string :=
  if bool_decide (m = GET) then ["GET"; "HEAD"] else [method_name m].

(** [appendMethods(list, addition)] *)
Definition append_methods (l addition : list string) : list string :=
  foldl (fun (acc : list string) x => if bool_decide (x ∈ acc) then acc else (acc ++ [x])%list) l addition.

(** ** Mount-path trimming *)

Definition str_drop (n : nat) (s : string) : string := substring n (String.length s - n) s.

(** [trim_prefix]: [req.url = req.url.slice(layerPath.length)], with a
    leading slash added when the rest does not start with one. *)
Definition trim_prefix (req : request) (layer_path : string) : request * bool :=
  if String.eqb layer_path EmptyString then (req, false) else
  let u := str_drop (String.length layer_path) (req_url req) in
  if starts_with "/" u then (set_url req u, false) else (set_url req (String "/" u), true).

(** The start of [next()]: remove the added slash, put the removed prefix
    back. *)
Definition restore (req : request) (layer_path : string) (slash_added : bool) : request :=
  if String.eqb layer_path EmptyString then req else
  let u := if slash_added then str_drop 1 (req_url req) else req_url req in
  set_url req (layer_path ++ u).

(** ** finalhandler and the automatic OPTIONS response *)

(** [escape-html] *)
Definition escape_html_char (c : ascii) : string :=
  if Ascii.eqb c "&" then "&amp;" else if Ascii.eqb c "<" then "&lt;"
  else if Ascii.eqb c ">" then "&gt;" else if (nat_of_ascii c =? 34)%nat then "&quot;"
  else if Ascii.eqb c "'" then "&#39;" else String c EmptyString.

Fixpoint escape_html (s : string) : string :=
  match s with
  | EmptyString => EmptyString
  | String c t => escape_html_char c ++ escape_html t
  end.

Definition newline : string := String (ascii_of_nat 10) EmptyString.

(** [.replace(/\n/g, '<br>').replace(/\x20{2}/g, ' &nbsp;')] *)
Fixpoint br_nbsp (s : string) : string :=
  match s with
  | EmptyString => EmptyString
  | String c t =>
      if (nat_of_ascii c =? 10)%nat then "<br>" ++ br_nbsp t
      else if Ascii.eqb c " " then
        match t with
        | String d u => if Ascii.eqb d " " then " &nbsp;" ++ br_nbsp u else String c (br_nbsp t)
        | EmptyString => String c EmptyString
        end
      else String c (br_nbsp t)
  end.

(** The HTML page of finalhandler's and serve-static's
    [createHtmlDocument]. *)
Definition html_document (title body : string) : string :=
  "<!DOCTYPE html>" ++ newline ++ "<html lang=" ++ dquote ++ "en" ++ dquote ++ ">" ++ newline
  ++ "<head>" ++ newline ++ "<meta charset=" ++ dquote ++ "utf-8" ++ dquote ++ ">" ++ newline
  ++ "<title>" ++ title ++ "</title>" ++ newline ++ "</head>" ++ newline ++ "<body>" ++ newline
  ++ "<pre>" ++ body ++ "</pre>" ++ newline ++ "</body>" ++ newline ++ "</html>" ++ newline.

(** finalhandler's page for a message. *)
Definition error_page (message : string) : string :=
  html_document "Error" (br_nbsp (escape_html message)).

(** [encodeurl]: characters outside its allowed set, and a [%] not
    followed by two hex digits, are passed through [encodeURI]. *)
Definition url_allowed (c : ascii) : bool :=
  let n := nat_of_ascii c in
  (n =? 33)%nat || (n =? 37)%nat || in_range 38 59 n || (n =? 61)%nat || in_range 63 91 n
  || (n =? 93)%nat || (n =? 95)%nat || in_range 97 122 n || (n =? 126)%nat.

Definition is_hex (c : ascii) : bool :=
  let n := nat_of_ascii c in in_range 48 57 n || in_range 65 70 n || in_range 97 102 n.

Definition hex_char (n : nat) : ascii := ascii_of_nat (if (n <? 10)%nat then 48 + n else 55 + n).

Definition percent_byte (n : nat) : string :=
  String "%" (String (hex_char (n / 16)) (String (hex_char (n mod 16)) EmptyString)).

(** [encodeURI] of one character; a byte of 128 or more is a Latin-1
    character of Node's [req.url] and is sent as its two UTF-8 bytes. *)
Definition encode_uri_char (c : ascii) : string :=
  let n := nat_of_ascii c in
  if (128 <=? n)%nat then percent_byte (192 + n / 64) ++ percent_byte (128 + n mod 64)
  else if in_range 65 90 n || in_range 97 122 n || in_range 48 57 n
          || has_char c ";,/?:@&=+$-_.!~*'()#"
  then String c EmptyString
  else percent_byte n.

Fixpoint encode_url (s : string) : string :=
  match s with
  | EmptyString => EmptyString
  | String c t =>
      if Ascii.eqb c "%" then
        match t with
        | EmptyString => "%25"
        | String h t1 =>
            if is_hex h then
              match t1 with
              | String h2 t2 =>
                  if is_hex h2 then String c (encode_url t)
                  else "%25" ++ String h (encode_uri_char h2) ++ encode_url t2
              | EmptyString => String c (encode_url t)
              end
            else "%25" ++ encode_uri_char h ++ encode_url t1
        end
      else if url_allowed c then String c (encode_url t)
      else encode_uri_char c ++ encode_url t
  end.

(** [statuses.message[status]] for the statuses the two servers produce. *)
Definition status_message (st : nat) : string :=
  match st with
  | 400 => "Bad Request" | 403 => "Forbidden" | 404 => "Not Found"
  | 412 => "Precondition Failed" | 416 => "Range Not Satisfiable"
  | 500 => "Internal Server Error" | 502 => "Bad Gateway" | 504 => "Gateway Timeout"
  | _ => "Error"
  end.

(** finalhandler's [send]: the page's length is announced, and a HEAD
    request gets no body. *)
Definition html_response (req : request) (st : nat) (hs : gmap string string) (body : string) : response :=
  mk_response st
    (<["content-length" := show_nat (String.length body)]>
      (<["content-type" := "text/html; charset=utf-8"]>
        (<["x-content-type-options" := "nosniff"]>
          (<["content-security-policy" := "default-src 'none'"]> hs))))
    (if bool_decide (req_method req = HEAD) then EmptyString else body).

(** No layer answered: [Cannot METHOD /path], 404. *)
Definition final_not_found (req : request) : response :=
  html_response req 404 ∅ (error_page ("Cannot " ++ method_name (req_method req) ++ " "
                                  ++ encode_url (pathname (req_original_url req)))).

(** The content headers finalhandler removes from [res] before writing
    its page. *)
Definition strip_content_headers (hs : gmap string string) : gmap string string :=
  delete "content-range" (delete "content-language" (delete "content-encoding" hs)).

(** [next(err)]: the error's status and [err.headers] when the status is
    4xx or 5xx, else 500 and no headers of the error; the headers already
    set on [res] stay but for its content headers; the page shows the
    status message (as with [NODE_ENV=production]). *)
Definition final_error (req : request) (st : nat) (res_hs err_hs : gmap string string) : response :=
  let '(st, ehs) := if (400 <=? st)%nat && (st <? 600)%nat then (st, err_hs) else (500, ∅) in
  html_response req st (ehs ∪ strip_content_headers res_hs) (error_page (status_message st)).

(** [sendOptionsResponse]: [Allow] and the body list the methods;
    [res.send] sets the type and length (and an ETag, not modelled). *)
Definition options_response (opts : list string) : response :=
  let body := join_on "," opts in
  mk_response 200
    (<["allow" := body]> (<["content-type" := "text/html; charset=utf-8"]>
      {["content-length" := show_nat (String.length body)]})) body.

(** The router's [done]: the OPTIONS wrapper, then finalhandler. *)
Definition router_done (req : request) (opts : list string) : response :=
  if bool_decide (req_method req = OPTIONS) && negb (bool_decide (opts = []))
  then options_response opts
  else final_not_found req.

(** [router.handle]: walk the stack from the current layer. *)
Fixpoint handle (stack : list layer) (req : request) (opts : list string) : response :=
  match stack with
  | [] => router_done req opts
  | Use p fn :: rest =>
      match mount_match p (pathname (req_url req)) with
      | None => handle rest req opts
      | Some lp =>
          let '(req_in, added) := trim_prefix req lp in
          match fn req_in with
          | Respond r => r
          | Next req' => handle rest (restore req' lp added) opts
          | NextError st rh eh => final_error req st rh eh
          end
      end
  | Route p m fn :: rest =>
      if route_match p (pathname (req_url req)) then
        if handles_method m (req_method req) then
          match fn req with
          | Respond r => r
          | Next req' => handle rest req' opts
          | NextError st rh eh => final_error req st rh eh
          end
        else handle rest req
               (if bool_decide (req_method req = OPTIONS)
                then append_methods opts (route_options m) else opts)
      else handle rest req opts
  end.

(** [app.handle]: [expressInit] sets [X-Powered-By] first, so a layer's
    own headers take precedence over it. *)
Definition powered (r : response) : response :=
  mk_response (res_status r) (res_headers r ∪ {["x-powered-by" := "Express"]}) (res_body r).

Definition app_handle (stack : list layer) (req : request) : response :=
  powered (handle stack req []).

(** ** Lemmas *)

Lemma substring_app_drop (a b : string) :
  substring (String.length a) (String.length (a ++ b) - String.length a) (a ++ b) = b.
Proof.
  induction a as [|c a IH]; simpl.
  - rewrite Nat.sub_0_r. induction b; simpl; congruence.
  - exact IH.
Qed.

Lemma str_drop_app (a b : string) : str_drop (String.length a) (a ++ b) = b.
Proof. apply substring_app_drop. Qed.

Lemma set_url_same (r : request) : set_url r (req_url r) = r.
Proof. by destruct r. Qed.

(** Trimming a mount path and restoring it is the identity: a
    mounted middleware that calls [next()] without touching [req.url]
    leaves the request to the next layer as it found it. *)
Lemma restore_trim (req : request) (lp u : string) :
  req_url req = lp ++ u ->
  restore (fst (trim_prefix req lp)) lp (snd (trim_prefix req lp)) = req.
Proof.
  intros Hu. unfold trim_prefix, restore.
  destruct (String.eqb_spec lp EmptyString) as [->|Hne]; [done|].
  rewrite Hu, str_drop_app.
  destruct (starts_with "/" u); simpl; destruct (String.eqb_spec lp EmptyString); try done;
    rewrite set_url_set_url;
    [|rewrite (str_drop_app (String "/" EmptyString) u : str_drop 1 (String "/" u) = u)];
    rewrite <- Hu; apply set_url_same.
Qed.

Lemma strip_prefix_ci_lower (p q r : string) :
  lower q = lower p -> strip_prefix_ci p (q ++ r) = Some r.
Proof.
  revert p. induction q as [|a q IH]; intros [|b p]; simpl; try done.
  intros [= Hab Hq]. unfold ascii_ci_eqb. rewrite Hab, Ascii.eqb_refl. by apply IH.
Qed.

Lemma lower_length (s : string) : String.length (lower s) = String.length s.
Proof. induction s; simpl; congruence. Qed.

Lemma substring_app_take (a b : string) : substring 0 (String.length a) (a ++ b) = a.
Proof. induction a; simpl; [by destruct b|]. by rewrite IHa. Qed.

(** The mount ['/api'] matches exactly the pathnames that are
    ['/api'] in any letter case followed by nothing or by a slash, and the matched text
    is that prefix (with one more slash when two follow or the path ends
    with it). *)
Lemma mount_match_api (p : string) :
  is_Some (mount_match "/api" p) <->
  exists q r, p = q ++ r /\ lower q = "/api" /\ (r = EmptyString \/ starts_with "/" r = true).
Proof.
  unfold mount_match. simpl String.eqb. cbv iota beta. split.
  - destruct (strip_prefix_ci "/api" p) as [rest|] eqn:E; [|by intros []].
    apply strip_prefix_ci_Some in E as (q & -> & Hq). intros Hs. exists q, rest.
    do 2 (split; [done|]). destruct rest as [|c t]; [by left|right].
    destruct (Ascii.eqb_spec c "/") as [->|]; [done|]. by destruct Hs.
  - intros (q & r & -> & Hq & Hr). rewrite strip_prefix_ci_lower by done.
    destruct Hr as [->|Hr]; [by eexists|].
    apply starts_with_spec in Hr as [t ->]. simpl.
    destruct t as [|d t]; [by eexists|]. by destruct (Ascii.eqb d "/"); eexists.
Qed.

Lemma lower_api_length (q : string) : lower q = "/api" -> String.length q = 4.
Proof. intros Hq. by rewrite <- lower_length, Hq. Qed.

(** A path [/api] in any letter case, followed by a slash and a segment,
    is matched by the mount on exactly that prefix. *)
Lemma mount_match_api_sub (q : string) (c : ascii) (t : string) :
  lower q = "/api" -> c <> "/"%char -> mount_match "/api" (q ++ String "/" (String c t)) = Some q.
Proof.
  intros Hq Hc. unfold mount_match. simpl String.eqb. cbv iota beta.
  rewrite strip_prefix_ci_lower by done.
  replace (String.length "/api") with (String.length q) by exact (lower_api_length q Hq).
  rewrite substring_app_take. simpl. by destruct (Ascii.eqb_spec c "/").
Qed.

Lemma mount_match_api_exact (q : string) : lower q = "/api" -> mount_match "/api" q = Some q.
Proof.
  intros Hq. pose proof (strip_prefix_ci_lower "/api" q EmptyString Hq) as Hs.
  pose proof (substring_app_take q EmptyString) as Ht. rewrite string_app_nil_r in Hs, Ht.
  unfold mount_match. simpl String.eqb. cbv iota beta. rewrite Hs.
  replace (String.length "/api") with (String.length q) by exact (lower_api_length q Hq).
  by rewrite Ht.
Qed.

Lemma handle_use_nomatch (p : string) (fn : middleware) (rest : list layer) (req : request) (opts : list string) :
  mount_match p (pathname (req_url req)) = None ->
  handle (Use p fn :: rest) req opts = handle rest req opts.
Proof. intros H. simpl. by rewrite H. Qed.

(** A middleware mounted at ['/'] sees the request unchanged. *)
Lemma handle_use_root (fn : middleware) (rest : list layer) (req : request) (opts : list string) :
  handle (Use "/" fn :: rest) req opts =
    match fn req with
    | Respond r => r
    | Next req' => handle rest req' opts
    | NextError st rh eh => final_error req st rh eh
    end.
Proof. done. Qed.

Lemma handle_route_nomatch (p : string) (m : method) (fn : middleware) (rest : list layer)
    (req : request) (opts : list string) :
  route_match p (pathname (req_url req)) = false ->
  handle (Route p m fn :: rest) req opts = handle rest req opts.
Proof. intros H. simpl. by rewrite H. Qed.

Lemma handle_route_other_method (p : string) (m : method) (fn : middleware) (rest : list layer)
    (req : request) (opts : list string) :
  handles_method m (req_method req) = false -> req_method req <> OPTIONS ->
  handle (Route p m fn :: rest) req opts = handle rest req opts.
Proof.
  intros H Ho. simpl. rewrite H. case_bool_decide; [done|].
  by destruct (route_match p (pathname (req_url req))).
Qed.

(** Once the stack is exhausted, a request that is not OPTIONS gets
    finalhandler's 404. *)
Lemma router_done_not_options (req : request) (opts : list string) :
  req_method req <> OPTIONS -> router_done req opts = final_not_found req.
Proof. intros H. unfold router_done. by case_bool_decide. Qed.

(** Without routes offering methods, the end of the stack is a 404. *)
Lemma router_done_nil (req : request) : router_done req [] = final_not_found req.
Proof. unfold router_done. rewrite andb_false_r. done. Qed.

Lemma final_not_found_status (req : request) : res_status (final_not_found req) = 404.
Proof. done. Qed.

(** [expressInit]'s header: added when the layers set none, and nothing
    else of the response changes. *)
Lemma powered_fields (r : response) :
  res_status (powered r) = res_status r /\ res_body (powered r) = res_body r /\
  (forall k, k <> "x-powered-by" -> res_headers (powered r) !! k = res_headers r !! k) /\
  (res_headers r !! "x-powered-by" = None -> res_headers (powered r) !! "x-powered-by" = Some "Express").
Proof.
  unfold powered. simpl. do 2 (split; [done|]). split.
  - intros k Hk. rewrite lookup_union, lookup_singleton_ne by congruence.
    by destruct (res_headers r !! k).
  - intros Hn. by rewrite lookup_union, Hn, lookup_singleton_eq.
Qed.

Lemma restore_trim_witness :
  restore (fst (trim_prefix (incoming GET "/api/items" ∅ "" HTTP_1_1) "/api")) "/api"
          (snd (trim_prefix (incoming GET "/api/items" ∅ "" HTTP_1_1) "/api")) = incoming GET "/api/items" ∅ "" HTTP_1_1.
Proof. apply (restore_trim _ "/api" "/items"). reflexivity. Defined.

(** ** Well-formed responses *)

Lemma html_response_consistent (req : request) (st : nat) (hs : gmap string string) (body : string) :
  req_method req <> HEAD -> length_consistent (html_response req st hs body).
Proof.
  intros Hh v. unfold html_response. simpl. rewrite bool_decide_eq_false_2 by done.
  rewrite lookup_insert_eq. by intros [= <-].
Qed.

Lemma final_consistent (req : request) (st : nat) (rh eh : gmap string string) :
  req_method req <> HEAD ->
  length_consistent (final_error req st rh eh) /\ length_consistent (final_not_found req) /\
  length_consistent (router_done req []).
Proof.
  intros Hh. unfold final_error, final_not_found. rewrite router_done_nil.
  destruct (_ && _); split; [|split|..|split]; apply html_response_consistent, Hh.
Qed.

Lemma powered_consistent (r : response) : length_consistent r -> length_consistent (powered r).
Proof.
  intros Hr v. destruct (powered_fields r) as (_ & Hb & Hk & _).
  rewrite Hb, Hk by done. apply Hr.
Qed.

#[export] Hint Rewrite handle_use_root router_done_nil : tf_rw.
