(* ===== verification/Conditional.v ===== *)
(** * Conditional: conditional GET and byte ranges in [send]

    Once [express.static] or [res.sendFile] has found a file, [send] 0.19
    chooses between 200, 304, 206, 412 and 416 from the request's
    [If-Match], [If-Unmodified-Since], [If-None-Match],
    [If-Modified-Since], [Cache-Control], [Range] and [If-Range] headers
    and the [ETag] and [Last-Modified] headers it has just set.  This file
    translates the pure functions that decision is made of:
    [parseTokenList] (in [send]'s version, which drops empty tokens, and
    in [fresh]'s, which keeps them), the [fresh] package (0.5),
    [isConditionalGET], [isPreconditionFailure], [isRangeFresh], the
    [range-parser] package (1.2) with [{ combine: true }], the
    [BYTES_RANGE_REGEXP] test and [contentRange].  [Static.send_found]
    composes them.

    Dates go through the runtime's [Date.parse], the section variable
    [date_parse] ([None] is [NaN]).  [parseInt] is translated on the
    string and returns an exact integer where JavaScript returns a
    double: the two differ only above 2^53, where a start is past the end
    of any file and an end is clamped to it either way. *)
From stdpp Require Import base list gmap strings.
From Stdlib Require Import Ascii String ZArith.
From S2P Require Import Prelude Http Router.
Open Scope string_scope.

(** ** Header values *)

(** A header value as JavaScript tests it: an absent or empty value is
    falsy. *)
Definition js_str (v : option string) : option string :=
  match v with
  | Some s => if String.eqb s EmptyString then None else Some s
  | None => None
  end.

(** [\s] of a JavaScript regular expression and the white space
    [parseInt] skips, on the characters a Latin-1 header value holds. *)
Definition js_space (c : ascii) : bool :=
  let n := nat_of_ascii c in in_range 9 13 n || (n =? 32)%nat || (n =? 160)%nat.

Fixpoint drop_js_space (s : string) : string :=
  match s with
  | String c t => if js_space c then drop_js_space t else s
  | EmptyString => EmptyString
  end.

Fixpoint drop_spaces (s : string) : string :=
  match s with
  | String " " t => drop_spaces t
  | _ => s
  end.

(** [parseTokenList]: split at commas, skip the spaces before a token and
    drop those after it; [keep_empty] is [fresh]'s version, which also
    pushes empty tokens.  [cur] is [str.substring(start, end)] and
    [pend] the spaces read since [end]. *)
Definition emit_token (keep_empty : bool) (cur : string) : list string :=
  if keep_empty || negb (String.eqb cur EmptyString) then [cur] else [].

Fixpoint token_list_go (keep_empty : bool) (s cur pend : string) : list string :=
  match s with
  | EmptyString => emit_token keep_empty cur
  | String c t =>
      if Ascii.eqb c " " then
        if String.eqb cur EmptyString then token_list_go keep_empty t cur pend
        else token_list_go keep_empty t cur (pend ++ " ")
      else if Ascii.eqb c "," then (emit_token keep_empty cur ++ token_list_go keep_empty t "" "")%list
      else token_list_go keep_empty t (cur ++ pend ++ String c EmptyString) ""
  end.

Definition parse_token_list (s : string) : list string := token_list_go false s "" "".
Definition parse_token_list_fresh (s : string) : list string := token_list_go true s "" "".

(** [match === etag || match === 'W/' + etag || 'W/' + match === etag] *)
Definition etag_matches (m etag : string) : bool :=
  String.eqb m etag || String.eqb m ("W/" ++ etag) || String.eqb ("W/" ++ m) etag.

(** [CACHE_CONTROL_NO_CACHE_REGEXP = /(?:^|,)\s*?no-cache\s*?(?:,|$)/]:
    some comma-separated part is [no-cache] between white space. *)
Definition no_cache_part (part : string) : bool :=
  match strip_prefix "no-cache" (drop_js_space part) with
  | Some r => str_forall js_space r
  | None => false
  end.

Definition no_cache (cc : string) : bool := existsb no_cache_part (split_on "," cc).

(** [BYTES_RANGE_REGEXP = /^ *bytes=/] *)
Definition bytes_range (s : string) : bool := starts_with "bytes=" (drop_spaces s).

(** ** [parseInt(s, 10)] *)

Definition digit_val (c : ascii) : option Z :=
  let n := nat_of_ascii c in if in_range 48 57 n then Some (Z.of_nat n - 48)%Z else None.

(** The longest prefix of decimal digits, accumulated as [acc * 10 + d];
    [None] when there is none ([NaN]). *)
Fixpoint digits_go (s : string) (acc : Z) (seen : bool) : option Z :=
  match s with
  | String c t =>
      match digit_val c with
      | Some d => digits_go t (acc * 10 + d)%Z true
      | None => if seen then Some acc else None
      end
  | EmptyString => if seen then Some acc else None
  end.

Definition parse_int (s : string) : option Z :=
  match drop_js_space s with
  | String "-" t => option_map Z.opp (digits_go t 0 false)
  | String "+" t => digits_go t 0 false
  | t => digits_go t 0 false
  end.

(** ** [range-parser] *)

(** [-1] (no satisfiable range), [-2] (malformed, or made stale by
    [If-Range] in [send]) and the array of ranges. *)
Inductive range_result :=
  | RangeMalformed
  | RangeUnsatisfiable
  | RangeList (rs : list (Z * Z)).

(** One comma-separated part: [start-end], [-suffix] or [start-], the
    end clamped to the last byte; [None] is the [continue] that skips an
    invalid or unsatisfiable part. *)
Definition parse_range_part (size : Z) (part : string) : option (Z * Z) :=
  let r := split_on "-" part in
  let start := parse_int (default "" (head r)) in
  let fin := match tail r with e :: _ => parse_int e | [] => None end in
  let '(start, fin) :=
    match start with
    | None => (option_map (fun e => size - e)%Z fin, (size - 1)%Z)
    | Some s => (Some s, match fin with Some e => e | None => (size - 1)%Z end)
    end in
  let fin := if (size - 1 <? fin)%Z then (size - 1)%Z else fin in
  match start with
  | Some s => if (fin <? s)%Z || (s <? 0)%Z then None else Some (s, fin)
  | None => None
  end.

(** [Array.prototype.sort] with a numeric comparator is stable: insertion
    after every element with the same key. *)
Fixpoint insert_by {A} (key : A -> Z) (x : A) (l : list A) : list A :=
  match l with
  | [] => [x]
  | y :: l' => if (key x <? key y)%Z then x :: l else y :: insert_by key x l'
  end.

Definition sort_by {A} (key : A -> Z) (l : list A) : list A :=
  fold_left (fun acc x => insert_by key x acc) l [].

(** The merging loop of [combineRanges] on ranges ordered by start, each
    with its original index; [cur] is [ordered[j]]. *)
Fixpoint merge_ranges (cur : Z * Z * nat) (l : list (Z * Z * nat)) : list (Z * Z * nat) :=
  match l with
  | [] => [cur]
  | r :: l' =>
      let '(cs, ce, ci) := cur in
      let '(rs, re, ri) := r in
      if (ce + 1 <? rs)%Z then cur :: merge_ranges r l'
      else if (ce <? re)%Z then merge_ranges (cs, re, Nat.min ci ri) l'
      else merge_ranges cur l'
  end.

(** [combineRanges]: order by start, merge overlapping and adjacent
    ranges, restore the order of first appearance. *)
Definition combine_ranges (rs : list (Z * Z)) : list (Z * Z) :=
  match sort_by (fun r => r.1.1) (imap (fun i r => (r, i)) rs) with
  | [] => []
  | r :: l => map fst (sort_by (fun r => Z.of_nat r.2) (merge_ranges r l))
  end.

Definition range_parser (size : Z) (str : string) : range_result :=
  match split_first "=" str with
  | (_, None) => RangeMalformed
  | (_, Some rest) =>
      match omap (parse_range_part size) (split_on "," rest) with
      | [] => RangeUnsatisfiable
      | rs => RangeList (combine_ranges rs)
      end
  end.

(** [contentRange('bytes', size, range)] *)
Definition show_z (z : Z) : string :=
  if (z <? 0)%Z then "-" ++ show_nat (Z.to_nat (- z)) else show_nat (Z.to_nat z).

Definition content_range (size : nat) (r : option (Z * Z)) : string :=
  "bytes " ++ (match r with Some (s, e) => show_z s ++ "-" ++ show_z e | None => "*" end)
  ++ "/" ++ show_nat size.

(** ** Freshness and preconditions *)

Section Dates.
Variable date_parse : string -> option Z.

(** [parseHttpDate]: [date && Date.parse(date)], [NaN] unless a number. *)
Definition parse_http_date (d : option string) : option Z :=
  match js_str d with Some s => date_parse s | None => None end.

(** JavaScript's [<=] on two numbers, false when one is [NaN]. *)
Definition date_le (a b : option Z) : bool :=
  match a, b with Some x, Some y => (x <=? y)%Z | _, _ => false end.

(** [fresh(reqHeaders, { etag, 'last-modified' })] *)
Definition fresh (reqh resh : gmap string string) : bool :=
  let modified_since := js_str (reqh !! "if-modified-since") in
  let none_match := js_str (reqh !! "if-none-match") in
  match modified_since, none_match with
  | None, None => false
  | _, _ =>
      if match js_str (reqh !! "cache-control") with Some cc => no_cache cc | None => false end
      then false
      else
        (match none_match with
         | Some nm =>
             if String.eqb nm "*" then true else
             match js_str (resh !! "etag") with
             | Some etag => existsb (fun m => etag_matches m etag) (parse_token_list_fresh nm)
             | None => false
             end
         | None => true
         end) &&
        (match modified_since with
         | Some ms =>
             match js_str (resh !! "last-modified") with
             | Some lm => date_le (parse_http_date (Some lm)) (parse_http_date (Some ms))
             | None => false
             end
         | None => true
         end)
  end.

(** [isConditionalGET] *)
Definition conditional_get (reqh : gmap string string) : bool :=
  existsb (fun h => bool_decide (is_Some (js_str (reqh !! h))))
    ["if-match"; "if-unmodified-since"; "if-none-match"; "if-modified-since"].

(** [isPreconditionFailure] *)
Definition precondition_failure (reqh resh : gmap string string) : bool :=
  match js_str (reqh !! "if-match") with
  | Some m =>
      match js_str (resh !! "etag") with
      | Some etag =>
          negb (String.eqb m "*") &&
          forallb (fun t => negb (etag_matches t etag)) (parse_token_list m)
      | None => true
      end
  | None =>
      match parse_http_date (reqh !! "if-unmodified-since") with
      | Some since =>
          match parse_http_date (resh !! "last-modified") with
          | Some lm => (since <? lm)%Z
          | None => true
          end
      | None => false
      end
  end.

(** [isRangeFresh] *)
Definition is_range_fresh (reqh resh : gmap string string) : bool :=
  match js_str (reqh !! "if-range") with
  | None => true
  | Some ir =>
      if has_char (ascii_of_nat 34) ir then
        match js_str (resh !! "etag") with Some etag => contains etag ir | None => false end
      else date_le (parse_http_date (resh !! "last-modified")) (parse_http_date (Some ir))
  end.
End Dates.

(** ** The ranges [range-parser] returns lie within the file *)

Section RangeBounds.
Variable size : Z.

(** [0 <= start <= end <= size - 1] *)
Definition in_file (r : Z * Z) : Prop := (0 <= r.1 /\ r.1 <= r.2 /\ r.2 <= size - 1)%Z.

Lemma parse_range_part_in_file (part : string) (r : Z * Z) :
  parse_range_part size part = Some r -> in_file r.
Proof.
  unfold parse_range_part, in_file. intros H.
  set (fin := match tail _ with [] => None | e :: _ => parse_int e end) in H.
  destruct (parse_int (default "" (head _))) as [s|], fin as [e|]; simpl in H;
    repeat match goal with
    | H : context [(?a <? ?b)%Z] |- _ => destruct (Z.ltb_spec a b)
    end; simpl in H; simplify_eq; simpl; lia.
Qed.

Lemma omap_in_file (l : list string) :
  Forall in_file (omap (parse_range_part size) l).
Proof.
  induction l as [|x l IH]; simpl; [constructor|].
  destruct (parse_range_part size x) eqn:E; [|done].
  constructor; [exact (parse_range_part_in_file x _ E)|exact IH].
Qed.

Lemma insert_by_perm {A} (key : A -> Z) (x : A) (l : list A) : insert_by key x l ≡ₚ x :: l.
Proof.
  induction l as [|y l IH]; simpl; [done|].
  case_match; [done|]. rewrite IH. apply Permutation_swap.
Qed.

Lemma sort_by_perm {A} (key : A -> Z) (l : list A) : sort_by key l ≡ₚ l.
Proof.
  unfold sort_by. cut (forall acc, fold_left (fun acc x => insert_by key x acc) l acc ≡ₚ l ++ acc).
  { intros H. by rewrite H, app_nil_r. }
  induction l as [|x l IH]; intros acc; simpl; [done|].
  rewrite IH, insert_by_perm. by rewrite Permutation_middle.
Qed.

Lemma merge_ranges_in_file (cur : Z * Z * nat) (l : list (Z * Z * nat)) :
  Forall (fun r => in_file r.1) (cur :: l) -> Forall (fun r => in_file r.1) (merge_ranges cur l).
Proof.
  revert cur. induction l as [|r l IH]; intros [[cs ce] ci] Hl; simpl; [done|].
  destruct r as [[rs re] ri]. apply Forall_cons in Hl as [Hc Hl]. apply Forall_cons in Hl as [Hr Hl].
  unfold in_file in *; simpl in *.
  destruct (Z.ltb_spec (ce + 1) rs); [constructor; [done|apply IH; by constructor]|].
  destruct (Z.ltb_spec ce re); apply IH; constructor; simpl; (lia || done).
Qed.

(** [combineRanges] keeps every range within the file. *)
Lemma combine_ranges_in_file (rs : list (Z * Z)) :
  Forall in_file rs -> Forall in_file (combine_ranges rs).
Proof.
  intros Hrs. unfold combine_ranges.
  assert (Hi : Forall (fun r => in_file r.1) (imap (fun i r => (r, i)) rs)).
  { apply Forall_lookup_2. intros i [r j]. rewrite list_lookup_imap.
    destruct (rs !! i) as [r'|] eqn:E; [|done]. intros [= <- _]. simpl.
    by eapply Forall_lookup_1. }
  rewrite <- (sort_by_perm (fun r => r.1.1)) in Hi.
  destruct (sort_by _ _) as [|r l]; [constructor|].
  apply merge_ranges_in_file in Hi. rewrite <- (sort_by_perm (fun r => Z.of_nat r.2)) in Hi.
  apply Forall_fmap. exact Hi.
Qed.

Lemma range_parser_in_file (str : string) (rs : list (Z * Z)) :
  range_parser size str = RangeList rs -> Forall in_file rs.
Proof.
  unfold range_parser. destruct (split_first _ _) as [? [rest|]]; [|done].
  pose proof (omap_in_file (split_on "," rest)) as Hf.
  destruct (omap _ _) as [|r l]; [done|]. intros [= <-]. by apply combine_ranges_in_file.
Qed.
End RangeBounds.

(** ** Only the values of [Date.parse] matter *)

(** Two [Date.parse] that agree pointwise give the same answers: case on
    every match until each call of the one can be rewritten into the
    other. *)
Ltac dates_agree :=
  let d1 := fresh "d1" in let d2 := fresh "d2" in let Hd := fresh "Hd" in
  intros d1 d2 Hd ? ? -> ? ? ->; unfold pointwise_relation in Hd;
  repeat case_match; rewrite ?Hd in *; congruence.

#[export] Instance parse_http_date_proper :
  Proper (pointwise_relation string eq ==> eq ==> eq) parse_http_date.
Proof. intros d1 d2 Hd ? v ->. unfold parse_http_date. by destruct (js_str v). Qed.

#[export] Instance fresh_proper :
  Proper (pointwise_relation string eq ==> eq ==> eq ==> eq) fresh.
Proof. unfold fresh, parse_http_date. dates_agree. Qed.

#[export] Instance precondition_failure_proper :
  Proper (pointwise_relation string eq ==> eq ==> eq ==> eq) precondition_failure.
Proof. unfold precondition_failure, parse_http_date. dates_agree. Qed.

#[export] Instance is_range_fresh_proper :
  Proper (pointwise_relation string eq ==> eq ==> eq ==> eq) is_range_fresh.
Proof. unfold is_range_fresh, parse_http_date. dates_agree. Qed.

(** ** Token lists *)

(** A character that neither separates nor pads tokens. *)
Definition token_char (c : ascii) : bool := negb (Ascii.eqb c ",") && negb (Ascii.eqb c " ").

Lemma token_list_go_plain (k : bool) (s cur : string) :
  str_forall token_char s = true -> token_list_go k s cur "" = emit_token k (cur ++ s).
Proof.
  revert cur. induction s as [|c t IH]; intros cur; simpl; [by rewrite string_app_nil_r|].
  unfold token_char. intros [[Hc Hs]%andb_prop Ht]%andb_prop. apply negb_true_iff in Hc, Hs.
  rewrite Hs, Hc, IH by done. by rewrite <- string_app_assoc.
Qed.

(** A value without commas or spaces is a list of one token. *)
Lemma parse_token_list_fresh_single (s : string) :
  str_forall token_char s = true -> parse_token_list_fresh s = [s].
Proof. intros Hs. unfold parse_token_list_fresh. by rewrite token_list_go_plain. Qed.
