(* ===== verification/Static.v ===== *)
(** * Static: [express.static(path.join(__dirname, 'public'))] and [res.sendFile]

    Both servers mount serve-static on [public/] and register a GET route
    for ['/'] whose handler calls [res.sendFile(.../public/index.html)].
    This file translates serve-static's handler and the part of the [send]
    package both use: percent-decoding ([Uri]), the null-byte and [..] checks,
    POSIX normalisation, the legacy dotfile rule, the index file for a
    path ending in [/], the redirect of a directory, the answer for a
    found file ([send_found]: headers, 412 and 304 for conditional
    requests, 416 and 206 for ranges, the whole file otherwise, no body
    for HEAD), and the error-to-[next] convention ([fallthrough]: an
    error below 500 before a file was found calls [next()], any other
    calls [next(err)] with the headers set on [res] and the error's own).

    [StaticRoot] is what serving depends on outside the code: a lookup
    of a normalised relative path under [public/], and the runtime's
    [Date.parse].

    The lemmas show what [send] does on ordinary asset paths, that it
    never reads outside [public/] ([send_confined]), that
    every answer but to HEAD announces its body's length, that a 206
    carries exactly the range it names, and that revalidating with the
    file's ETag gives 304. *)
From stdpp Require Import base list gmap strings.
From Stdlib Require Import Ascii String ZArith.
From S2P Require Import Prelude Http Uri Router Conditional.
Open Scope string_scope.

Record file := mk_file {
  f_content : string;
  f_content_type : string;
  f_etag : string;
  f_last_modified : string
}.

Inductive fs_entry := FileEntry (f : file) | DirEntry.

(** What [send] does: answer, or raise an error whose status
    serve-static passes on; [after_file] tells whether the ['file'] event
    came first, [set_hs] are the headers [send] had set on [res] and
    [err_hs] the error's [headers]. *)
Inductive send_result :=
  | SendOk (r : response)
  | SendFail (status : nat) (after_file : bool) (set_hs err_hs : gmap string string).

(** What static serving depends on outside the code: the entries under
    [public/] by normalised relative path, and the runtime's
    [Date.parse], which [send] applies to its [Last-Modified] and to the
    dates of a request ([None] is [NaN]). *)
Class StaticRoot := {
  static_lookup : string -> option fs_entry;
  http_date : string -> option Z
}.

(** ** [path.normalize] and the checks of [send] *)

Fixpoint norm_segments (segs acc : list string) : list string :=
  match segs with
  | [] => acc
  | s :: rest =>
      if String.eqb s EmptyString || String.eqb s "." then norm_segments rest acc
      else if String.eqb s ".." then
        match acc with
        | x :: acc' => if String.eqb x ".." then norm_segments rest (".." :: acc)
                       else norm_segments rest acc'
        | [] => norm_segments rest [".."]
        end
      else norm_segments rest (s :: acc)
  end.

Definition ends_with_slash (s : string) : bool :=
  match last_char s with Some c => Ascii.eqb c "/" | None => false end.

(** [normalize('.' + sep + path)] for the relative path [send] builds. *)
Definition posix_normalize_rel (p : string) : string :=
  let res := join_on "/" (rev (norm_segments (split_on "/" p) [])) in
  if String.eqb res EmptyString then (if ends_with_slash p then "./" else ".")
  else if ends_with_slash p then res ++ "/" else res.

(** [UP_PATH_REGEXP = /(?:^|[\\/])\.\.(?:[\\/]|$)/]: a [..] segment,
    with [/] or backslash as separators. *)
Fixpoint split_seps (s : string) : list string :=
  match s with
  | EmptyString => [EmptyString]
  | String c t =>
      if Ascii.eqb c "/" || Ascii.eqb c "\" then EmptyString :: split_seps t
      else match split_seps t with
           | [] => [String c EmptyString]
           | x :: xs => String c x :: xs
           end
  end.

Definition not_sep (c : ascii) : bool := negb (Ascii.eqb c "/" || Ascii.eqb c "\").

Definition up_path (p : string) : bool := existsb (String.eqb "..") (split_seps p).

(** [containsDotFile(parts)] and the legacy access rule when [dotfiles] is
    not set: ignore (404) only when the last part starts with a dot. *)
Definition dot_part (part : string) : bool :=
  match part with
  | String "." (String _ _) => true
  | _ => false
  end.

Definition dotfile_ignored (parts : list string) : bool :=
  existsb dot_part parts &&
  match last parts with
  | Some (String "." _) => true
  | _ => false
  end.

(** The file key under [public/] of a normalised path. *)
Definition rel_key (p : string) : string :=
  if String.eqb p "./" || String.eqb p "." then EmptyString else p.

Fixpoint drop_slashes (s : string) : string :=
  match s with
  | EmptyString => EmptyString
  | String c t => if Ascii.eqb c "/" then drop_slashes t else s
  end.

(** serve-static's [collapseLeadingSlashes] *)
Definition collapse_leading_slashes (s : string) : string :=
  match s with
  | String c (String d _) =>
      if Ascii.eqb c "/" && Ascii.eqb d "/" then String "/" (drop_slashes s) else s
  | _ => s
  end.

Section Send.
Context `{StaticRoot}.

(** The headers [setHeader] and [type] set for a file, in their order
    ([Accept-Ranges], [Cache-Control] with [maxAge] 0, [Last-Modified],
    [ETag], [Content-Type]). *)
Definition file_headers (f : file) : gmap string string :=
  <["content-type" := f_content_type f]> (<["etag" := f_etag f]>
    (<["last-modified" := f_last_modified f]> (<["cache-control" := "public, max-age=0"]>
      {["accept-ranges" := "bytes"]}))).

(** [removeContentHeaderFields] *)
Definition remove_content_headers (hs : gmap string string) : gmap string string :=
  delete "content-type" (delete "content-range" (delete "content-length"
    (delete "content-language" (delete "content-encoding" hs)))).

(** A request without conditional or range headers. *)
Definition plain_get (req : request) : bool :=
  forallb (fun h => String.eqb (js_or (req_headers req !! h) "") "")
    ["if-match"; "if-unmodified-since"; "if-none-match"; "if-modified-since"; "range"].

(** What [send] writes as body: nothing for HEAD ([res.end()]). *)
Definition body_for (req : request) (b : string) : string :=
  if bool_decide (req_method req = HEAD) then EmptyString else b.

(** The 200 answer with the whole file. *)
Definition full_response (req : request) (hs : gmap string string) (f : file) : response :=
  mk_response 200 (<["content-length" := show_nat (String.length (f_content f))]> hs)
    (body_for req (f_content f)).

(** The 206 answer with bytes [s] to [e] of the file. *)
Definition partial_response (req : request) (f : file) (s e : Z) : response :=
  let len := String.length (f_content f) in
  let n := Z.to_nat (e - s + 1) in
  mk_response 206
    (<["content-length" := show_nat n]> (<["content-range" := content_range len (Some (s, e))]> (file_headers f)))
    (body_for req (substring (Z.to_nat s) n (f_content f))).

(** The range block of [send]: [None] when the [Range] header does not
    match [BYTES_RANGE_REGEXP], otherwise the parsed ranges, or [-2] when
    [isRangeFresh] fails. *)
Definition send_ranges (reqh hs : gmap string string) (size : nat) : option range_result :=
  match reqh !! "range" with
  | Some rg =>
      if bytes_range rg then
        Some (if is_range_fresh http_date reqh hs then range_parser (Z.of_nat size) rg else RangeMalformed)
      else None
  | None => None
  end.

(** [SendStream.prototype.send] for a found file: the headers, then the
    conditional GET ([412] on a failed precondition, [304] when fresh),
    then the range ([416] with [Content-Range: bytes */size] when no part
    is satisfiable, [206] with the slice for exactly one combined range,
    otherwise the whole file), the [Content-Length], and no body for
    HEAD.  [res.statusCode] is 200 until then, so [isCachable] holds. *)
Definition send_found (req : request) (f : file) : send_result :=
  let reqh := req_headers req in
  let hs := file_headers f in
  let len := String.length (f_content f) in
  let ranged :=
    match send_ranges reqh hs len with
    | Some RangeUnsatisfiable =>
        let cr := content_range len None in
        SendFail 416 true (<["content-range" := cr]> hs) {["content-range" := cr]}
    | Some (RangeList [(s, e)]) =>
        SendOk (partial_response req f s e)
    | _ => SendOk (full_response req hs f)
    end in
  if conditional_get reqh then
    if precondition_failure http_date reqh hs then SendFail 412 true hs ∅
    else if fresh http_date reqh hs then SendOk (mk_response 304 (remove_content_headers hs) EmptyString)
    else ranged
  else ranged.

(** serve-static's directory listener: 301 to the original path with a
    slash appended. *)
Definition redirect_response (req : request) : response :=
  let orig := req_original_url req in
  let loc := encode_url (collapse_leading_slashes (pathname orig ++ "/") ++ query_part orig) in
  let doc := html_document "Redirecting"
               ("Redirecting to <a href=" ++ dquote ++ escape_html loc ++ dquote ++ ">"
                ++ escape_html loc ++ "</a>") in
  mk_response 301
    (<["location" := loc]> (<["x-content-type-options" := "nosniff"]>
      (<["content-security-policy" := "default-src 'none'"]>
        (<["content-length" := show_nat (String.length doc)]>
          {["content-type" := "text/html; charset=UTF-8"]}))))
    doc.

(** [send(req, path, { root })] piped to the response. *)
Definition send (req : request) (path : string) : send_result :=
  match percent_decode path with
  | None => SendFail 400 false ∅ ∅
  | Some dec =>
      if has_char (ascii_of_nat 0) dec then SendFail 400 false ∅ ∅ else
      let p := if String.eqb dec EmptyString then EmptyString else posix_normalize_rel ("./" ++ dec) in
      if up_path p then SendFail 403 false ∅ ∅ else
      if dotfile_ignored (split_on "/" p) then SendFail 404 false ∅ ∅ else
      if ends_with_slash path then
        match static_lookup (rel_key p ++ "index.html") with
        | Some (FileEntry f) => send_found req f
        | _ => SendFail 404 false ∅ ∅
        end
      else
        match static_lookup (rel_key p) with
        | Some (FileEntry f) => send_found req f
        | Some DirEntry => SendOk (redirect_response req)
        | None => SendFail 404 false ∅ ∅
        end
  end.

(** The middleware [express.static(root)] returns ([fallthrough: true]). *)
Definition serve_static : middleware := fun req =>
  if negb (bool_decide (req_method req = GET) || bool_decide (req_method req = HEAD)) then Next req
  else
    let path := pathname (req_url req) in
    let path := if String.eqb path "/" && negb (ends_with_slash (pathname (req_original_url req)))
                then EmptyString else path in
    match send req path with
    | SendOk r => Respond r
    | SendFail st after rh eh => if after || negb (st <? 500)%nat then NextError st rh eh else Next req
    end.

(** The handler of [app.get('/')]:
    [res.sendFile(path.join(__dirname, 'public', 'index.html'))]; a
    directory ([EISDIR]) calls [next()], any other error [next(err)]. *)
Definition send_index_file : middleware := fun req =>
  match static_lookup "index.html" with
  | Some (FileEntry f) =>
      match send_found req f with
      | SendOk r => Respond r
      | SendFail st _ rh eh => NextError st rh eh
      end
  | Some DirEntry => Next req
  | None => NextError 404 ∅ ∅
  end.
End Send.

(** ** Ordinary asset paths

    The paths of the spec's "static asset" requests: segments of letters,
    digits, [-], [_] and [.], none empty and none starting with a dot. *)
Definition name_char (c : ascii) : bool :=
  let n := nat_of_ascii c in
  in_range 48 57 n || in_range 65 90 n || in_range 97 122 n
  || (n =? 45)%nat || (n =? 95)%nat || (n =? 46)%nat.

Definition asset_segment (s : string) : bool :=
  match s with
  | String c _ => negb (Ascii.eqb c ".") && str_forall name_char s
  | EmptyString => false
  end.

Definition asset_path (n : string) : bool := forallb asset_segment (split_on "/" n).

(** ** A sample [public/] directory

    [index.html] and [app.js] files and a [css] directory, for the
    witnesses, with the ETags [etag(stat)] computes ([W/"size-mtime"] in
    hexadecimal) and the dates [toUTCString] prints; [Date.parse] is
    given on the two dates the witnesses use.  The second root also has a
    file outside [public/], reachable only through [..]. *)
Definition demo_mtime : string := "Mon, 09 Nov 2026 00:00:00 GMT".

Definition demo_index : file :=
  mk_file "<!doctype html><title>app</title>" "text/html; charset=UTF-8"
    ("W/" ++ dquote ++ "21-1a1bd9ac800" ++ dquote) demo_mtime.

Definition demo_app_js : file :=
  mk_file "main()" "application/javascript; charset=UTF-8"
    ("W/" ++ dquote ++ "6-1a1bd9ac800" ++ dquote) demo_mtime.

Definition demo_date_parse (d : string) : option Z :=
  if String.eqb d demo_mtime then Some 1794182400000%Z
  else if String.eqb d "Sun, 08 Nov 2026 00:00:00 GMT" then Some 1794096000000%Z
  else None.

Definition demo_root : StaticRoot := {|
  static_lookup := fun k =>
    if String.eqb k "index.html" then Some (FileEntry demo_index)
    else if String.eqb k "app.js" then Some (FileEntry demo_app_js)
    else if String.eqb k "css" then Some DirEntry
    else None;
  http_date := demo_date_parse
|}.

Definition demo_root_leaky : StaticRoot := {|
  static_lookup := fun k =>
    if String.eqb k "../server.js" then Some (FileEntry (mk_file "secret" "application/javascript" "W/0" ""))
    else @static_lookup demo_root k;
  http_date := demo_date_parse
|}.

(** ** Lemmas *)

Section StaticFacts.
Context `{StaticRoot}.

(** Errors raised while sending a found file come after the ['file']
    event. *)
Lemma send_found_cases (req : request) (f : file) :
  (exists r, send_found req f = SendOk r) \/
  (exists st rh eh, send_found req f = SendFail st true rh eh).
Proof. unfold send_found. repeat case_match; eauto. Qed.

Lemma js_or_empty (v : option string) : String.eqb (js_or v "") "" = true -> v = None \/ v = Some "".
Proof.
  destruct v as [s|]; simpl; [|by left].
  destruct (String.eqb_spec s "") as [->|Hn]; [by right|]. by intros ?%String.eqb_eq.
Qed.

(** A plain GET or HEAD gets the whole file. *)
Lemma send_found_plain (req : request) (f : file) :
  plain_get req = true -> send_found req f = SendOk (full_response req (file_headers f) f).
Proof.
  unfold plain_get. cbn [forallb]. rewrite !andb_true_r. intros Hp. split_bool.
  unfold send_found, conditional_get, send_ranges. cbn [existsb].
  repeat match goal with
  | H : String.eqb (js_or (_ !! _) "") "" = true |- _ => destruct (js_or_empty _ H) as [-> | ->]; clear H
  end; done.
Qed.

(** For ['/'], [send] looks up [index.html] at the root of [public/]. *)
Lemma send_root (req : request) :
  send req "/" =
    match static_lookup "index.html" with
    | Some (FileEntry f) => send_found req f
    | _ => SendFail 404 false ∅ ∅
    end.
Proof. reflexivity. Qed.

Lemma serve_static_get_head (req : request) :
  req_method req = GET \/ req_method req = HEAD ->
  serve_static req =
    let path := pathname (req_url req) in
    let path := if String.eqb path "/" && negb (ends_with_slash (pathname (req_original_url req)))
                then EmptyString else path in
    match send req path with
    | SendOk r => Respond r
    | SendFail st after rh eh => if after || negb (st <? 500)%nat then NextError st rh eh else Next req
    end.
Proof. unfold serve_static. by intros [-> | ->]. Qed.

Lemma serve_static_other (req : request) :
  req_method req <> GET -> req_method req <> HEAD -> serve_static req = Next req.
Proof. intros H1 H2. unfold serve_static. by repeat case_bool_decide. Qed.

(** Without backslashes, [UP_PATH_REGEXP] sees the [/]-separated segments. *)
Lemma split_seps_on (s : string) : has_char "\" s = false -> split_seps s = split_on "/" s.
Proof.
  induction s as [|a t IH]; simpl; [done|]. intros [Ha Ht]%orb_false_iff.
  rewrite IH, Ha, orb_false_r by done. done.
Qed.

(** Segments that are neither empty, [.] nor [..] pass through
    normalisation unchanged. *)
Lemma norm_segments_assets (segs acc : list string) :
  forallb asset_segment segs = true -> norm_segments segs acc = (rev segs ++ acc)%list.
Proof.
  revert acc. induction segs as [|x segs IH]; intros acc; simpl; [done|].
  intros [Hx Hs]%andb_prop. destruct x as [|c t]; [done|]. simpl in Hx.
  apply andb_prop in Hx as [Hc _]. apply negb_true_iff in Hc.
  assert (E : String.eqb (String c t) "." = false /\ String.eqb (String c t) ".." = false).
  { split; apply String.eqb_neq; intros [= -> _]; by rewrite Ascii.eqb_refl in Hc. }
  destruct E as [E1 E2]. rewrite E1, E2. simpl. rewrite IH by done.
  by rewrite <- app_assoc.
Qed.

Lemma asset_segment_chars (s : string) :
  asset_segment s = true -> str_forall (fun c => name_char c || Ascii.eqb c "/") s = true.
Proof.
  destruct s as [|c t]; [done|]. intros [_ Hs]%andb_prop.
  apply (str_forall_impl name_char); [|done]. intros a ->. done.
Qed.

Lemma asset_segment_not_dot (s : string) :
  asset_segment s = true -> String.eqb ".." s = false /\ dot_part s = false.
Proof.
  destruct s as [|c t]; [done|]. intros [Hc _]%andb_prop. apply negb_true_iff in Hc.
  split; [apply String.eqb_neq; intros [= <- _]; done|].
  destruct c as [[] [] [] [] [] [] [] []]; try reflexivity; done.
Qed.

(** An asset path uses only name characters and [/], starts with neither
    [.] nor [/], and does not end in [/]. *)
Lemma asset_path_shape (n : string) :
  asset_path n = true ->
  str_forall (fun c => name_char c || Ascii.eqb c "/") n = true /\
  (exists c t, n = String c t /\ Ascii.eqb c "." = false /\ Ascii.eqb c "/" = false) /\
  ends_with_slash n = false.
Proof.
  unfold asset_path. intros Hn. split.
  { rewrite (str_forall_split_on _ "/") by reflexivity. exact (forallb_impl _ _ _ asset_segment_chars Hn). }
  split.
  - destruct n as [|c t]; [done|]. exists c, t. simpl in Hn.
    pose proof (split_on_nonempty "/" t).
    destruct (Ascii.eqb c "/") eqn:Ec; [done|].
    destruct (split_on "/" t); [done|]. simpl in Hn. apply andb_prop in Hn as [Hc _].
    apply andb_prop in Hc as [Hc _]. by apply negb_true_iff in Hc.
  - unfold ends_with_slash. destruct (last_char n) as [a|] eqn:El; [|done].
    destruct (Ascii.eqb_spec a "/") as [->|]; [|done].
    apply split_on_last_char, last_Some_elem_of in El.
    rewrite forallb_forall in Hn. apply list_elem_of_In, Hn in El. done.
Qed.

(** [send] on an asset path: no decoding, normalising or dotfile rule
    applies, and the file looked up is the path itself under [public/]. *)
Lemma send_asset (req : request) (n : string) :
  asset_path n = true ->
  send req ("/" ++ n) =
    match static_lookup n with
    | Some (FileEntry f) => send_found req f
    | Some DirEntry => SendOk (redirect_response req)
    | None => SendFail 404 false ∅ ∅
    end.
Proof.
  intros Hn. pose proof (asset_path_shape n Hn) as (Hch & (c & t & Ht & Hc1 & Hc2) & Hend).
  assert (Hno : forall a, name_char a || Ascii.eqb a "/" = false -> has_char a n = false).
  { intros a Ha. exact (str_forall_has_char _ a n Ha Hch). }
  unfold send. rewrite percent_decode_plain by (simpl; by rewrite Hno).
  simpl (has_char _ ("/" ++ n)). rewrite Hno by reflexivity. simpl orb. cbv iota.
  change (String.eqb ("/" ++ n) EmptyString) with false. cbv iota.
  assert (Hp : posix_normalize_rel ("./" ++ "/" ++ n) = n).
  { unfold posix_normalize_rel. simpl (split_on _ _). simpl norm_segments.
    rewrite norm_segments_assets by exact Hn. rewrite app_nil_r, rev_involutive.
    change "/" with (String "/" EmptyString). rewrite join_split.
    assert (Hs : ends_with_slash ("./" ++ "/" ++ n) = ends_with_slash n).
    { unfold ends_with_slash. rewrite !last_char_app by (subst; done). done. }
    rewrite Hs, Hend. subst n. done. }
  rewrite Hp. unfold up_path. rewrite split_seps_on by (apply Hno; reflexivity).
  rewrite (forallb_existsb_false _ _ _ (fun s Hs => proj1 (asset_segment_not_dot s Hs))) by exact Hn.
  unfold dotfile_ignored.
  rewrite (forallb_existsb_false _ _ _ (fun s Hs => proj2 (asset_segment_not_dot s Hs))) by exact Hn.
  simpl andb. cbv iota.
  assert (Hs : ends_with_slash ("/" ++ n) = false).
  { unfold ends_with_slash. rewrite last_char_app by (subst; done). exact Hend. }
  rewrite Hs.
  assert (Hk : rel_key n = n).
  { unfold rel_key. subst n. destruct t; simpl;
    destruct (Ascii.eqb_spec c "."); subst; try done; by rewrite ?Ascii.eqb_refl in Hc1. }
  by rewrite Hk.
Qed.

(** [express.static] on a GET or HEAD for an asset path: the file, a
    redirect for a directory, and [next()] when nothing is there. *)
Lemma serve_static_asset (req : request) (n : string) :
  req_method req = GET \/ req_method req = HEAD -> asset_path n = true ->
  pathname (req_url req) = "/" ++ n ->
  serve_static req =
    match static_lookup n with
    | Some (FileEntry f) =>
        match send_found req f with SendOk r => Respond r | SendFail st _ rh eh => NextError st rh eh end
    | Some DirEntry => Respond (redirect_response req)
    | None => Next req
    end.
Proof.
  intros Hm Hn Hp. rewrite serve_static_get_head by done. cbv zeta. rewrite Hp.
  pose proof (asset_path_shape n Hn) as (_ & (c & t & Hct & _) & _).
  assert (E : String.eqb ("/" ++ n) "/" = false) by (rewrite Hct; done).
  rewrite E. simpl andb. cbv iota. rewrite (send_asset req n Hn).
  destruct (static_lookup _) as [[f|]|]; [|done|done].
  by destruct (send_found_cases req f) as [[r ->]|(st & rh & eh & ->)].
Qed.
End StaticFacts.

(** ** Well-formed responses *)

Section StaticWf.
Context `{StaticRoot}.

(** Every answer [send] gives for a found file: the 304, the whole file,
    or the slice of the one satisfiable range. *)
Lemma send_found_ok_cases (req : request) (f : file) (r : response) :
  send_found req f = SendOk r ->
  r = mk_response 304 (remove_content_headers (file_headers f)) EmptyString \/
  r = full_response req (file_headers f) f \/
  exists s e, send_ranges (req_headers req) (file_headers f) (String.length (f_content f)) = Some (RangeList [(s, e)]) /\
              r = partial_response req f s e.
Proof.
  unfold send_found. cbn zeta.
  destruct (send_ranges _ _ _) as [[| |[|[s e] [|]]]|] eqn:Er;
    repeat case_match; intros Hr; simplify_eq; eauto 10.
Qed.

Lemma send_ranges_in_file (reqh hs : gmap string string) (len : nat) (rs : list (Z * Z)) :
  send_ranges reqh hs len = Some (RangeList rs) -> Forall (in_file (Z.of_nat len)) rs.
Proof.
  unfold send_ranges. repeat case_match; intros; simplify_eq. by eapply range_parser_in_file.
Qed.

Lemma full_response_consistent (req : request) (hs : gmap string string) (f : file) :
  req_method req <> HEAD -> length_consistent (full_response req hs f).
Proof.
  intros Hh v. unfold full_response, body_for. simpl.
  rewrite lookup_insert_eq, bool_decide_eq_false_2 by done. by intros [= <-].
Qed.

Lemma partial_response_consistent (req : request) (f : file) (s e : Z) :
  req_method req <> HEAD -> in_file (Z.of_nat (String.length (f_content f))) (s, e) ->
  length_consistent (partial_response req f s e).
Proof.
  intros Hh Hin v. unfold partial_response, body_for, in_file in *. simpl in *.
  rewrite lookup_insert_eq, bool_decide_eq_false_2 by done. intros [= <-].
  rewrite substring_length by lia. done.
Qed.

Lemma not_modified_consistent (f : file) :
  length_consistent (mk_response 304 (remove_content_headers (file_headers f)) EmptyString).
Proof. intros v. unfold remove_content_headers. simpl. by rewrite lookup_delete_ne, lookup_delete_ne, lookup_delete_eq. Qed.

Lemma redirect_consistent (req : request) : length_consistent (redirect_response req).
Proof.
  intros v. unfold redirect_response. simpl.
  rewrite !lookup_insert_ne, lookup_insert_eq by done. by intros [= <-].
Qed.

(** Every answer of [send] to a request other than HEAD announces its
    body's length. *)
Lemma send_found_consistent (req : request) (f : file) (r : response) :
  req_method req <> HEAD -> send_found req f = SendOk r -> length_consistent r.
Proof.
  intros Hh [-> | [-> | (s & e & Hs & ->)]]%send_found_ok_cases;
    [apply not_modified_consistent|by apply full_response_consistent|].
  apply send_ranges_in_file, Forall_cons in Hs as [Hs _]. by apply partial_response_consistent.
Qed.

Lemma send_ok_consistent (req : request) (path : string) (r : response) :
  req_method req <> HEAD -> send req path = SendOk r -> length_consistent r.
Proof.
  intros Hm. unfold send. repeat case_match; intros Heq; try discriminate Heq;
    try (by eapply send_found_consistent); injection Heq as <-; apply redirect_consistent.
Qed.
Lemma file_headers_etag (f : file) : file_headers f !! "etag" = Some (f_etag f).
Proof. unfold file_headers. by rewrite lookup_insert_ne, lookup_insert_eq. Qed.

Lemma js_str_nonempty (v : string) : v <> EmptyString -> js_str (Some v) = Some v.
Proof. intros Hv. unfold js_str. by rewrite (proj2 (String.eqb_neq _ _) Hv). Qed.

(** C20: a 206 answer of [send] carries exactly one satisfiable range
    of the file: its [Content-Range] names bytes [s] to [e] of the
    file's size with [s <= e < size], its [Content-Length] is
    [e - s + 1], and its body is exactly those bytes (none for HEAD),
    whatever [Range] and [If-Range] headers the request had. *)
Theorem range_reply_slice (req : request) (f : file) (r : response) :
  send_found req f = SendOk r -> res_status r = 206 ->
  exists s e, (s <= e < String.length (f_content f))%nat /\
    res_headers r !! "content-range" =
      Some (content_range (String.length (f_content f)) (Some (Z.of_nat s, Z.of_nat e))) /\
    res_headers r !! "content-length" = Some (show_nat (e - s + 1)) /\
    res_body r = body_for req (substring s (e - s + 1) (f_content f)).
Proof.
  intros Hr Hs. destruct (send_found_ok_cases req f r Hr) as [-> | [-> | (s & e & Hsr & ->)]];
    [done|by unfold full_response in Hs|].
  apply send_ranges_in_file, Forall_cons in Hsr as [Hin _]. unfold in_file in Hin; simpl in Hin.
  exists (Z.to_nat s), (Z.to_nat e). unfold partial_response; simpl.
  rewrite lookup_insert_eq, lookup_insert_ne, lookup_insert_eq by done.
  rewrite !Z2Nat.id by lia.
  replace (Z.to_nat (e - s + 1)) with (Z.to_nat e - Z.to_nat s + 1)%nat by lia.
  split; [lia|done].
Qed.

(** C21: a request revalidating with [If-None-Match] set to the file's
    ETag, and no other precondition or [no-cache], gets 304 with no body
    and without the content headers; an ETag as [etag(stat)] makes it
    has no comma or space, so the header is one token. *)
Theorem if_none_match_not_modified (req : request) (f : file) :
  js_str (req_headers req !! "if-match") = None ->
  js_str (req_headers req !! "if-unmodified-since") = None ->
  js_str (req_headers req !! "if-modified-since") = None ->
  js_str (req_headers req !! "cache-control") = None ->
  req_headers req !! "if-none-match" = Some (f_etag f) ->
  f_etag f <> EmptyString -> str_forall token_char (f_etag f) = true ->
  send_found req f = SendOk (mk_response 304 (remove_content_headers (file_headers f)) EmptyString).
Proof.
  intros Hm Hu Hms Hcc Hn Hne Htok.
  unfold send_found, conditional_get, precondition_failure, fresh, parse_http_date. cbn zeta.
  rewrite Hm, Hu, Hms, Hcc, Hn, file_headers_etag, !js_str_nonempty by done.
  cbn [existsb]. rewrite Hm, Hu, Hn, js_str_nonempty by done.
  rewrite (bool_decide_eq_true_2 (is_Some (Some (f_etag f)))) by eauto.
  rewrite !orb_true_r, parse_token_list_fresh_single by done. cbn [existsb].
  unfold etag_matches. rewrite String.eqb_refl. by destruct (String.eqb (f_etag f) "*").
Qed.
End StaticWf.

(** ** Confinement to [public/] *)

Lemma split_seps_nonempty (s : string) : split_seps s <> [].
Proof.
  destruct s as [|c t]; simpl; [done|].
  destruct (_ || _); [done|]. by destruct (split_seps t).
Qed.

Lemma split_seps_nosep (b : string) : str_forall not_sep b = true -> split_seps b = [b].
Proof.
  induction b as [|c t IH]; simpl; [done|]. unfold not_sep.
  intros [Hc Ht]%andb_prop. apply negb_true_iff in Hc. by rewrite Hc, IH.
Qed.

(** Appending a name without separators extends the last segment. *)
Lemma split_seps_app (a b : string) :
  str_forall not_sep b = true ->
  split_seps (a ++ b) = (removelast (split_seps a) ++ [(List.last (split_seps a) EmptyString ++ b)%string])%list.
Proof.
  intros Hb. induction a as [|c t IH]; simpl; [by rewrite split_seps_nosep|].
  pose proof (split_seps_nonempty t) as Hn.
  destruct (_ || _); rewrite IH; destruct (split_seps t) as [|y [|z zs]]; done.
Qed.

(** A file name appended to a path without [..] segments gives none. *)
Lemma up_path_app_name (a b : string) :
  str_forall not_sep b = true -> (2 < String.length b)%nat ->
  up_path a = false -> up_path (a ++ b) = false.
Proof.
  unfold up_path. intros Hb Hl Ha. rewrite split_seps_app by done.
  rewrite (app_removelast_last EmptyString (split_seps_nonempty a)), existsb_app in Ha.
  apply orb_false_iff in Ha as [Ha _]. rewrite existsb_app, Ha. cbn [existsb orb].
  rewrite orb_false_r. apply String.eqb_neq. intros Heq.
  apply (f_equal String.length) in Heq. rewrite string_length_app in Heq. simpl in Heq. lia.
Qed.

Lemma send_found_ext (R1 R2 : StaticRoot) (req : request) (f : file) :
  (forall d, @http_date R1 d = @http_date R2 d) ->
  @send_found R1 req f = @send_found R2 req f.
Proof.
  intros Hd. assert (E : pointwise_relation string eq (@http_date R1) (@http_date R2)) by exact Hd.
  unfold send_found, send_ranges. cbn zeta.
  rewrite (precondition_failure_proper _ _ E _ _ eq_refl _ _ eq_refl), (fresh_proper _ _ E _ _ eq_refl _ _ eq_refl).
  destruct (req_headers req !! "range"); [|done].
  by rewrite (is_range_fresh_proper _ _ E _ _ eq_refl _ _ eq_refl).
Qed.

(** C18: [send] never reads outside [public/]: two directory trees that
    agree on every path without a [..] segment, under a runtime with the
    same [Date.parse], give the same result for every request and path, so
    a file reachable only through [..] (literal or percent-encoded) can
    never be served. *)
Theorem send_confined (R1 R2 : StaticRoot) (req : request) (path : string) :
  (forall k, up_path k = false -> @static_lookup R1 k = @static_lookup R2 k) ->
  (forall d, @http_date R1 d = @http_date R2 d) ->
  @send R1 req path = @send R2 req path.
Proof.
  intros Hl Hc. unfold send.
  destruct (percent_decode path) as [dec|]; [|done]. destruct (has_char _ dec); [done|].
  set (p := if String.eqb dec EmptyString then _ else _). destruct (up_path p) eqn:Hup; [done|].
  destruct (dotfile_ignored _); [done|].
  assert (Hk : up_path (rel_key p) = false).
  { unfold rel_key. by destruct (_ || _). }
  destruct (ends_with_slash path).
  - rewrite Hl by (apply up_path_app_name; [reflexivity|simpl; lia|exact Hk]).
    destruct (@static_lookup R2 _) as [[f|]|]; [|done|done]. by apply send_found_ext.
  - rewrite Hl by exact Hk.
    destruct (@static_lookup R2 _) as [[f|]|]; [|done|done]. by apply send_found_ext.
Qed.

Lemma send_confined_witness :
  @send demo_root (incoming GET "/../server.js" ∅ "" HTTP_1_1) "/../server.js" =
  @send demo_root_leaky (incoming GET "/../server.js" ∅ "" HTTP_1_1) "/../server.js".
Proof.
  apply send_confined; [|reflexivity].
  intros k Hk. simpl. destruct (String.eqb_spec k "../server.js") as [->|]; [discriminate Hk|reflexivity].
Defined.

Lemma range_reply_slice_witness :
  exists s e, (s <= e < String.length (f_content demo_app_js))%nat /\
    res_headers (partial_response (incoming GET "/app.js" {["range" := "bytes=1-3"]} "" HTTP_1_1) demo_app_js 1 3)
      !! "content-range" = Some (content_range (String.length (f_content demo_app_js)) (Some (Z.of_nat s, Z.of_nat e))) /\
    res_headers (partial_response (incoming GET "/app.js" {["range" := "bytes=1-3"]} "" HTTP_1_1) demo_app_js 1 3)
      !! "content-length" = Some (show_nat (e - s + 1)) /\
    res_body (partial_response (incoming GET "/app.js" {["range" := "bytes=1-3"]} "" HTTP_1_1) demo_app_js 1 3) =
      body_for (incoming GET "/app.js" {["range" := "bytes=1-3"]} "" HTTP_1_1)
        (substring s (e - s + 1) (f_content demo_app_js)).
Proof. apply (@range_reply_slice demo_root); vm_compute; reflexivity. Defined.

Lemma if_none_match_not_modified_witness :
  @send_found demo_root (incoming GET "/app.js" {["if-none-match" := f_etag demo_app_js]} "" HTTP_1_1) demo_app_js =
    SendOk (mk_response 304 (remove_content_headers (file_headers demo_app_js)) EmptyString).
Proof. apply if_none_match_not_modified; vm_compute; (reflexivity || discriminate). Defined.
