(* ===== verification/Server.v ===== *)
(** * Server: each server.js as a whole

    [app_2EC2] and [app_ECS] are the layer stacks the two files register,
    in registration order; [boot] runs the top-level script of
    [Startup]; the process is the step relation [step]: one boot step
    that performs the script's effects and either exits or starts serving
    with the app, then one step per request, each answered by
    [app_handle] of the fixed stack.  Requests are handled independently:
    the serving state never changes.  The theorems follow requests through
    a whole app: what the upstream receives for each form of ['/api'] path
    under both versions of http-proxy-middleware, what the client gets
    from the static layer and the ['/'] route, and which states a process
    reaches. *)
From stdpp Require Import base list gmap strings.
From Stdlib Require Import Ascii String.
From S2P Require Import Prelude Http Startup Url Proxy Router Static.
Open Scope string_scope.

Section Apps.
Context `{Upstream} `{StaticRoot}.

(** [src/2EC2/frontend/server.js]: the proxy at ['/api'], then static
    files, then the ['/'] route. *)
Definition app_2EC2 (ver : hpm_version) (BACKEND_URL : string) : list layer :=
  [Use "/api" (proxy_middleware ver (options_2EC2 BACKEND_URL));
   Use "/" serve_static;
   Route "/" GET send_index_file].

(** [src/ECS/frontend/server.js]: the proxy setup is commented out. *)
Definition app_ECS : list layer :=
  [Use "/" serve_static;
   Route "/" GET send_index_file].
End Apps.

(** The request the upstream receives when the 2EC2 app proxies [req]:
    the router trims the mount path, the middleware prepares the request
    and http-proxy builds the outgoing request. *)
Definition upstream_request (ver : hpm_version) (BACKEND_URL : string) (req : request) : option outgoing :=
  match mount_match "/api" (pathname (req_url req)) with
  | Some lp =>
      let o := options_2EC2 BACKEND_URL in
      outgoing_request o (delete_length (prepare_request ver o (fst (trim_prefix req lp))))
  | None => None
  end.

Inductive variant := Variant2EC2 (ver : hpm_version) | VariantECS.

Inductive proc_state :=
  | Booting
  | Serving (stack : list layer)
  | Exited (code : nat).

Inductive event :=
  | Effect (e : effect)
  | Served (req : request) (res : response).

Section Process.
Context `{Upstream} `{StaticRoot}.
Variable v : variant.
Variable env : gmap string string.
Variable bind_err : option string.

(** The top-level script of the variant and the state it leaves. *)
Definition boot : list effect * proc_state :=
  match v with
  | Variant2EC2 ver =>
      let '(es, r) := main_2EC2 ver env bind_err in
      (es, match r with Cont url => Serving (app_2EC2 ver url) | Halted c => Exited c end)
  | VariantECS =>
      let '(es, r) := main_ECS env bind_err in
      (es, match r with Cont _ => Serving app_ECS | Halted c => Exited c end)
  end.

Inductive step : proc_state -> list event -> proc_state -> Prop :=
  | step_boot : step Booting (Effect <$> fst boot) (snd boot)
  | step_serve (stack : list layer) (req : request) :
      step (Serving stack) [Served req (app_handle stack req)] (Serving stack).

(** Runs: sequences of steps and the events they emit. *)
Inductive run : proc_state -> list event -> proc_state -> Prop :=
  | run_refl (s : proc_state) : run s [] s
  | run_step (s1 s2 s3 : proc_state) (ev evs : list event) :
      step s1 ev s2 -> run s2 evs s3 -> run s1 (ev ++ evs) s3.
End Process.

(** A request as a browser sends it, without headers or body. *)
Definition demo_request (m : method) (url : string) : request := incoming m url ∅ "" HTTP_1_1.

(** ** The process *)

(** The states a process of variant [v] can be in: booting, exited with
    status 1, or serving the variant's app (for 2EC2, with a non-empty
    [BACKEND_URL] as the proxy target). *)
Definition process_inv `{Upstream} `{StaticRoot} (v : variant) (env : gmap string string) (s : proc_state) : Prop :=
  s = Booting \/ s = Exited 1 \/
  (exists ver url, v = Variant2EC2 ver /\ env !! "BACKEND_URL" = Some url /\ url <> "" /\
                   s = Serving (app_2EC2 ver url)) \/
  (v = VariantECS /\ s = Serving app_ECS).

Open Scope list_scope.

Lemma main_2EC2_cont (ver : hpm_version) (env : gmap string string) (bind_err : option string) (url : string) :
  snd (main_2EC2 ver env bind_err) = Cont url -> Listening LISTEN_HOST PORT ∈ fst (main_2EC2 ver env bind_err).
Proof.
  unfold main_2EC2, hpm_created. destruct (js_falsy_env _); [done|].
  destruct bind_err, ver; simpl; try done; intros _; apply list_elem_of_In; simpl; tauto.
Qed.

Lemma main_ECS_cont (env : gmap string string) (bind_err : option string) (u : unit) :
  snd (main_ECS env bind_err) = Cont u -> Listening LISTEN_HOST PORT ∈ fst (main_ECS env bind_err).
Proof. rewrite main_ECS_outcome. destruct bind_err; simpl; [done|]. intros _. left. Qed.

Section ProcessProps.
Context `{Upstream} `{StaticRoot}.
Variable v : variant.
Variable env : gmap string string.
Variable bind_err : option string.

Lemma boot_serving_listened (stack : list layer) :
  snd (boot v env bind_err) = Serving stack -> Listening LISTEN_HOST PORT ∈ fst (boot v env bind_err).
Proof.
  unfold boot. destruct v as [ver|].
  - pose proof (main_2EC2_cont ver env bind_err) as Hc.
    destruct (main_2EC2 ver env bind_err) as [es [url|c]]; simpl in *; [|done]. intros _. by eapply Hc.
  - pose proof (main_ECS_cont env bind_err) as Hc.
    destruct (main_ECS env bind_err) as [es [u|c]]; simpl in *; [|done]. intros _. by eapply Hc.
Qed.

Lemma boot_not_booting : snd (boot v env bind_err) <> Booting.
Proof.
  unfold boot. destruct v.
  - destruct (main_2EC2 _ env bind_err) as [es []]; done.
  - destruct (main_ECS env bind_err) as [es []]; done.
Qed.

Lemma run_exited (c : nat) (tr : list event) (s : proc_state) :
  run v env bind_err (Exited c) tr s -> tr = [] /\ s = Exited c.
Proof. inversion 1 as [|? ? ? ? ? Hs]; [done|]. inversion Hs. Qed.

(** The states a run from boot reaches: boot itself and the state the
    script leaves. *)
Lemma run_from_boot (tr : list event) (s : proc_state) :
  run v env bind_err Booting tr s ->
  (tr = [] /\ s = Booting) \/
  (exists evs, tr = (Effect <$> fst (boot v env bind_err)) ++ evs /\
               run v env bind_err (snd (boot v env bind_err)) evs s).
Proof.
  inversion 1 as [|? s2 ? ev evs Hs Hr]; subst; [by left|].
  right. inversion Hs; subst. by exists evs.
Qed.

(** C14: no request is served before the socket is bound: in every run
    from boot, each [Served] event is preceded by the [Listening] effect
    on 0.0.0.0:3000. *)
Theorem served_after_listening (tr t1 t2 : list event) (s : proc_state) (req : request) (res : response) :
  run v env bind_err Booting tr s -> tr = t1 ++ Served req res :: t2 ->
  Effect (Listening "0.0.0.0" 3000) ∈ t1.
Proof.
  intros Hrun ->. destruct (run_from_boot _ _ Hrun) as [[Htr _]|(evs & Htr & Hrest)].
  { by destruct t1. }
  destruct (snd (boot v env bind_err)) as [|stack|c] eqn:Eb.
  - by apply boot_not_booting in Eb.
  - pose proof (boot_serving_listened stack Eb) as Hl.
    apply app_eq_app in Htr as (k & [[Ht1 _]|[Hk Hserved]]).
    + rewrite Ht1. apply elem_of_app. left. apply list_elem_of_fmap. by eexists.
    + destruct k as [|x k].
      * rewrite app_nil_r in Hk. rewrite <- Hk. apply list_elem_of_fmap. by eexists.
      * simpl in Hserved. injection Hserved as <- _.
        assert (Hin : Served req res ∈ (Effect <$> fst (boot v env bind_err))).
        { rewrite Hk. apply elem_of_app. right. left. }
        apply list_elem_of_fmap in Hin as (? & ? & _). done.
  - apply run_exited in Hrest as [-> _]. rewrite app_nil_r in Htr.
    assert (Hin : Served req res ∈ (Effect <$> fst (boot v env bind_err))).
    { rewrite <- Htr. apply elem_of_app. right. left. }
    apply list_elem_of_fmap in Hin as (? & ? & _). done.
Qed.
End ProcessProps.

(** ** The apps *)

Section AppProps.
Context `{Upstream} `{StaticRoot}.



(** C8: a request the ['/api'] mount does not match is answered by the
    2EC2 app exactly as by the ECS app: it falls through to the static
    files and the ['/'] route, and the upstream plays no part. *)
Theorem app_2EC2_non_api (ver : hpm_version) (url : string) (req : request) :
  mount_match "/api" (pathname (req_url req)) = None ->
  app_handle (app_2EC2 ver url) req = app_handle app_ECS req.
Proof. intros Hm. unfold app_handle, app_2EC2, app_ECS. by rewrite handle_use_nomatch. Qed.
(** C11: with [public/index.html] present, a plain GET or HEAD for ['/']
    is answered 200 with the file (no body for HEAD) by both servers,
    whatever the proxy target; the answer comes from the static layer. *)
Theorem get_root_serves_index (f : file) (req : request) :
  static_lookup "index.html" = Some (FileEntry f) -> plain_get req = true ->
  req_method req = GET \/ req_method req = HEAD ->
  pathname (req_url req) = "/" -> pathname (req_original_url req) = "/" ->
  let res := powered (mk_response 200 (<["content-length" := show_nat (String.length (f_content f))]> (file_headers f))
                        (if bool_decide (req_method req = HEAD) then EmptyString else f_content f)) in
  app_handle app_ECS req = res /\ (forall ver url, app_handle (app_2EC2 ver url) req = res).
Proof.
  intros Hf Hp Hm Hpath Horig res.
  assert (Hs : handle app_ECS req [] = full_response req (file_headers f) f).
  { unfold app_ECS. rewrite handle_use_root, serve_static_get_head by done. simpl.
    rewrite Hpath, Horig. simpl. rewrite send_root, Hf. by rewrite send_found_plain by done. }
  split; [by unfold app_handle; rewrite Hs|]. intros ver url.
  rewrite app_2EC2_non_api by (rewrite Hpath; reflexivity). by unfold app_handle; rewrite Hs.
Qed.

(** C29: the ['/'] route of both files is dead code while
    [public/index.html] exists: for every request but OPTIONS the static
    layer alone gives the same answer, because [express.static] serves
    [index.html] for ['/'] itself. *)
Theorem index_route_unreachable (f : file) (req : request) :
  static_lookup "index.html" = Some (FileEntry f) -> req_method req <> OPTIONS ->
  origin_form (req_url req) = true -> req_original_url req = req_url req ->
  app_handle app_ECS req = app_handle [Use "/" serve_static] req.
Proof.
  intros Hf Hopt Ho Horig. unfold app_handle, app_ECS. f_equal. rewrite !handle_use_root.
  destruct (decide (req_method req = GET \/ req_method req = HEAD)) as [Hgh|Hgh].
  - rewrite serve_static_get_head by done. simpl.
    destruct (String.eqb_spec (pathname (req_url req)) "/") as [Hp|Hp].
    + rewrite Horig, Hp. simpl. rewrite send_root, Hf.
      by destruct (send_found_cases req f) as [[r ->]|(st & rh & eh & ->)].
    + assert (Hr : route_match "/" (pathname (req_url req)) = false).
      { unfold route_match. simpl. apply orb_false_iff.
        split; apply String.eqb_neq; [done|]. by apply pathname_origin_nonempty. }
      destruct (send req _) as [r|st after rh eh]; [done|]. destruct (after || _); [done|].
      by rewrite Hr.
  - rewrite serve_static_other by (intros ?; apply Hgh; auto).
    rewrite handle_route_other_method; [done| |done].
    unfold handles_method. repeat case_bool_decide; naive_solver.
Qed.

(** C22: an OPTIONS request for ['/'] gets 200 with [Allow: GET,HEAD]
    from Express's automatic OPTIONS response, because of the ['/']
    route; in the 2EC2 variant as well. *)
Theorem options_root (req : request) :
  req_method req = OPTIONS -> pathname (req_url req) = "/" ->
  app_handle app_ECS req = powered (options_response ["GET"; "HEAD"]) /\
  (forall ver url, app_handle (app_2EC2 ver url) req = powered (options_response ["GET"; "HEAD"])).
Proof.
  intros Hm Hp.
  assert (Hs : handle app_ECS req [] = options_response ["GET"; "HEAD"]).
  { unfold app_ECS. rewrite handle_use_root, serve_static_other by (rewrite Hm; done).
    simpl. rewrite Hp, Hm. unfold router_done. simpl. by rewrite Hm. }
  split; [by unfold app_handle; rewrite Hs|]. intros ver url.
  rewrite app_2EC2_non_api by (rewrite Hp; reflexivity). by unfold app_handle; rewrite Hs.
Qed.

(** C23: the static layer serves only GET and HEAD, and the ['/'] route
    only GET and HEAD: any other method except OPTIONS gets
    finalhandler's 404 from the ECS app, for every path. *)
Theorem other_methods_not_found (req : request) :
  req_method req <> GET -> req_method req <> HEAD -> req_method req <> OPTIONS ->
  app_handle app_ECS req = powered (final_not_found req).
Proof.
  intros H1 H2 H3. unfold app_handle, app_ECS. rewrite handle_use_root, serve_static_other by done.
  rewrite handle_route_other_method; [|unfold handles_method; repeat case_bool_decide; naive_solver|done].
  simpl. by rewrite router_done_not_options.
Qed.
(** C15: [express.static] falls through on every refusal of [send]
    below 500: a GET or HEAD whose path [send] refuses with 403 (a [..]
    segment, literal or percent-encoded, that climbs out of [public/]),
    400 (a malformed escape or a NUL byte) or 404 (a hidden dotfile or a
    missing file) gets finalhandler's 404 from the ECS app, and from the
    2EC2 app when the path is not under ['/api']; the client never sees
    the 403 or the 400.  The path [/] goes to the index route instead. *)
Theorem static_refusal_not_found (req : request) (st : nat) (rh eh : gmap string string) :
  req_method req = GET \/ req_method req = HEAD ->
  pathname (req_url req) <> "/" -> pathname (req_url req) <> EmptyString ->
  send req (pathname (req_url req)) = SendFail st false rh eh -> (st < 500)%nat ->
  app_handle app_ECS req = powered (final_not_found req) /\
  (mount_match "/api" (pathname (req_url req)) = None ->
   forall ver url, app_handle (app_2EC2 ver url) req = powered (final_not_found req)).
Proof.
  intros Hm Hp1 Hp2 Hs Hst.
  assert (He : app_handle app_ECS req = powered (final_not_found req)).
  { unfold app_handle, app_ECS. rewrite handle_use_root, serve_static_get_head by done. cbv zeta.
    apply String.eqb_neq in Hp1 as Hp1'. rewrite Hp1'. cbn [andb]. rewrite Hs. apply Nat.ltb_lt in Hst as ->. cbn [orb negb].
    rewrite handle_route_nomatch; [by rewrite router_done_nil|].
    unfold route_match. simpl. apply orb_false_iff. split; by apply String.eqb_neq. }
  split; [done|]. intros Hapi ver url. by rewrite app_2EC2_non_api.
Qed.
(** C13: a GET or HEAD for an asset path with no file under [public/]
    gets finalhandler's 404 from the ECS app, and from the 2EC2 app when
    the path is not under ['/api'], with the proxy never consulted: the
    answer is the same for every upstream. *)
Theorem missing_asset_not_found (n : string) (req : request) :
  asset_path n = true -> static_lookup n = None ->
  req_method req = GET \/ req_method req = HEAD -> pathname (req_url req) = ("/" ++ n)%string ->
  app_handle app_ECS req = powered (final_not_found req) /\
  (mount_match "/api" ("/" ++ n)%string = None ->
   forall ver url, app_handle (app_2EC2 ver url) req = powered (final_not_found req)).
Proof.
  intros Hn Hl Hm Hp.
  assert (Hs : app_handle app_ECS req = powered (final_not_found req)).
  { unfold app_handle, app_ECS. rewrite handle_use_root, (serve_static_asset req n), Hl by done.
    pose proof (asset_path_shape n Hn) as (_ & (c & t & Hct & _) & _).
    rewrite handle_route_nomatch; [by rewrite router_done_nil|]. by rewrite Hp, Hct. }
  split; [done|]. intros Hapi ver url. by rewrite app_2EC2_non_api by (by rewrite Hp).
Qed.
(** C12: a plain GET or HEAD for an asset path naming a file under
    [public/] is answered 200 with the file (no body for HEAD) by the ECS
    app, and by the 2EC2 app when the path is not under ['/api']. *)
Theorem asset_served (n : string) (f : file) (req : request) :
  asset_path n = true -> static_lookup n = Some (FileEntry f) -> plain_get req = true ->
  req_method req = GET \/ req_method req = HEAD -> pathname (req_url req) = ("/" ++ n)%string ->
  let res := powered (mk_response 200 (<["content-length" := show_nat (String.length (f_content f))]> (file_headers f))
                        (if bool_decide (req_method req = HEAD) then EmptyString else f_content f)) in
  app_handle app_ECS req = res /\
  (mount_match "/api" ("/" ++ n)%string = None -> forall ver url, app_handle (app_2EC2 ver url) req = res).
Proof.
  intros Hn Hl Hg Hm Hp res.
  assert (Hs : app_handle app_ECS req = res).
  { unfold app_handle, app_ECS. rewrite handle_use_root, (serve_static_asset req n), Hl by done.
    by rewrite send_found_plain by done. }
  split; [done|]. intros Hapi ver url. by rewrite app_2EC2_non_api by (by rewrite Hp).
Qed.
(** C19: every answer of the ECS app to a GET, whatever the path, the
    conditional and range headers, and whatever [public/] holds,
    announces in [content-length] exactly the length of its body: whole
    files, ranges, 304s, directory redirects, and finalhandler's 404 and
    error pages alike. *)
Theorem ecs_get_length_consistent (req : request) :
  req_method req = GET -> length_consistent (app_handle app_ECS req).
Proof.
  intros Hm. apply powered_consistent.
  assert (Hh : req_method req <> HEAD) by (by rewrite Hm).
  pose proof (fun st rh eh => proj1 (final_consistent req st rh eh Hh)) as Hf.
  pose proof (proj1 (proj2 (final_consistent req 0 ∅ ∅ Hh))) as Hnf.
  unfold app_ECS. rewrite handle_use_root, serve_static_get_head by (by left). cbv zeta.
  destruct (send req _) as [r|st after rh eh] eqn:Es; [by eapply send_ok_consistent|].
  destruct (after || _); [apply Hf|]. simpl.
  destruct (route_match _ _); [|by rewrite router_done_nil].
  rewrite Hm. cbn [handles_method]. simpl. unfold send_index_file.
  destruct (static_lookup "index.html") as [[f|]|]; [|by rewrite router_done_nil|apply Hf].
  destruct (send_found req f) as [r|] eqn:Ef; [by eapply send_found_consistent|apply Hf].
Qed.
End AppProps.

(** ** The forwarded request *)

(** The rewrite of the 2EC2 options: ['^/api'] replaced by nothing. *)
Lemma rewrite_api_strip (r : string) : rewrite_path (po_path_rewrite (options_2EC2 EmptyString)) ("/api" ++ r) = r.
Proof. reflexivity. Qed.

Lemma rewrite_api_keep (x : string) :
  strip_prefix "/api" x = None -> rewrite_path (po_path_rewrite (options_2EC2 EmptyString)) x = x.
Proof. intros H. cbn [rewrite_path po_path_rewrite options_2EC2 rx_replace]. by rewrite H. Qed.

(** The URL http-proxy reads from the request the 2EC2 app hands it:
    version 2 rewrites the original URL, version 3 the URL the router
    trimmed. *)
Lemma prepared_url (ver : hpm_version) (url : string) (req : request) (lp : string) :
  req_url (delete_length (prepare_request ver (options_2EC2 url) (fst (trim_prefix req lp)))) =
  rewrite_path (po_path_rewrite (options_2EC2 EmptyString))
    match ver with
    | HPM_v2 => js_or (Some (req_original_url req)) (req_url (fst (trim_prefix req lp)))
    | HPM_v3 => req_url (fst (trim_prefix req lp))
    end.
Proof.
  destruct (delete_length_fields (prepare_request ver (options_2EC2 url) (fst (trim_prefix req lp))))
    as (_ & -> & _).
  assert (Ho : req_original_url (fst (trim_prefix req lp)) = req_original_url req)
    by (unfold trim_prefix; by repeat case_match).
  unfold prepare_request. destruct ver; cbn [req_url set_url]; [by rewrite Ho|done].
Qed.

Lemma lower_api_slash (q : string) : lower q = "/api" -> starts_with "/" q = true.
Proof.
  destruct q as [|a q]; [done|]. simpl. intros [= Ha _].
  revert Ha. destruct a as [[] [] [] [] [] [] [] []]; vm_compute; congruence.
Qed.

Lemma lower_api_no_query (q : string) : lower q = "/api" -> has_char "?" q = false.
Proof.
  intros Hq. destruct (has_char "?" q) eqn:E; [|done].
  apply has_char_lower in E; [by rewrite Hq in E|reflexivity].
Qed.

(** A request for [q/c...], with [q] the mount path in any letter case and
    a first segment, is mounted on [q]; version 2 rewrites the whole
    path, version 3 the remainder [/c...]. *)
Lemma prepared_url_sub (ver : hpm_version) (url : string) (req : request) (q : string) (c : ascii) (t : string) :
  req_original_url req = req_url req -> req_url req = (q ++ String "/" (String c t))%string -> lower q = "/api" ->
  c <> "/"%char -> c <> "?"%char ->
  mount_match "/api" (pathname (req_url req)) = Some q /\
  req_url (delete_length (prepare_request ver (options_2EC2 url) (fst (trim_prefix req q)))) =
  rewrite_path (po_path_rewrite (options_2EC2 EmptyString))
    match ver with HPM_v2 => (q ++ String "/" (String c t))%string | HPM_v3 => String "/" (String c t) end.
Proof.
  intros Ho Hu Hq Hc1 Hc2. split.
  { rewrite Hu. unfold pathname. rewrite split_first_prefix by (by apply lower_api_no_query).
    rewrite !split_first_cons_ne by done. by apply mount_match_api_sub. }
  rewrite prepared_url. unfold trim_prefix.
  assert (Hl := lower_api_length q Hq). destruct q as [|a q']; [done|]. cbn [String.eqb].
  rewrite Hu, str_drop_app. change (starts_with "/" (String "/" (String c t))) with true.
  cbn [fst]. rewrite set_url_url. destruct ver; [|done]. rewrite Ho, Hu. reflexivity.
Qed.

(** For an origin target, a proxied request goes to the path [url.parse]
    reads from the prepared URL, joined to the target's [/]. *)
Lemma upstream_path_origin (ver : hpm_version) (scheme host : string) (port : option string)
    (req : request) (lp : string) (ru : NodeUrl.parsed) :
  scheme = "http" \/ scheme = "https" -> NodeUrl.origin_host host = true -> NodeUrl.origin_port port = true ->
  mount_match "/api" (pathname (req_url req)) = Some lp ->
  NodeUrl.parse (req_url (delete_length (prepare_request ver (options_2EC2 (NodeUrl.origin scheme host port))
                                           (fst (trim_prefix req lp))))) = Some ru ->
  exists out, upstream_request ver (NodeUrl.origin scheme host port) req = Some out /\
    out_path out = HttpProxyCommon.url_join "/" (default "" (NodeUrl.u_path ru)).
Proof.
  intros Hs Hh Hp Hm Hru.
  destruct (parse_origin scheme host port Hs Hh Hp) as (t & Ht & Hproto & Hhost & _ & _ & Hpath).
  destruct (setup_outgoing_Some (options_2EC2 (NodeUrl.origin scheme host port))
              (delete_length (prepare_request ver (options_2EC2 (NodeUrl.origin scheme host port))
                                (fst (trim_prefix req lp)))) t ru (scheme ++ ":") host Ht Hru Hproto Hhost)
    as (out & Hout & Op & _ & _ & _ & _ & Hpth & _).
  exists out. unfold upstream_request. rewrite Hm.
  rewrite (outgoing_request_accepted _ _ _ Hout) by (rewrite Op; by destruct Hs as [-> | ->]).
  split; [done|]. by rewrite Hpth, Hpath.
Qed.

(** The same, for a prepared URL that is a plain remainder. *)
Lemma upstream_path_plain (ver : hpm_version) (scheme host : string) (port : option string)
    (req : request) (lp : string) :
  scheme = "http" \/ scheme = "https" -> NodeUrl.origin_host host = true -> NodeUrl.origin_port port = true ->
  mount_match "/api" (pathname (req_url req)) = Some lp ->
  plain_rest (req_url (delete_length (prepare_request ver (options_2EC2 (NodeUrl.origin scheme host port))
                                        (fst (trim_prefix req lp))))) = true ->
  exists out, upstream_request ver (NodeUrl.origin scheme host port) req = Some out /\
    out_path out = ProxySpec.request_target
      (req_url (delete_length (prepare_request ver (options_2EC2 (NodeUrl.origin scheme host port))
                                 (fst (trim_prefix req lp))))).
Proof.
  intros Hs Hh Hp Hm Hr. destruct (outgoing_path_plain _ Hr) as (ru & Hru & Hj).
  destruct (upstream_path_origin ver scheme host port req lp ru Hs Hh Hp Hm Hru) as (out & Hu & Hpth).
  exists out. by rewrite Hpth.
Qed.


Lemma request_target_api (q x : string) :
  lower q = "/api" -> ProxySpec.request_target (q ++ x) = (q ++ x)%string.
Proof.
  intros Hq. apply lower_api_slash, starts_with_spec in Hq as [q' ->].
  unfold ProxySpec.request_target. by rewrite <- string_app_assoc, starts_with_app.
Qed.

(** A request for [/api?q] is mounted on [/api]; version 2 rewrites the
    original URL to [?q], version 3 the trimmed URL [/?q], which the
    rewrite leaves alone. *)
Lemma prepared_url_query (ver : hpm_version) (url : string) (req : request) (q : string) :
  req_original_url req = req_url req -> req_url req = ("/api?" ++ q)%string ->
  mount_match "/api" (pathname (req_url req)) = Some "/api" /\
  req_url (delete_length (prepare_request ver (options_2EC2 url) (fst (trim_prefix req "/api")))) =
  match ver with HPM_v2 => String "?" q | HPM_v3 => String "/" (String "?" q) end.
Proof.
  intros Ho Hu. rewrite Hu. change ("/api?" ++ q)%string with ("/api" ++ String "?" q)%string. split.
  { rewrite (proj1 (pathname_app_query "/api" q eq_refl)). by apply mount_match_api_exact. }
  rewrite prepared_url. unfold trim_prefix. cbn [String.eqb]. rewrite Hu.
  change ("/api?" ++ q)%string with ("/api" ++ String "?" q)%string. rewrite str_drop_app.
  change (starts_with "/" (String "?" q)) with false. cbn [fst]. rewrite set_url_url.
  destruct ver; [|by apply rewrite_api_keep]. rewrite Ho, Hu. apply (rewrite_api_strip (String "?" q)).
Qed.

Lemma plain_rest_query (q : string) :
  target_chars_ok q = true -> str_forall NodeUrl.not_ws q = true -> plain_rest (String "/" (String "?" q)) = true.
Proof. intros Hq Hw. unfold plain_rest, pathname, target_chars_ok in *. simpl. by rewrite Hq, Hw. Qed.

(** C25: version 2 of http-proxy-middleware forwards the mount prefix
    when the request spells it in another letter case: the
    case-insensitive ['/api'] mount accepts [/API/items], [/Api/x] and
    the like, but the case-sensitive ['^/api'] rewrite does not, so
    version 2 sends the whole path [q/s] upstream, prefix included,
    while version 3 sends [/s]. *)
Theorem v2_case_variant_forwarded (scheme host : string) (port : option string) (req : request)
    (q : string) (c : ascii) (t : string) :
  scheme = "http" \/ scheme = "https" -> NodeUrl.origin_host host = true -> NodeUrl.origin_port port = true ->
  req_original_url req = req_url req -> req_url req = (q ++ String "/" (String c t))%string ->
  lower q = "/api" -> q <> "/api" -> c <> "/"%char -> c <> "?"%char ->
  starts_with "/api" (String "/" (String c t)) = false ->
  plain_rest (q ++ String "/" (String c t)) = true -> plain_rest (String "/" (String c t)) = true ->
  (exists out, upstream_request HPM_v2 (NodeUrl.origin scheme host port) req = Some out /\
     out_path out = (q ++ String "/" (String c t))%string) /\
  (exists out, upstream_request HPM_v3 (NodeUrl.origin scheme host port) req = Some out /\
     out_path out = String "/" (String c t)).
Proof.
  intros Hs Hh Hp Ho Hu Hq Hne Hc1 Hc2 Hst Hr2 Hr3.
  destruct (prepared_url_sub HPM_v2 (NodeUrl.origin scheme host port) req q c t Ho Hu Hq Hc1 Hc2) as [Hm H2].
  destruct (prepared_url_sub HPM_v3 (NodeUrl.origin scheme host port) req q c t Ho Hu Hq Hc1 Hc2) as [_ H3].
  rewrite rewrite_api_keep in H2 by (apply strip_prefix_app_ne; [exact (lower_api_length q Hq)|done]).
  rewrite rewrite_api_keep in H3 by (unfold starts_with in Hst; by destruct (strip_prefix _ _)).
  split.
  - destruct (upstream_path_plain HPM_v2 scheme host port req q Hs Hh Hp Hm) as (out & Hup & Hpth);
      [by rewrite H2|].
    exists out. split; [done|]. rewrite Hpth, H2. by apply request_target_api.
  - destruct (upstream_path_plain HPM_v3 scheme host port req q Hs Hh Hp Hm) as (out & Hup & Hpth);
      [by rewrite H3|].
    exists out. split; [done|]. by rewrite Hpth, H3.
Qed.

(** C26: version 3 strips the prefix twice when the remainder starts
    with [/api] again: a request for [/api/api] followed by [r] reaches
    the upstream as [r] under version 3, where version 2 sends [/api]
    followed by [r], the path the spec's contract (strip the prefix
    once) gives. *)
Theorem v3_double_strip (scheme host : string) (port : option string) (req : request) (r : string) :
  scheme = "http" \/ scheme = "https" -> NodeUrl.origin_host host = true -> NodeUrl.origin_port port = true ->
  req_original_url req = req_url req -> req_url req = ("/api/api" ++ r)%string ->
  plain_rest ("/api" ++ r) = true -> plain_rest r = true ->
  ProxySpec.forwarded_path "/api" (req_original_url req) = Some ("/api" ++ r)%string /\
  (exists out, upstream_request HPM_v2 (NodeUrl.origin scheme host port) req = Some out /\
     out_path out = ("/api" ++ r)%string) /\
  (exists out, upstream_request HPM_v3 (NodeUrl.origin scheme host port) req = Some out /\
     out_path out = ProxySpec.request_target r).
Proof.
  intros Hs Hh Hp Ho Hu Hr2 Hr3.
  assert (Hu' : req_url req = ("/api" ++ String "/" (String "a" ("pi" ++ r)))%string) by (rewrite Hu; reflexivity).
  destruct (prepared_url_sub HPM_v2 (NodeUrl.origin scheme host port) req "/api" "a" ("pi" ++ r)
              Ho Hu' eq_refl ltac:(discriminate) ltac:(discriminate)) as [Hm H2].
  destruct (prepared_url_sub HPM_v3 (NodeUrl.origin scheme host port) req "/api" "a" ("pi" ++ r)
              Ho Hu' eq_refl ltac:(discriminate) ltac:(discriminate)) as [_ H3].
  change ("/api" ++ String "/" (String "a" ("pi" ++ r)))%string with ("/api" ++ ("/api" ++ r))%string in H2.
  change (String "/" (String "a" ("pi" ++ r))) with ("/api" ++ r)%string in H3.
  rewrite rewrite_api_strip in H2, H3.
  split; [by rewrite Ho, Hu|]. split.
  - destruct (upstream_path_plain HPM_v2 scheme host port req "/api" Hs Hh Hp Hm) as (out & Hup & Hpth);
      [by rewrite H2|].
    exists out. split; [done|]. rewrite Hpth, H2. reflexivity.
  - destruct (upstream_path_plain HPM_v3 scheme host port req "/api" Hs Hh Hp Hm) as (out & Hup & Hpth);
      [by rewrite H3|].
    exists out. split; [done|]. by rewrite Hpth, H3.
Qed.

(** C27: the query string is not always forwarded verbatim: for a
    request [/api?q], version 2 rewrites the original URL to [?q], which
    [url.parse] takes on its slow path through the autoEscape table, so
    the upstream receives [/?] followed by [q] with quotes, [<], [>],
    backslash, [^], backquote, braces and [|] percent-encoded; version 3
    rewrites the URL the router trimmed, [/?q], and sends it unchanged. *)
Theorem v2_query_escaped (scheme host : string) (port : option string) (req : request) (q : string) :
  scheme = "http" \/ scheme = "https" -> NodeUrl.origin_host host = true -> NodeUrl.origin_port port = true ->
  req_original_url req = req_url req -> req_url req = ("/api?" ++ q)%string ->
  target_chars_ok q = true -> str_forall NodeUrl.not_ws q = true ->
  (exists out, upstream_request HPM_v2 (NodeUrl.origin scheme host port) req = Some out /\
     out_path out = ("/?" ++ NodeUrl.auto_escape q)%string) /\
  (exists out, upstream_request HPM_v3 (NodeUrl.origin scheme host port) req = Some out /\
     out_path out = ("/?" ++ q)%string).
Proof.
  intros Hs Hh Hp Ho Hu Hq Hw.
  destruct (prepared_url_query HPM_v2 (NodeUrl.origin scheme host port) req q Ho Hu) as [Hm H2].
  destruct (prepared_url_query HPM_v3 (NodeUrl.origin scheme host port) req q Ho Hu) as [_ H3].
  split.
  - destruct (parse_query q) as (ru & Hru & Hpath); [done | by apply target_no_hash |].
    rewrite <- H2 in Hru.
    destruct (upstream_path_origin HPM_v2 scheme host port req "/api" ru Hs Hh Hp Hm Hru) as (out & Hup & Hpth).
    exists out. split; [done|]. rewrite Hpth, Hpath. simpl default. rewrite url_join_split. reflexivity.
  - destruct (upstream_path_plain HPM_v3 scheme host port req "/api" Hs Hh Hp Hm) as (out & Hup & Hpth);
      [rewrite H3; by apply plain_rest_query|].
    exists out. split; [done|]. by rewrite Hpth, H3.
Qed.

Section Relayed.
Context `{Upstream} `{StaticRoot}.

End Relayed.

Section Unusable.
Context `{Upstream} `{StaticRoot}.

End Unusable.

(** ** Startup and serving *)

(** C17: without [BACKEND_URL] the proxying server never serves: every
    run from boot either has not started or has printed the diagnostic,
    exited with status 1, and stopped. *)
Theorem missing_backend_never_serves `{Upstream} `{StaticRoot} (ver : hpm_version)
    (env : gmap string string) (bind_err : option string) (tr : list event) (s : proc_state) :
  js_falsy_env (env !! "BACKEND_URL") = true ->
  run (Variant2EC2 ver) env bind_err Booting tr s ->
  (tr = [] /\ s = Booting) \/
  (tr = [Effect (ConsoleError "Error: BACKEND_URL is missing!"); Effect (ProcessExit 1)] /\ s = Exited 1).
Proof.
  intros Hf Hrun. destruct (run_from_boot _ _ _ _ _ Hrun) as [Hnil|(evs & -> & Hr)]; [by left|right].
  unfold boot, main_2EC2 in *. rewrite Hf in *. simpl in *.
  by apply run_exited in Hr as [-> ->].
Qed.

(** ** Witnesses *)

Section Witnesses.
#[local] Existing Instance echo_upstream.
#[local] Existing Instance demo_root.


Lemma app_2EC2_non_api_witness :
  app_handle (app_2EC2 HPM_v2 "http://upstream:9000") (demo_request GET "/app.js") =
  app_handle app_ECS (demo_request GET "/app.js").
Proof. apply app_2EC2_non_api. reflexivity. Defined.

Lemma get_root_serves_index_witness :
  app_handle app_ECS (demo_request GET "/") =
    powered (mk_response 200 (<["content-length" := "33"]> (file_headers demo_index)) (f_content demo_index)).
Proof.
  pose proof (get_root_serves_index demo_index (demo_request GET "/") eq_refl eq_refl
                (or_introl eq_refl) eq_refl eq_refl) as [Hs _].
  exact Hs.
Defined.

Lemma index_route_unreachable_witness :
  app_handle app_ECS (demo_request HEAD "/") = app_handle [Use "/" serve_static] (demo_request HEAD "/").
Proof. apply (index_route_unreachable demo_index); [reflexivity|discriminate|reflexivity|reflexivity]. Defined.

Lemma options_root_witness :
  app_handle app_ECS (demo_request OPTIONS "/") = powered (options_response ["GET"; "HEAD"]).
Proof. apply (options_root (demo_request OPTIONS "/")); reflexivity. Defined.

Lemma other_methods_not_found_witness :
  app_handle app_ECS (demo_request POST "/") = powered (final_not_found (demo_request POST "/")).
Proof. apply other_methods_not_found; discriminate. Defined.

Lemma missing_asset_not_found_witness :
  app_handle app_ECS (demo_request GET "/api/items") = powered (final_not_found (demo_request GET "/api/items")).
Proof.
  apply (missing_asset_not_found "api/items" (demo_request GET "/api/items"));
    [reflexivity|reflexivity|left; reflexivity|reflexivity].
Defined.



Lemma served_after_listening_witness :
  Effect (Listening "0.0.0.0" 3000) ∈ (Effect <$> fst (boot VariantECS ∅ None)).
Proof.
  apply (served_after_listening VariantECS ∅ None
           ((Effect <$> fst (boot VariantECS ∅ None)) ++ [Served (demo_request GET "/") (app_handle app_ECS (demo_request GET "/"))])
           _ [] (Serving app_ECS) (demo_request GET "/") (app_handle app_ECS (demo_request GET "/")));
    [|reflexivity].
  eapply run_step; [apply step_boot|]. simpl.
  rewrite <- (app_nil_r [Served (demo_request GET "/") (app_handle app_ECS (demo_request GET "/"))]).
  eapply run_step; [apply step_serve|apply run_refl].
Defined.

Lemma missing_backend_never_serves_witness :
  ((Effect <$> fst (boot (Variant2EC2 HPM_v2) ∅ None)) ++ [] = [] /\ snd (boot (Variant2EC2 HPM_v2) ∅ None) = Booting) \/
  ((Effect <$> fst (boot (Variant2EC2 HPM_v2) ∅ None)) ++ [] =
     [Effect (ConsoleError "Error: BACKEND_URL is missing!"); Effect (ProcessExit 1)] /\
   snd (boot (Variant2EC2 HPM_v2) ∅ None) = Exited 1).
Proof.
  apply (missing_backend_never_serves HPM_v2 ∅ None); [reflexivity|].
  eapply run_step; [apply step_boot|apply run_refl].
Defined.
Lemma ecs_get_length_consistent_witness :
  length_consistent (app_handle app_ECS (demo_request GET "/css")).
Proof. apply ecs_get_length_consistent; reflexivity. Defined.

Lemma asset_served_witness :
  app_handle app_ECS (demo_request GET "/app.js") =
    powered (mk_response 200 (<["content-length" := "6"]> (file_headers demo_app_js)) (f_content demo_app_js)).
Proof.
  pose proof (asset_served "app.js" demo_app_js (demo_request GET "/app.js") eq_refl eq_refl eq_refl
                (or_introl eq_refl) eq_refl) as [Hs _].
  exact Hs.
Defined.
Lemma static_refusal_not_found_witness :
  app_handle app_ECS (demo_request GET "/%2e%2e/server.js") =
    powered (final_not_found (demo_request GET "/%2e%2e/server.js")) /\
  (mount_match "/api" (pathname (req_url (demo_request GET "/%2e%2e/server.js"))) = None ->
   forall ver url, app_handle (app_2EC2 ver url) (demo_request GET "/%2e%2e/server.js") =
                   powered (final_not_found (demo_request GET "/%2e%2e/server.js"))).
Proof.
  apply (static_refusal_not_found _ 403 ∅ ∅);
    [left; reflexivity | vm_compute; intros H; discriminate H | vm_compute; intros H; discriminate H
    | vm_compute; reflexivity | lia].
Defined.

Lemma v2_case_variant_forwarded_witness :
  (exists out, upstream_request HPM_v2 (NodeUrl.origin "http" "upstream" (Some "9000"))
                 (demo_request GET "/API/items") = Some out /\ out_path out = "/API/items") /\
  (exists out, upstream_request HPM_v3 (NodeUrl.origin "http" "upstream" (Some "9000"))
                 (demo_request GET "/API/items") = Some out /\ out_path out = "/items").
Proof.
  exact (v2_case_variant_forwarded "http" "upstream" (Some "9000") (demo_request GET "/API/items") "/API" "i" "tems"
           (or_introl eq_refl) eq_refl eq_refl eq_refl eq_refl eq_refl ltac:(discriminate) ltac:(discriminate)
           ltac:(discriminate) eq_refl ltac:(vm_compute; reflexivity) ltac:(vm_compute; reflexivity)).
Defined.

Lemma v3_double_strip_witness :
  ProxySpec.forwarded_path "/api" (req_original_url (demo_request GET "/api/api/x")) = Some "/api/x" /\
  (exists out, upstream_request HPM_v2 (NodeUrl.origin "http" "upstream" (Some "9000"))
                 (demo_request GET "/api/api/x") = Some out /\ out_path out = "/api/x") /\
  (exists out, upstream_request HPM_v3 (NodeUrl.origin "http" "upstream" (Some "9000"))
                 (demo_request GET "/api/api/x") = Some out /\ out_path out = ProxySpec.request_target "/x").
Proof.
  exact (v3_double_strip "http" "upstream" (Some "9000") (demo_request GET "/api/api/x") "/x"
           (or_introl eq_refl) eq_refl eq_refl eq_refl eq_refl
           ltac:(vm_compute; reflexivity) ltac:(vm_compute; reflexivity)).
Defined.

Lemma v2_query_escaped_witness :
  (exists out, upstream_request HPM_v2 (NodeUrl.origin "http" "upstream" (Some "9000"))
                 (demo_request GET "/api?q={1}") = Some out /\ out_path out = ("/?" ++ NodeUrl.auto_escape "q={1}")%string) /\
  (exists out, upstream_request HPM_v3 (NodeUrl.origin "http" "upstream" (Some "9000"))
                 (demo_request GET "/api?q={1}") = Some out /\ out_path out = "/?q={1}").
Proof.
  exact (v2_query_escaped "http" "upstream" (Some "9000") (demo_request GET "/api?q={1}") "q={1}"
           (or_introl eq_refl) eq_refl eq_refl eq_refl eq_refl
           ltac:(vm_compute; reflexivity) ltac:(vm_compute; reflexivity)).
Defined.


End Witnesses.

(** ** Reachable states *)

Section Reachable.
Context `{Upstream} `{StaticRoot}.
Variable v : variant.
Variable env : gmap string string.
Variable bind_err : option string.

Lemma boot_inv : process_inv v env (snd (boot v env bind_err)).
Proof.
  unfold process_inv, boot. destruct v as [ver|].
  - unfold main_2EC2, hpm_created. destruct (env !! "BACKEND_URL") as [url|] eqn:Hu; simpl.
    + destruct (String.eqb_spec url ""); simpl; [by right; left|].
      destruct bind_err, ver; simpl; try (by right; left); right; right; left; by eexists _, url.
    + by right; left.
  - rewrite main_ECS_outcome. destruct bind_err; simpl; [by right; left|]. by do 3 right.
Qed.

Lemma step_inv (s1 s2 : proc_state) (ev : list event) :
  step v env bind_err s1 ev s2 -> process_inv v env s1 -> process_inv v env s2.
Proof. destruct 1; [intros _; apply boot_inv|done]. Qed.

(** C16: every state a process reaches from boot is booting, exited with
    status 1, or serving its variant's app; the 2EC2 app only ever
    serves with a non-empty [BACKEND_URL] from the environment as its
    proxy target. *)
Theorem reachable_states (tr : list event) (s : proc_state) :
  run v env bind_err Booting tr s -> process_inv v env s.
Proof.
  assert (Hb : process_inv v env Booting) by by left.
  revert Hb. generalize Booting. intros s0 Hs0 Hrun. revert Hs0.
  induction Hrun as [|s1 s2 s3 ev evs Hstep Hr IH]; [done|].
  intros Hs1. apply IH. exact (step_inv _ _ _ Hstep Hs1).
Qed.
End Reachable.

Section ReachableWitness.
#[local] Existing Instance echo_upstream.
#[local] Existing Instance demo_root.

Lemma reachable_states_witness :
  process_inv (Variant2EC2 HPM_v2) {["BACKEND_URL" := "http://upstream:9000"]}
    (snd (boot (Variant2EC2 HPM_v2) {["BACKEND_URL" := "http://upstream:9000"]} None)).
Proof.
  apply (reachable_states (Variant2EC2 HPM_v2) {["BACKEND_URL" := "http://upstream:9000"]} None
           ((Effect <$> fst (boot (Variant2EC2 HPM_v2) {["BACKEND_URL" := "http://upstream:9000"]} None)) ++ [])).
  eapply run_step; [apply step_boot|apply run_refl].
Defined.
End ReachableWitness.

